(** * CVE classification pipeline: [llm_classifier.py] and [llm_start.py]

    A shallow embedding of the Response Extractor ([safe_json_loads]), the
    Transport Client ([_query]), the Classifier ([CVEClassifier.classify]), the
    group loader ([process_file_group]) and the loop of [main] that drains the
    completed futures, followed by the properties of the specification.

    Conventions.
    - A Python [str] is a [string]: the bytes of its UTF-8 encoding.
    - A Python value is a [pyval]; a [dict] is an association list in
      insertion order whose keys are strings (every dict of the program comes
      from JSON or from a literal with string keys).
    - A Python computation that may raise is a [res]; one that also acts on
      the outside world is an [M], a function of the [world]. *)

From Stdlib Require Import ZArith List String Ascii Bool Lia.
Import ListNotations.
Local Open Scope string_scope.
Local Open Scope Z_scope.
#[local] Set Warnings "-register-all".

(** ** Python values *)

Module Py.

(** A float is kept as the decimal number its literal denotes, [m * 10^e]:
    the program never computes with floats read from JSON, it only tests
    them for truth. *)
Inductive pyfloat : Type :=
| FDec (m e : Z)
| FNaN
| FInf (negative : bool).

Inductive pyval : Type :=
| PNone
| PBool (b : bool)
| PInt (z : Z)
| PFloat (f : pyfloat)
| PStr (s : string)
| PList (l : list pyval)
| PDict (d : list (string * pyval)).

Definition pydict : Type := list (string * pyval).

(** The exceptions the modelled code can meet. [OSError] is the error of a
    system call (a sleep the platform refuses, a file that cannot be opened
    or written); [OtherError] stands for the remaining subclasses of
    [Exception] (the faults of the network library). *)
Inductive exn : Type :=
| AttributeError | TypeError | KeyError | IndexError
| ValueError | OverflowError | OSError | RuntimeError | OtherError.

Inductive res (A : Type) : Type :=
| Ok (a : A)
| Raise (e : exn).
Arguments Ok {A} a.
Arguments Raise {A} e.

Definition res_bind {A B} (r : res A) (k : A -> res B) : res B :=
  match r with
  | Ok a => k a
  | Raise e => Raise e
  end.

(** [float(lit) == 0.0] for a decimal literal: binary64 rounds to zero
    exactly the values of magnitude at most [2^-1075]. *)
Definition float_is_zero (f : pyfloat) : bool :=
  match f with
  | FDec m e =>
      if m =? 0 then true
      else if 0 <=? e then false
      else Z.abs m * 2 ^ 1075 <=? 10 ^ (- e)
  | FNaN => false
  | FInf _ => false
  end.

(** [bool(v)] *)
Definition truthy (v : pyval) : bool :=
  match v with
  | PNone => false
  | PBool b => b
  | PInt z => negb (z =? 0)
  | PFloat f => negb (float_is_zero f)
  | PStr s => negb (s =? "")%string
  | PList l => match l with [] => false | _ => true end
  | PDict d => match d with [] => false | _ => true end
  end.

(** [x or y] *)
Definition py_or (x y : pyval) : pyval := if truthy x then x else y.

(** *** Dictionaries *)

Fixpoint dict_lookup {V} (k : string) (d : list (string * V)) : option V :=
  match d with
  | [] => None
  | (k', v) :: d' => if (k' =? k)%string then Some v else dict_lookup k d'
  end.

(** [d[k] = v]: an existing key keeps its position. *)
Fixpoint dict_set {V} (k : string) (v : V) (d : list (string * V))
  : list (string * V) :=
  match d with
  | [] => [(k, v)]
  | (k', v') :: d' =>
      if (k' =? k)%string then (k, v) :: d' else (k', v') :: dict_set k v d'
  end.

(** [d.update(other)] *)
Definition dict_update {V} (d other : list (string * V)) : list (string * V) :=
  fold_left (fun acc kv => dict_set (fst kv) (snd kv) acc) other d.

Definition dict_keys {V} (d : list (string * V)) : list string := map fst d.

(** [x.get(k, default)] on an arbitrary value [x]: only a dict has [get]. *)
Definition py_get (x : pyval) (k : string) (default : pyval) : res pyval :=
  match x with
  | PDict d =>
      Ok (match dict_lookup k d with Some v => v | None => default end)
  | _ => Raise AttributeError
  end.

(** [x.get(k, default)] where the key [k] is itself an arbitrary value, as
    when it is read from the output template: a list or dict key is
    unhashable, and a key that is not a string is never found among string
    keys. *)
Definition py_get_val (x : pyval) (k : pyval) (default : pyval) : res pyval :=
  match x with
  | PDict d =>
      match k with
      | PList _ | PDict _ => Raise TypeError
      | PStr s =>
          Ok (match dict_lookup s d with Some v => v | None => default end)
      | _ => Ok default
      end
  | _ => Raise AttributeError
  end.

(** [x[0]] *)
Definition py_item0 (x : pyval) : res pyval :=
  match x with
  | PList l => match l with v :: _ => Ok v | [] => Raise IndexError end
  | PStr s =>
      match s with
      | String c _ => Ok (PStr (String c EmptyString))
      | EmptyString => Raise IndexError
      end
  | PDict _ => Raise KeyError
  | _ => Raise TypeError
  end.

(** [x.items()] *)
Definition py_items (x : pyval) : res (list (string * pyval)) :=
  match x with
  | PDict d => Ok d
  | _ => Raise AttributeError
  end.

(** [range(lo, hi)] *)
Definition py_range (lo hi : Z) : list Z :=
  map (fun i => lo + Z.of_nat i) (seq 0 (Z.to_nat (hi - lo))).

(** *** Strings *)

(** The double quote character. *)
Definition dquote : ascii := ascii_of_N 34.

(** [s] between double quotes. *)
Definition quoted (s : string) : string :=
  String dquote (s ++ String dquote EmptyString).

(** [sub in s] *)
Fixpoint str_contains (sub s : string) : bool :=
  if prefix sub s then true
  else match s with
       | EmptyString => false
       | String _ r => str_contains sub r
       end.

Fixpoint str_rev_onto (s acc : string) : string :=
  match s with
  | EmptyString => acc
  | String c r => str_rev_onto r (String c acc)
  end.

Definition str_rev (s : string) : string := str_rev_onto s EmptyString.

Definition byte_in (c : ascii) (lo hi : N) : bool :=
  (N.leb lo (N_of_ascii c) && N.leb (N_of_ascii c) hi)%bool.

(** The characters for which [str.isspace] holds, by the bytes of their
    encoding: U+0009..U+000D, U+001C..U+0020 in one byte; U+0085 and U+00A0
    in two; U+1680, U+2000..U+200A, U+2028, U+2029, U+202F, U+205F and U+3000
    in three. *)
Definition space1 (c : ascii) : bool :=
  (byte_in c 9 13 || byte_in c 28 32)%bool.

Definition space2 (c1 c2 : ascii) : bool :=
  (byte_in c1 194 194 && (byte_in c2 133 133 || byte_in c2 160 160))%bool.

Definition space3 (c1 c2 c3 : ascii) : bool :=
  ((byte_in c1 225 225 && byte_in c2 154 154 && byte_in c3 128 128)
   || (byte_in c1 226 226 && byte_in c2 128 128
       && (byte_in c3 128 138 || byte_in c3 168 169 || byte_in c3 175 175))
   || (byte_in c1 226 226 && byte_in c2 129 129 && byte_in c3 159 159)
   || (byte_in c1 227 227 && byte_in c2 128 128 && byte_in c3 128 128))%bool.

(** [s.lstrip()] *)
Fixpoint str_lstrip (s : string) : string :=
  match s with
  | EmptyString => EmptyString
  | String c1 r1 =>
      if space1 c1 then str_lstrip r1
      else match r1 with
           | EmptyString => s
           | String c2 r2 =>
               if space2 c1 c2 then str_lstrip r2
               else match r2 with
                    | EmptyString => s
                    | String c3 r3 =>
                        if space3 c1 c2 c3 then str_lstrip r3 else s
                    end
           end
  end.

(** The same from the right end, on the reversed string. *)
Fixpoint str_lstrip_rev (s : string) : string :=
  match s with
  | EmptyString => EmptyString
  | String c1 r1 =>
      if space1 c1 then str_lstrip_rev r1
      else match r1 with
           | EmptyString => s
           | String c2 r2 =>
               if space2 c2 c1 then str_lstrip_rev r2
               else match r2 with
                    | EmptyString => s
                    | String c3 r3 =>
                        if space3 c3 c2 c1 then str_lstrip_rev r3 else s
                    end
           end
  end.

(** [s.strip()] *)
Definition str_strip (s : string) : string :=
  str_rev (str_lstrip_rev (str_rev (str_lstrip s))).

(** [s.replace(old, new)] for a non-empty [old]: the occurrences are replaced
    from left to right without overlap. [skip] counts the characters of a
    match that are still to be dropped. *)
Fixpoint str_replace_from (old new s : string) (skip : nat) : string :=
  match s with
  | EmptyString => EmptyString
  | String c r =>
      match skip with
      | S k => str_replace_from old new r k
      | O =>
          if prefix old s
          then new ++ str_replace_from old new r (Nat.pred (length old))
          else String c (str_replace_from old new r O)
      end
  end.

Definition str_replace (s old new : string) : string :=
  str_replace_from old new s O.

(** [os.path.join(a, b)] on a POSIX system *)
Definition str_last (s : string) : option ascii :=
  match str_rev s with
  | EmptyString => None
  | String c _ => Some c
  end.

Definition path_join (a b : string) : string :=
  if prefix "/" b then b
  else match str_last a with
       | None => b
       | Some c => if Ascii.eqb c "/" then a ++ b else a ++ "/" ++ b
       end.

End Py.
Export Py.

(** ** [json.loads]

    The decoder of the standard [json] module on a [str]: RFC 8259 with the
    module's extensions [NaN], [Infinity] and [-Infinity], duplicate keys
    resolved as a [dict] does. [None] stands for any exception the decoder
    raises. Two limits of the interpreter are not modelled: its recursion
    limit on deeply nested documents and its limit on the number of digits of
    an integer literal. *)

Module Json.

Inductive parse (A : Type) : Type :=
| Parsed (a : A) (rest : string)
| SyntaxError
| OutOfFuel.
Arguments Parsed {A} a rest.
Arguments SyntaxError {A}.
Arguments OutOfFuel {A}.

Definition is_ws (c : ascii) : bool :=
  (byte_in c 32 32 || byte_in c 9 10 || byte_in c 13 13)%bool.

Fixpoint skip_ws (s : string) : string :=
  match s with
  | EmptyString => EmptyString
  | String c r => if is_ws c then skip_ws r else s
  end.

Fixpoint strip_prefix (p s : string) : option string :=
  match p, s with
  | EmptyString, _ => Some s
  | String a p', String b s' =>
      if Ascii.eqb a b then strip_prefix p' s' else None
  | String _ _, EmptyString => None
  end.

(** The rest of [s] after its first character, when that is [c]. *)
Definition starts_with (c : ascii) (s : string) : option string :=
  match s with
  | String c' r => if Ascii.eqb c' c then Some r else None
  | EmptyString => None
  end.

(** *** Numbers *)

Definition is_digit (c : ascii) : bool := byte_in c 48 57.

Definition digit_val (c : ascii) : Z := Z.of_N (N_of_ascii c) - 48.

(** Reads a possibly empty run of digits: its value on top of [acc], the
    number of digits on top of [n], and the rest. *)
Fixpoint scan_digits (s : string) (acc n : Z) : Z * Z * string :=
  match s with
  | EmptyString => (acc, n, s)
  | String c r =>
      if is_digit c then scan_digits r (10 * acc + digit_val c) (n + 1)
      else (acc, n, s)
  end.

(** A run of at least one digit. *)
Definition scan_digits1 (s : string) : option (Z * Z * string) :=
  match s with
  | String c _ => if is_digit c then Some (scan_digits s 0 0) else None
  | EmptyString => None
  end.

(** The integer part: a single zero, or a non-zero digit and further digits. *)
Definition scan_int_part (s : string) : option (Z * string) :=
  match starts_with "0" s with
  | Some r => Some (0, r)
  | None =>
      match scan_digits1 s with
      | Some (v, _, rest) => Some (v, rest)
      | None => None
      end
  end.

(** The optional fraction, a dot and at least one digit: the digits read
    as an integer, and how many they are. *)
Definition scan_frac_part (s : string) : option (Z * Z * string) :=
  match starts_with "." s with
  | Some r => scan_digits1 r
  | None => None
  end.

(** The optional exponent: e or E, an optional sign, at least one digit. *)
Definition scan_exp_part (s : string) : option (Z * string) :=
  match s with
  | String c r =>
      if (Ascii.eqb c "e" || Ascii.eqb c "E")%bool then
        let '(sgn, r1) :=
          match starts_with "+" r with
          | Some r' => (1, r')
          | None =>
              match starts_with "-" r with
              | Some r' => (-1, r')
              | None => (1, r)
              end
          end in
        match scan_digits1 r1 with
        | Some (v, _, rest) => Some (sgn * v, rest)
        | None => None
        end
      else None
  | EmptyString => None
  end.

Definition scan_number (s : string) : option (pyval * string) :=
  let '(sgn, s1) :=
    match starts_with "-" s with
    | Some r => (-1, r)
    | None => (1, s)
    end in
  match scan_int_part s1 with
  | None => None
  | Some (ip, r1) =>
      let '(frac, r2) :=
        match scan_frac_part r1 with
        | Some (fv, fn, r) => (Some (fv, fn), r)
        | None => (None, r1)
        end in
      let '(ex, r3) :=
        match scan_exp_part r2 with
        | Some (ev, r) => (Some ev, r)
        | None => (None, r2)
        end in
      match frac, ex with
      | None, None => Some (PInt (sgn * ip), r3)
      | _, _ =>
          let '(fv, fn) := match frac with Some p => p | None => (0, 0) end in
          let ev := match ex with Some e => e | None => 0 end in
          Some (PFloat (FDec (sgn * (ip * 10 ^ fn + fv)) (ev - fn)), r3)
      end
  end.

(** *** Strings *)

(** What the inside of a string literal denotes, piece by piece: a byte
    taken as it stands or produced by a short escape, or the code unit of a
    [\uXXXX] escape. *)
Inductive piece : Type :=
| UByte (c : ascii)
| UCode (n : N).

Inductive sstate : Type :=
| SNormal
| SEscape
| SHex (remaining : nat) (acc : N).

Definition hex_val (c : ascii) : option N :=
  let n := N_of_ascii c in
  if byte_in c 48 57 then Some (n - 48)%N
  else if byte_in c 97 102 then Some (n - 87)%N
  else if byte_in c 65 70 then Some (n - 55)%N
  else None.

Definition escape_byte (c : ascii) : option ascii :=
  if Ascii.eqb c dquote then Some dquote
  else if Ascii.eqb c "\" then Some "\"%char
  else if Ascii.eqb c "/" then Some "/"%char
  else if Ascii.eqb c "b" then Some (ascii_of_N 8)
  else if Ascii.eqb c "f" then Some (ascii_of_N 12)
  else if Ascii.eqb c "n" then Some (ascii_of_N 10)
  else if Ascii.eqb c "r" then Some (ascii_of_N 13)
  else if Ascii.eqb c "t" then Some (ascii_of_N 9)
  else None.

(** Scans after the opening quote up to the closing one (strict mode: a raw
    control character is an error). *)
Fixpoint scan_pieces (s : string) (st : sstate) (acc : list piece)
  : option (list piece * string) :=
  match s with
  | EmptyString => None
  | String c r =>
      match st with
      | SNormal =>
          if Ascii.eqb c dquote then Some (rev acc, r)
          else if Ascii.eqb c "\" then scan_pieces r SEscape acc
          else if byte_in c 0 31 then None
          else scan_pieces r SNormal (UByte c :: acc)
      | SEscape =>
          if Ascii.eqb c "u" then scan_pieces r (SHex 4 0) acc
          else match escape_byte c with
               | Some b => scan_pieces r SNormal (UByte b :: acc)
               | None => None
               end
      | SHex k a =>
          match hex_val c with
          | None => None
          | Some d =>
              let a' := (16 * a + d)%N in
              match k with
              | 1%nat => scan_pieces r SNormal (UCode a' :: acc)
              | S k' => scan_pieces r (SHex k' a') acc
              | O => None
              end
          end
      end
  end.

Definition byte_of (n : N) : ascii := ascii_of_N n.

(** UTF-8 encoding of a code point (a lone surrogate is encoded like any
    other three-byte code point). *)
Definition utf8_encode (n : N) : string :=
  (if n <? 128 then String (byte_of n) EmptyString
   else if n <? 2048 then
     String (byte_of (192 + n / 64))
       (String (byte_of (128 + n mod 64)) EmptyString)
   else if n <? 65536 then
     String (byte_of (224 + n / 4096))
       (String (byte_of (128 + (n / 64) mod 64))
          (String (byte_of (128 + n mod 64)) EmptyString))
   else
     String (byte_of (240 + n / 262144))
       (String (byte_of (128 + (n / 4096) mod 64))
          (String (byte_of (128 + (n / 64) mod 64))
             (String (byte_of (128 + n mod 64)) EmptyString))))%N.

Definition is_high_surrogate (n : N) : bool := (55296 <=? n)%N && (n <=? 56319)%N.
Definition is_low_surrogate (n : N) : bool := (56320 <=? n)%N && (n <=? 57343)%N.

(** A high surrogate escape directly followed by a low surrogate escape is
    one code point. *)
Fixpoint join_pieces (l : list piece) : string :=
  match l with
  | [] => EmptyString
  | UByte c :: tl => String c (join_pieces tl)
  | UCode h :: tl =>
      match tl with
      | UCode lo :: tl' =>
          if (is_high_surrogate h && is_low_surrogate lo)%bool
          then utf8_encode (65536 + (h - 55296) * 1024 + (lo - 56320))%N
               ++ join_pieces tl'
          else utf8_encode h ++ join_pieces tl
      | _ => utf8_encode h ++ join_pieces tl
      end
  end.

Definition scan_string (s : string) : option (string * string) :=
  match scan_pieces s SNormal [] with
  | Some (ps, rest) => Some (join_pieces ps, rest)
  | None => None
  end.

(** *** Values *)

Definition scan_literal (s : string) : option (pyval * string) :=
  match strip_prefix "null" s with
  | Some r => Some (PNone, r)
  | None =>
  match strip_prefix "true" s with
  | Some r => Some (PBool true, r)
  | None =>
  match strip_prefix "false" s with
  | Some r => Some (PBool false, r)
  | None =>
  match strip_prefix "NaN" s with
  | Some r => Some (PFloat FNaN, r)
  | None =>
  match strip_prefix "Infinity" s with
  | Some r => Some (PFloat (FInf false), r)
  | None =>
  match strip_prefix "-Infinity" s with
  | Some r => Some (PFloat (FInf true), r)
  | None => scan_number s
  end end end end end end.

Fixpoint parse_value (fuel : nat) (s : string) {struct fuel} : parse pyval :=
  match fuel with
  | O => OutOfFuel
  | S f =>
      match starts_with dquote s with
      | Some r =>
          match scan_string r with
          | Some (str, rest) => Parsed (PStr str) rest
          | None => SyntaxError
          end
      | None =>
      match starts_with "{" s with
      | Some r =>
          match starts_with "}" (skip_ws r) with
          | Some r' => Parsed (PDict []) r'
          | None => parse_members f (skip_ws r) []
          end
      | None =>
      match starts_with "[" s with
      | Some r =>
          match starts_with "]" (skip_ws r) with
          | Some r' => Parsed (PList []) r'
          | None => parse_elems f (skip_ws r) []
          end
      | None =>
          match scan_literal s with
          | Some (v, rest) => Parsed v rest
          | None => SyntaxError
          end
      end end end
  end

with parse_elems (fuel : nat) (s : string) (acc : list pyval) {struct fuel}
  : parse pyval :=
  match fuel with
  | O => OutOfFuel
  | S f =>
      match parse_value f s with
      | Parsed v r =>
          match starts_with "," (skip_ws r) with
          | Some r' => parse_elems f (skip_ws r') (acc ++ [v])
          | None =>
              match starts_with "]" (skip_ws r) with
              | Some r' => Parsed (PList (acc ++ [v])) r'
              | None => SyntaxError
              end
          end
      | SyntaxError => SyntaxError
      | OutOfFuel => OutOfFuel
      end
  end

with parse_members (fuel : nat) (s : string) (acc : pydict) {struct fuel}
  : parse pyval :=
  match fuel with
  | O => OutOfFuel
  | S f =>
      match starts_with dquote s with
      | None => SyntaxError
      | Some r =>
          match scan_string r with
          | None => SyntaxError
          | Some (key, r1) =>
              match starts_with ":" (skip_ws r1) with
              | None => SyntaxError
              | Some r2 =>
                  match parse_value f (skip_ws r2) with
                  | Parsed v r3 =>
                      match starts_with "," (skip_ws r3) with
                      | Some r4 =>
                          parse_members f (skip_ws r4) (dict_set key v acc)
                      | None =>
                          match starts_with "}" (skip_ws r3) with
                          | Some r4 =>
                              Parsed (PDict (dict_set key v acc)) r4
                          | None => SyntaxError
                          end
                      end
                  | SyntaxError => SyntaxError
                  | OutOfFuel => OutOfFuel
                  end
              end
          end
      end
  end.

(** Every nested call happens after at least one character was consumed, so
    twice the length of the text is fuel enough (see [decode_fuel]). *)
Definition decode (s : string) : parse pyval :=
  parse_value (S (2 * String.length s)) (skip_ws s).

Definition json_loads (s : string) : option pyval :=
  match decode s with
  | Parsed v rest =>
      match skip_ws rest with
      | EmptyString => Some v
      | String _ _ => None
      end
  | SyntaxError => None
  | OutOfFuel => None
  end.

End Json.
Export Json.

(** ** The outside world of one worker *)

Module World.

(** What one HTTP POST comes to: an exception raised by [session.post]
    (network fault, timeout), or a response with its status code and what
    [r.json()] gives ([None] when it raises). *)
Inductive http_outcome : Type :=
| HFault
| HResponse (status_code : Z) (json : option pyval).

Inductive level : Type := Warning | Error.

Inductive event : Type :=
| EPost (url : string) (payload : pyval)
| ESleep (seconds : Z)
| ELog (l : level).

(** The number of POSTs made so far and what happened, oldest first. *)
Record world : Type := mkWorld { posts : nat; trace : list event }.

Definition world0 : world := mkWorld 0 [].

Definition M (A : Type) : Type := world -> res A * world.

Definition ret {A} (a : A) : M A := fun w => (Ok a, w).

Definition raise {A} (e : exn) : M A := fun w => (Raise e, w).

Definition bind {A B} (m : M A) (k : A -> M B) : M B :=
  fun w =>
    match m w with
    | (Ok a, w') => k a w'
    | (Raise e, w') => (Raise e, w')
    end.

Definition lift {A} (r : res A) : M A := fun w => (r, w).

Definition emit (e : event) : M unit :=
  fun w => (Ok tt, mkWorld (posts w) (trace w ++ [e])).

(** [logging.warning(...)] *)
Definition log_warning : M unit := emit (ELog Warning).

(** The longest sleep, in seconds, whose length in nanoseconds fits the 64
    bits in which the interpreter keeps it. *)
Definition sleep_max : Z := 9223372036.

(** [time.sleep(d)] for an integer [d]. The length is first converted to
    nanoseconds: one beyond [sleep_max], on either side of zero, raises
    [OverflowError]. A negative length that converts raises [ValueError].
    Both happen before anything is asked of the platform. Otherwise the
    platform sleeps or refuses the length with an [OSError] (a deadline
    beyond what its clock can express, or a platform with a smaller
    limit): [os_sleep] tells which, at the moment of the call. *)
Definition sleep (os_sleep : world -> Z -> bool) (d : Z) : M unit :=
  if sleep_max <? Z.abs d then raise OverflowError
  else if d <? 0 then raise ValueError
  else fun w => if os_sleep w d then emit (ESleep d) w
                else raise OSError w.

End World.
Export World.

Declare Scope py_scope.
Delimit Scope py_scope with py.
Notation "x <- m ;; k" := (bind m (fun x => k))
  (at level 61, m at next level, right associativity) : py_scope.
Notation "m ;;; k" := (bind m (fun _ => k))
  (at level 61, right associativity) : py_scope.
Notation "x <~ r ;; k" := (res_bind r (fun x => k))
  (at level 61, r at next level, right associativity) : py_scope.
Local Open Scope py_scope.

(** ** [llm_classifier.py] *)

Module LlmClassifier.

(** *** [safe_json_loads] *)

(** The suffix of [s] that starts at its first opening brace. *)
Fixpoint from_first_open (s : string) : option string :=
  match s with
  | EmptyString => None
  | String c r => if Ascii.eqb c "{" then Some s else from_first_open r
  end.

(** The longest prefix of [s] that ends with a closing brace. *)
Fixpoint upto_last_close (s : string) : option string :=
  match s with
  | EmptyString => None
  | String c r =>
      match upto_last_close r with
      | Some p => Some (String c p)
      | None => if Ascii.eqb c "}" then Some (String c EmptyString) else None
      end
  end.

(** Group 1 of [re.search(r'(\{.*\})', s, re.DOTALL)]: the leftmost match
    starts at the first opening brace that has a closing brace after it,
    which is the first opening brace if any has one, and the greedy [.*]
    runs to the last closing brace. *)
Definition re_search_braces (s : string) : option string :=
  match from_first_open s with
  | Some t => upto_last_close t
  | None => None
  end.

Definition safe_json_loads (s : string) : res pyval :=
  if (s =? "")%string then Raise ValueError
  else
    let parsed :=
      match re_search_braces s with
      | Some group1 => json_loads group1
      | None => json_loads s
      end in
    match parsed with
    | Some v => Ok v
    | None => Raise ValueError
    end.

(** *** [_query] *)

Section Transport.

(** The platform under [time.sleep]: whether it sleeps for a length. *)
Variable os_sleep : world -> Z -> bool.

(** The endpoint: what the POST of [payload] to [url] with [timeout] comes
    to, given how many POSTs the worker made before. *)
Variable http : string -> pyval -> Z -> nat -> http_outcome.

Definition session_post (url : string) (payload : pyval) (timeout : Z)
  : M http_outcome :=
  fun w =>
    (Ok (http url payload timeout (posts w)),
     mkWorld (S (posts w)) (trace w ++ [EPost url payload])).

(** Lines 25-35: the response up to the message content. *)
Definition read_content (o : http_outcome) : res pyval :=
  match o with
  | HFault => Raise OtherError
  | HResponse status_code json =>
      if negb (status_code =? 200) then Raise RuntimeError
      else
        match json with
        | None => Raise OtherError
        | Some data =>
            choices <~ py_get data "choices" (PList [PDict []]) ;;
            first <~ py_item0 choices ;;
            message <~ py_get first "message" (PDict []) ;;
            py_get message "content" (PStr "")
        end
  end.

(** [content.strip()] *)
Definition py_strip (content : pyval) : res string :=
  match content with
  | PStr s => Ok (str_strip s)
  | _ => Raise AttributeError
  end.

(** The body of the [try]: [Ok (Some text)] when it returns [text],
    [Ok None] when it falls through, [Raise e] when [e] is caught. *)
Definition try_body (o : http_outcome) : res (option string) :=
  content <~ read_content o ;;
  if truthy content
  then text <~ py_strip content ;; Ok (Some text)
  else Ok None.

Fixpoint query_loop (rng : list Z) (payload : pyval) (url : string)
  (delay timeout : Z) : M (option string) :=
  match rng with
  | [] => ret None
  | _attempt :: rest =>
      o <- session_post url payload timeout ;;
      match try_body o with
      | Ok (Some text) => ret (Some text)
      | Ok None =>
          sleep os_sleep delay ;;; query_loop rest payload url delay timeout
      | Raise _ =>
          log_warning ;;;
          sleep os_sleep delay ;;;
          query_loop rest payload url delay timeout
      end
  end.

Definition _query (payload : pyval) (url : string) (attempts delay timeout : Z)
  : M (option string) :=
  query_loop (py_range 1 (attempts + 1)) payload url delay timeout.

(** *** [CVEClassifier] *)

(** [json.dumps(v, indent=2)], used to render the prompt only. The
    recursion limit of the interpreter, which the encoder meets on a
    document nested as deep as the decoder just allows, is not modelled. *)
Variable json_dumps : pyval -> string.

(** [round(time.time() - start_time, 2)] in hundredths of a second, between
    two states of the worker's world. *)
Variable elapsed : world -> world -> Z.

Record CVEClassifier : Type := mkClassifier {
  model : string;
  url : string;
  attempts : Z;
  retry_delay : Z;
  timeout : Z;
  system_prompt : string;
  output_map : pyval
}.

(** The budget of the outer loop (line 104) and the budget handed to
    [_query] (line 106). *)
Definition outer_budget (self : CVEClassifier) : Z := attempts self.
Definition transport_budget (self : CVEClassifier) : Z := attempts self.

(** Lines 79-84 *)
Definition get_cve_id (cve_data : pydict) (cve_id_fallback : string)
  : res pyval :=
  mitre <~ py_get (PDict cve_data) "mitre" (PDict []) ;;
  meta <~ py_get mitre "cveMetadata" (PDict []) ;;
  cve_id <~ py_get meta "cveId" PNone ;;
  Ok (py_or cve_id (PStr cve_id_fallback)).

(** Lines 89-99 *)
Definition make_payload (self : CVEClassifier) (prompt : string) : pyval :=
  PDict
    [("model", PStr (model self));
     ("messages",
       PList [PDict [("role", PStr "system");
                     ("content", PStr (system_prompt self))];
              PDict [("role", PStr "user"); ("content", PStr prompt)]]);
     ("stream", PBool false);
     ("temperature", PInt 0);
     ("format", PStr "json");
     ("options", PDict [("num_ctx", PInt 20480); ("num_gpu", PInt 99)])].

(** Lines 104-115. The result is [(Some data, attempts_used)] when the loop
    is left by [break], [(None, attempts_used)] when the range is used up. *)
Fixpoint classify_loop (self : CVEClassifier) (payload : pyval)
  (rng : list Z) (attempts_used : Z) : M (option pyval * Z) :=
  match rng with
  | [] => ret (None, attempts_used)
  | attempt :: rest =>
      raw <- _query payload (url self) (transport_budget self)
               (retry_delay self) (timeout self) ;;
      match raw with
      | None => classify_loop self payload rest attempt
      | Some EmptyString => classify_loop self payload rest attempt
      | Some text =>
          match safe_json_loads text with
          | Ok data => ret (Some data, attempt)
          | Raise ValueError =>
              sleep os_sleep (retry_delay self) ;;;
              classify_loop self payload rest attempt
          | Raise e => raise e
          end
      end
  end.

(** Line 129 *)
Definition default_val (final_key : string) : pyval :=
  if (str_contains "Vendors" final_key || str_contains "Products" final_key)%bool
  then PList [] else PNone.

(** Lines 125-130 *)
Fixpoint project (items : list (string * pyval)) (data : pyval)
  (result : pydict) : res pydict :=
  match items with
  | [] => Ok result
  | (final_key, ai_key) :: rest =>
      if (final_key =? "CVE_ID")%string then project rest data result
      else
        v <~ py_get_val data ai_key (default_val final_key) ;;
        project rest data (dict_set final_key v result)
  end.

(** The value of the variable [data] after the loop. *)
Definition data_of (o : option pyval) : pyval :=
  match o with
  | Some v => v
  | None => PNone
  end.

Definition error_result (cve_id : pyval) (attempts_used : Z)
  (execution_time : pyval) : pydict :=
  dict_update [("CVE_ID", cve_id)]
    [("error", PBool true);
     ("attempts", PInt attempts_used);
     ("execution_time_seconds", execution_time)].

(** Lines 119-135 *)
Definition make_result (self : CVEClassifier) (cve_id data : pyval)
  (attempts_used : Z) (execution_time : pyval) : res pydict :=
  let result := [("CVE_ID", cve_id)] in
  if negb (truthy data)
  then Ok (error_result cve_id attempts_used execution_time)
  else
    items <~ py_items (output_map self) ;;
    result <~ project items data result ;;
    let result := dict_set "execution_time_seconds" execution_time result in
    let result := dict_set "attempts" (PInt attempts_used) result in
    Ok result.

Definition classify (self : CVEClassifier) (cve_data : pydict)
  (prompt_template cve_id_fallback : string) : M pydict :=
  fun start =>
    (cve_id <- lift (get_cve_id cve_data cve_id_fallback) ;;
     let full_json_str := json_dumps (PDict cve_data) in
     let prompt :=
       str_replace prompt_template "{full_json_str}" full_json_str in
     let payload := make_payload self prompt in
     out <- classify_loop self payload
              (py_range 1 (outer_budget self + 1)) 0 ;;
     fun finish =>
       let execution_time := PFloat (FDec (elapsed start finish) (-2)) in
       lift (make_result self cve_id (data_of (fst out)) (snd out)
               execution_time) finish) start.

End Transport.

End LlmClassifier.
Export LlmClassifier.

(** ** [llm_start.py] *)

Module LlmStart.

Definition newline : string := String (ascii_of_N 10) EmptyString.

(** A file the main thread writes: the output file of a result, or the
    failure list. *)
Inductive fwrite : Type :=
| OutputFile (path : string) (doc : pydict)
| FailedList (path : string) (text : string).

(** What an attempt to write a file comes to. It completes; or [open]
    raises, and no file is made or changed; or the writing of the content
    raises ([json.dump], [write], [flush]), and the file is there, cut
    short; or a call after the content was handed over raises ([os.fsync],
    the closing of the file), and the whole file is there. *)
Inductive write_outcome : Type :=
| Completed
| OpenFailed (e : exn)
| ContentFailed (e : exn)
| SyncFailed (e : exn).

(** What a write that raised leaves at its path. *)
Inductive leftover : Type :=
| CutShort (path : string)
| Whole (f : fwrite).

(** The state of the main thread while it drains the completed futures:
    the files whose writing completed so far (oldest first), the list
    [failed_cves], the records logged, the number of output files it tried
    to write, and what the writes that raised left behind. *)
Record run : Type := mkRun {
  written : list fwrite;
  failed_cves : list pyval;
  logged : list level;
  tried : nat;
  left_behind : list leftover
}.

Definition run0 : run := mkRun [] [] [] 0 [].

(** The command line options the modelled code reads. *)
Record Args : Type := mkArgs { out_dir : string; failed_log : string }.

Section Orchestrator.

Variable os_sleep : world -> Z -> bool.
Variable http : string -> pyval -> Z -> nat -> http_outcome.
Variable json_dumps : pyval -> string.
Variable elapsed : world -> world -> Z.

(** [open(path, "r", encoding="utf-8").read()]; [None] when it raises. *)
Variable fs_read : string -> option string.

(** [json.load(f)] on the file at [path]; [None] when the [try] of lines
    88-92 catches an exception. *)
Definition json_load (path : string) : option pyval :=
  match fs_read path with
  | Some text => json_loads text
  | None => None
  end.

(** Lines 83-92 *)
Fixpoint load_sources (tags : list string) (file_map : list (string * string))
  (base_dir : string) (combined : pydict) : M pydict :=
  match tags with
  | [] => ret combined
  | t :: rest =>
      match dict_lookup t file_map with
      | None => load_sources rest file_map base_dir combined
      | Some EmptyString => load_sources rest file_map base_dir combined
      | Some fname =>
          let path := path_join base_dir fname in
          match json_load path with
          | Some doc =>
              load_sources rest file_map base_dir (dict_set t doc combined)
          | None =>
              log_warning ;;; load_sources rest file_map base_dir combined
          end
      end
  end.

(** The parameter [args] of the source is not used by the function. *)
Definition process_file_group (base : string)
  (file_map : list (string * string)) (base_dir : string)
  (classifier : CVEClassifier) (prompt_template : string)
  : M (option pydict) :=
  combined <- load_sources ["nvd"; "mitre"] file_map base_dir [] ;;
  match combined with
  | [] => ret None
  | _ :: _ =>
      r <- classify os_sleep http json_dumps elapsed classifier combined
             prompt_template base ;;
      ret (Some r)
  end.

(** [str(v)], as the f-strings of lines 191 and 206 format the
    identifier. *)
Variable py_str : pyval -> string.

(** What the [n]-th attempt to write an output file comes to (lines
    194-197: [open], [json.dump], [flush], [fsync], and the closing of the
    file). *)
Variable fs_write : nat -> string -> pydict -> write_outcome.

(** What the writing of the failure list comes to (lines 204-206: [open],
    one [write] for each identifier, and the closing of the file). *)
Variable list_write : string -> string -> write_outcome.

Definition log_record (l : level) (st : run) : run :=
  mkRun (written st) (failed_cves st) (logged st ++ [l]) (tried st)
    (left_behind st).

(** The [except] of line 198, after a write that left [left]. *)
Definition write_failed (left : list leftover) (st : run) : run :=
  mkRun (written st) (failed_cves st) (logged st ++ [Warning])
    (S (tried st)) (left_behind st ++ left).

(** Lines 190-199 *)
Definition write_output (out_dir : string) (cve_id : pyval) (r : pydict)
  (st : run) : run :=
  let out_path := path_join out_dir (py_str cve_id ++ ".json") in
  match fs_write (tried st) out_path r with
  | Completed =>
      mkRun (written st ++ [OutputFile out_path r]) (failed_cves st)
        (logged st) (S (tried st)) (left_behind st)
  | OpenFailed _ => write_failed [] st
  | ContentFailed _ => write_failed [CutShort out_path] st
  | SyncFailed _ => write_failed [Whole (OutputFile out_path r)] st
  end.

(** Lines 180-201: the body of the loop over the completed futures, on what
    [future.result()] gives. *)
Definition drain_step (out_dir : string) (st : run)
  (future : res (option pydict)) : run :=
  match future with
  | Raise _ => log_record Error st
  | Ok None => st
  | Ok (Some []) => st
  | Ok (Some r) =>
      if truthy (match dict_lookup "error" r with Some v => v | None => PNone end)
      then
        match dict_lookup "CVE_ID" r with
        | Some cve_id =>
            mkRun (written st) (failed_cves st ++ [cve_id]) (logged st)
              (tried st) (left_behind st)
        | None => log_record Error st
        end
      else
        match dict_lookup "CVE_ID" r with
        | Some cve_id => write_output out_dir cve_id r st
        | None => log_record Error st
        end
  end.

Definition drain (out_dir : string) (futures : list (res (option pydict)))
  (st : run) : run :=
  fold_left (drain_step out_dir) futures st.

(** Lines 204-206: the text written to the failure list. *)
Definition failed_text (failed : list pyval) : string :=
  String.concat "" (map (fun cve => py_str cve ++ newline) failed).

(** Lines 203-209. The writing of the failure list stands in no [try]: an
    exception it raises ends [main]. *)
Definition flush_failed (failed_log_path : string) (st : run)
  : res unit * run :=
  match failed_cves st with
  | [] => (Ok tt, st)
  | _ :: _ =>
      let text := failed_text (failed_cves st) in
      let leaving (left : list leftover) :=
        mkRun (written st) (failed_cves st) (logged st) (tried st)
          (left_behind st ++ left) in
      match list_write failed_log_path text with
      | Completed =>
          (Ok tt,
           mkRun (written st ++ [FailedList failed_log_path text])
             (failed_cves st) (logged st) (tried st) (left_behind st))
      | OpenFailed e => (Raise e, st)
      | ContentFailed e => (Raise e, leaving [CutShort failed_log_path])
      | SyncFailed e =>
          (Raise e, leaving [Whole (FailedList failed_log_path text)])
      end
  end.

End Orchestrator.

Section Main.

(** Each group runs in its own worker under its own view of the endpoint;
    the main thread alone writes files and the failure list. *)
Variable os_sleep : world -> Z -> bool.
Variable http_of : string -> string -> pyval -> Z -> nat -> http_outcome.
Variable json_dumps : pyval -> string.
Variable elapsed : world -> world -> Z.
Variable fs_read : string -> option string.
Variable py_str : pyval -> string.
Variable fs_write : nat -> string -> pydict -> write_outcome.
Variable list_write : string -> string -> write_outcome.

(** What [future.result()] gives for the task of one group (line 175). *)
Definition task (classifier : CVEClassifier) (prompt_template base_dir : string)
  (group : string * list (string * string)) : res (option pydict) :=
  fst (process_file_group os_sleep (http_of (fst group)) json_dumps elapsed
         fs_read (fst group) (snd group) base_dir classifier prompt_template
         world0).

(** Lines 167-209 of [main], once the classifier is built and the groups
    and [base_dir] are found. [completed] lists the groups in the order in
    which [as_completed] yields their futures, which is any order. The
    result is how [main] ends and the state of the main thread then. *)
Definition main_run (args : Args) (classifier : CVEClassifier)
  (prompt_template base_dir : string)
  (completed : list (string * list (string * string))) : res unit * run :=
  let futures := map (task classifier prompt_template base_dir) completed in
  flush_failed py_str list_write (failed_log args)
    (drain py_str fs_write (out_dir args) futures run0).

End Main.

End LlmStart.
Export LlmStart.

(** ** [os.path] and the string methods of the Input Grouper *)

Module PyPath.

(** [s.endswith(suffix)] *)
Fixpoint str_endswith (s suffix : string) : bool :=
  if (s =? suffix)%string then true
  else match s with
       | EmptyString => false
       | String _ r => str_endswith r suffix
       end.

(** [s[1:]] *)
Definition str_tail (s : string) : string :=
  match s with
  | EmptyString => EmptyString
  | String _ r => r
  end.

Definition ascii_lower (c : ascii) : ascii :=
  if byte_in c 65 90 then ascii_of_N (N_of_ascii c + 32) else c.

(** [s.lower()] on the letters A to Z. The program lowers a file extension
    only to compare it with [.nvd], [.mitre] and [.json], and no other
    character becomes one of the letters of these names when lowered, so
    the comparisons come out as with the full method. *)
Fixpoint str_lower (s : string) : string :=
  match s with
  | EmptyString => EmptyString
  | String c r => String (ascii_lower c) (str_lower r)
  end.

(** [s] split around its last [c]: what stands before and after it. *)
Fixpoint rsplit (c : ascii) (s : string) : option (string * string) :=
  match s with
  | EmptyString => None
  | String a r =>
      match rsplit c r with
      | Some (before, after) => Some (String a before, after)
      | None => if Ascii.eqb a c then Some (EmptyString, r) else None
      end
  end.

Fixpoint all_dots (s : string) : bool :=
  match s with
  | EmptyString => true
  | String c r => (Ascii.eqb c "." && all_dots r)%bool
  end.

(** [os.path.basename(p)]: what follows the last slash. *)
Definition basename (p : string) : string :=
  match rsplit "/" p with
  | Some (_, name) => name
  | None => p
  end.

Fixpoint all_slashes (s : string) : bool :=
  match s with
  | EmptyString => true
  | String c r => (Ascii.eqb c "/" && all_slashes r)%bool
  end.

(** [head.rstrip('/')], on the reversed string. *)
Fixpoint drop_slashes (s : string) : string :=
  match s with
  | EmptyString => EmptyString
  | String c r => if Ascii.eqb c "/" then drop_slashes r else s
  end.

(** [os.path.dirname(p)]: what stands before the last slash, that slash
    included when nothing but slashes stands there. *)
Definition dirname (p : string) : string :=
  match rsplit "/" p with
  | None => EmptyString
  | Some (before, _) =>
      let head := (before ++ "/")%string in
      if all_slashes head then head
      else str_rev (drop_slashes (str_rev head))
  end.

(** [os.path.splitext(p)]: the extension starts at the last dot of the
    last component, unless only dots stand before it in that component. *)
Definition splitext (p : string) : string * string :=
  let '(dir, name) :=
    match rsplit "/" p with
    | Some (before, name) => ((before ++ "/")%string, name)
    | None => (EmptyString, p)
    end in
  match rsplit "." name with
  | Some (stem, e) =>
      if all_dots stem then (p, EmptyString)
      else ((dir ++ stem)%string, String "." e)
  | None => (p, EmptyString)
  end.

End PyPath.
Export PyPath.

(** ** [llm_start.py]: the configuration and the Input Grouper *)

Module InputGrouper.

(** [logging.error(...)] *)
Definition log_error : M unit := emit (ELog Error).

(** The groups: a [defaultdict(dict)] from a base name to the files of the
    group by tag. *)
Definition groups : Type := list (string * list (string * string)).

(** [groups[base][tag] = f] *)
Definition group_add (base tag f : string) (g : groups) : groups :=
  dict_set base
    (dict_set tag f
       (match dict_lookup base g with Some m => m | None => [] end))
    g.

Section Files.

(** [os.path.exists] *)
Variable path_exists : string -> bool.

(** [open(path, 'r', encoding='utf-8').read()]; [None] when it raises. *)
Variable fs_read : string -> option string.

(** [os.listdir]; it raises on what is no directory that can be read. *)
Variable listdir : string -> res (list string).

(** Lines 11-23 *)
Definition load_config (config_path : string) : M pyval :=
  if negb (path_exists config_path) then
    if negb (config_path =? "config.json")%string
    then log_warning ;;; ret (PDict [])
    else ret (PDict [])
  else
    match fs_read config_path with
    | Some text =>
        match json_loads text with
        | Some v => ret v
        | None => log_error ;;; ret (PDict [])
        end
    | None => log_error ;;; ret (PDict [])
    end.

(** Lines 32-40: the loop over the names of the directory. *)
Fixpoint group_loop (names : list string) (g : groups) : groups :=
  match names with
  | [] => g
  | f :: rest =>
      if negb (str_endswith f ".json" || str_endswith f ".nvd"
               || str_endswith f ".mitre")%bool
      then group_loop rest g
      else
        let '(base, ext) := splitext f in
        let ext := str_lower ext in
        if ((ext =? ".nvd") || (ext =? ".mitre"))%string
        then group_loop rest (group_add base (str_tail ext) f g)
        else group_loop rest g
  end.

(** Lines 25-42 *)
Definition group_cve_files (json_dir : string) : M groups :=
  if negb (path_exists json_dir) then log_error ;;; ret []
  else
    names <- lift (listdir json_dir) ;;
    ret (group_loop names []).

(** Lines 44-77 *)
Definition get_single_file_group (file_path : string) : M groups :=
  if negb (path_exists file_path) then log_error ;;; ret []
  else
    let dir := dirname file_path in
    let filename := basename file_path in
    let '(base, ext) := splitext filename in
    let ext := str_lower ext in
    if negb ((ext =? ".nvd") || (ext =? ".mitre") || (ext =? ".json"))%string
    then log_error ;;; ret []
    else if (ext =? ".json")%string
    then ret (group_add base "mitre" filename [])
    else
      let type_key := str_tail ext in
      let g := group_add base type_key filename [] in
      let partner_ext :=
        if (type_key =? "nvd")%string then ".mitre" else ".nvd" in
      let partner_file := (base ++ partner_ext)%string in
      if path_exists (path_join dir partner_file)
      then ret (group_add base (str_tail partner_ext) partner_file g)
      else ret g.

End Files.

End InputGrouper.
Export InputGrouper.

(** ** [helpers/cvss_helper.py] *)

Module CvssHelper.

(** The characters of a [str], by the bytes of their encoding: a byte from
    128 to 191 continues the character before it. *)
Fixpoint utf8_chars_from (s : string) (cur : string) : list string :=
  match s with
  | EmptyString =>
      match cur with
      | EmptyString => []
      | _ => [str_rev cur]
      end
  | String c r =>
      if byte_in c 128 191 then
        match cur with
        | EmptyString => utf8_chars_from r (String c EmptyString)
        | _ => utf8_chars_from r (String c cur)
        end
      else
        match cur with
        | EmptyString => utf8_chars_from r (String c EmptyString)
        | _ => str_rev cur :: utf8_chars_from r (String c EmptyString)
        end
  end.

(** [for x in v]: the elements of a list, the keys of a dict, the characters
    of a string; nothing else in JSON can be iterated. *)
Definition py_iter (v : pyval) : res (list pyval) :=
  match v with
  | PList l => Ok l
  | PDict d => Ok (map (fun kv => PStr (fst kv)) d)
  | PStr s => Ok (map PStr (utf8_chars_from s EmptyString))
  | _ => Raise TypeError
  end.

(** [key in v] for a string [key]: among the keys of a dict, equal to an
    element of a list, a substring of a string. *)
Definition py_in (key : string) (v : pyval) : res bool :=
  match v with
  | PDict d =>
      Ok (match dict_lookup key d with Some _ => true | None => false end)
  | PList l =>
      Ok (existsb (fun x => match x with
                            | PStr s => (s =? key)%string
                            | _ => false
                            end) l)
  | PStr s => Ok (str_contains key s)
  | _ => Raise TypeError
  end.

(** [v[key]] for a string [key] *)
Definition py_getitem (v : pyval) (key : string) : res pyval :=
  match v with
  | PDict d =>
      match dict_lookup key d with
      | Some x => Ok x
      | None => Raise KeyError
      end
  | _ => Raise TypeError
  end.

(** [x is not None] *)
Definition is_not_none (v : pyval) : bool :=
  match v with
  | PNone => false
  | _ => true
  end.

(** The clause [except (IndexError, AttributeError, TypeError)] *)
Definition caught (e : exn) : bool :=
  match e with
  | IndexError | AttributeError | TypeError => true
  | _ => false
  end.

Definition none_none : pyval * pyval := (PNone, PNone).

(** What a [try] body that ends in [return None, None] after its loop comes
    to, under that clause: [Ok None] stands for reaching the end of the
    loop. *)
Definition with_fallback (body : res (option (pyval * pyval)))
  : res (pyval * pyval) :=
  match body with
  | Ok (Some found) => Ok found
  | Ok None => Ok none_none
  | Raise e => if caught e then Ok none_none else Raise e
  end.

Definition nvd_versions : list (string * string) :=
  [("cvssMetricV40", "4.0"); ("cvssMetricV31", "3.1");
   ("cvssMetricV30", "3.0"); ("cvssMetricV2", "2.0")].

(** Lines 21-27 *)
Fixpoint nvd_loop (versions : list (string * string)) (metrics : pyval)
  : res (option (pyval * pyval)) :=
  match versions with
  | [] => Ok None
  | (key, version_str) :: rest =>
      present <~ py_in key metrics ;;
      if present then
        metric_list <~ py_getitem metrics key ;;
        if truthy metric_list then
          first <~ py_item0 metric_list ;;
          cvss_data <~ py_get first "cvssData" (PDict []) ;;
          score <~ py_get cvss_data "baseScore" PNone ;;
          if is_not_none score then Ok (Some (score, PStr version_str))
          else nvd_loop rest metrics
        else nvd_loop rest metrics
      else nvd_loop rest metrics
  end.

(** Lines 5-30 *)
Definition get_nvd_cvss_score (data : pyval) : res (pyval * pyval) :=
  with_fallback
    (vulnerabilities <~ py_get data "vulnerabilities" (PList []) ;;
     vulnerability_info <~ py_item0 vulnerabilities ;;
     cve <~ py_get vulnerability_info "cve" (PDict []) ;;
     metrics <~ py_get cve "metrics" (PDict []) ;;
     nvd_loop nvd_versions metrics).

Definition mitre_versions : list (string * string) :=
  [("cvssV4_0", "4.0"); ("cvssV3_1", "3.1");
   ("cvssV3_0", "3.0"); ("cvssV2_0", "2.0")].

(** Lines 50-54: the inner loop, over the metrics, for one key. *)
Fixpoint mitre_scan (key version_str : string) (metrics : list pyval)
  : res (option (pyval * pyval)) :=
  match metrics with
  | [] => Ok None
  | metric :: rest =>
      present <~ py_in key metric ;;
      if present then
        entry <~ py_get metric key (PDict []) ;;
        score <~ py_get entry "baseScore" PNone ;;
        if is_not_none score then Ok (Some (score, PStr version_str))
        else mitre_scan key version_str rest
      else mitre_scan key version_str rest
  end.

(** Lines 49-54 *)
Fixpoint mitre_loop (versions : list (string * string)) (metrics : pyval)
  : res (option (pyval * pyval)) :=
  match versions with
  | [] => Ok None
  | (key, version_str) :: rest =>
      items <~ py_iter metrics ;;
      found <~ mitre_scan key version_str items ;;
      match found with
      | Some result => Ok (Some result)
      | None => mitre_loop rest metrics
      end
  end.

(** Lines 32-57 *)
Definition get_mitre_cvss_score (data : pyval) : res (pyval * pyval) :=
  with_fallback
    (containers <~ py_get data "containers" (PDict []) ;;
     cna <~ py_get containers "cna" (PDict []) ;;
     metrics <~ py_get cna "metrics" (PList []) ;;
     if negb (truthy metrics) then Ok (Some none_none)
     else mitre_loop mitre_versions metrics).

End CvssHelper.
Export CvssHelper.

(** ** Endpoints and settings for the examples *)

Module Fixtures.

(** The texts of the examples: [{"category": "RCE"}] and its members,
    [{"category": "RCE", "vendors": ["Acme"]}], [["RCE"]], [{"a": 1}],
    [{"a": 2}], [{"note": "none"}], and the record
    [{"cveMetadata": {"cveId": "CVE-2024-1234"}}]. *)
Definition rce_members : string := quoted "category" ++ ": " ++ quoted "RCE".

Definition rce_object : string := "{" ++ rce_members ++ "}".

Definition rce_acme_object : string :=
  "{" ++ rce_members ++ ", " ++ quoted "vendors" ++ ": ["
      ++ quoted "Acme" ++ "]}".

Definition rce_array : string := "[" ++ quoted "RCE" ++ "]".

Definition a1_object : string := "{" ++ quoted "a" ++ ": 1}".

Definition a2_object : string := "{" ++ quoted "a" ++ ": 2}".

Definition note_object : string :=
  "{" ++ quoted "note" ++ ": " ++ quoted "none" ++ "}".

Definition flag_object : string := "{" ++ quoted "flag" ++ ": true}".

(** A template that declares the three fields of the error result. *)
Definition flag_template : pyval :=
  PDict [("error", PStr "flag"); ("attempts", PStr "tries");
         ("execution_time_seconds", PStr "seconds")].

Definition mitre_record : string :=
  "{" ++ quoted "cveMetadata" ++ ": {" ++ quoted "cveId" ++ ": "
      ++ quoted "CVE-2024-1234" ++ "}}".

(** A 200 response whose first choice carries [content]. *)
Definition reply (content : string) : http_outcome :=
  HResponse 200
    (Some (PDict
       [("choices",
          PList [PDict [("message", PDict [("content", PStr content)])]])])).

(** An endpoint that always answers the same. *)
Definition always (o : http_outcome)
  : string -> pyval -> Z -> nat -> http_outcome :=
  fun _ _ _ _ => o.

(** An endpoint that answers [o1] to the first POST and [o2] afterwards. *)
Definition first_then (o1 o2 : http_outcome)
  : string -> pyval -> Z -> nat -> http_outcome :=
  fun _ _ _ n => match n with O => o1 | S _ => o2 end.

(** An endpoint that is down for the first POST and answers afterwards. *)
Definition down_once (o : http_outcome)
  : string -> pyval -> Z -> nat -> http_outcome :=
  first_then HFault o.

(** The prompts of the examples hold no placeholder, so that the rendering
    of the document plays no part in them. *)
Definition no_dumps : pyval -> string := fun _ => EmptyString.

Definition clock0 : world -> world -> Z := fun _ _ => 0.

Definition sample_fields : pydict :=
  [("CVE_ID", PStr "cve_id");
   ("Category", PStr "category");
   ("Vendors", PStr "vendors")].

Definition sample_template : pyval := PDict sample_fields.

Definition sample_classifier (attempts retry_delay : Z) (template : pyval)
  : CVEClassifier :=
  mkClassifier "gemma3:12b" "http://127.0.0.1:11434/v1/chat/completions"
    attempts retry_delay 120 "You are a classifier." template.

Definition sample_payload : pyval :=
  make_payload (sample_classifier 3 2 sample_template) "Classify.".

(** A directory in which only the file at [path] can be read. *)
Definition only_file (path content : string) : string -> option string :=
  fun p => if (p =? path)%string then Some content else None.

(** A directory in which the [.nvd] file of the sample group cannot be read
    and its [.mitre] file holds a record with its identifier. *)
Definition fs_read_one : string -> option string :=
  only_file "json/CVE-2024-1234.mitre" mitre_record.

(** [str] on the identifiers of the examples, which are strings. *)
Definition str_of_text (v : pyval) : string :=
  match v with
  | PStr s => s
  | _ => EmptyString
  end.

(** A disk on which every write completes, and one on which none does. *)
Definition disk_ok : nat -> string -> pydict -> write_outcome :=
  fun _ _ _ => Completed.
Definition disk_full : nat -> string -> pydict -> write_outcome :=
  fun _ _ _ => OpenFailed OSError.

(** A disk on which the content of every output file is written and
    [os.fsync] then raises. *)
Definition disk_unsynced : nat -> string -> pydict -> write_outcome :=
  fun _ _ _ => SyncFailed OSError.

(** A disk on which the failure list can be written, and one on which it
    cannot be opened. *)
Definition list_ok : string -> string -> write_outcome :=
  fun _ _ => Completed.
Definition list_denied : string -> string -> write_outcome :=
  fun _ _ => OpenFailed OSError.

(** A platform that sleeps for any length the interpreter hands it, and
    one whose clock, an hour after it was started, cannot express the end
    of a sleep that reaches beyond [sleep_max]. *)
Definition any_sleep : world -> Z -> bool := fun _ _ => true.
Definition hour_old_sleep : world -> Z -> bool :=
  fun _ d => d + 3600 <=? sleep_max.

Definition sample_args : Args := mkArgs "output" "failed_cves.txt".

Definition sample_group : string * list (string * string) :=
  ("CVE-2024-1234",
   [("nvd", "CVE-2024-1234.nvd"); ("mitre", "CVE-2024-1234.mitre")]).

(** A second group, and an endpoint that is down for the workers of the
    sample group and answers the others. *)
Definition other_group : string * list (string * string) :=
  ("CVE-2024-5678", [("nvd", "CVE-2024-5678.nvd")]).

Definition down_for_sample (base : string)
  : string -> pyval -> Z -> nat -> http_outcome :=
  if (base =? "CVE-2024-1234")%string then always HFault
  else always
         (reply ("Here you go: " ++ rce_acme_object)).

(** A directory in which every file holds the empty object. *)
Definition fs_empty_objects : string -> option string :=
  fun _ => Some "{}".

End Fixtures.
Export Fixtures.

(** ** Vocabulary of the statements *)

Module Terms.

(** [c in s] for a single character. *)
Fixpoint has_char (c : ascii) (s : string) : bool :=
  match s with
  | EmptyString => false
  | String c' r => (Ascii.eqb c' c || has_char c r)%bool
  end.

(** What [safe_json_loads] makes of the decoder's outcome. *)
Definition of_parse (o : option pyval) : res pyval :=
  match o with
  | Some v => Ok v
  | None => Raise ValueError
  end.

(** [time.sleep] takes the length [d], whenever it is called: [d] is not
    negative, fits the interpreter's clock, and the platform sleeps for
    it. *)
Definition sleep_accepts (os_sleep : world -> Z -> bool) (d : Z) : Prop :=
  0 <= d <= sleep_max /\ forall w, os_sleep w d = true.

(** The exception [time.sleep] raises for a length it does not take. *)
Definition sleep_refusal (d : Z) (e : exn) : Prop :=
  (e = ValueError /\ - sleep_max <= d < 0)
  \/ (e = OverflowError /\ sleep_max < Z.abs d)
  \/ (e = OSError /\ 0 <= d <= sleep_max).

(** The events of a trace that are not log records. *)
Definition network (evs : list event) : list event :=
  filter (fun e => match e with ELog _ => false | _ => true end) evs.

(** [k] failed attempts of [_query]: a POST and a sleep each. *)
Fixpoint failed_attempts (url : string) (payload : pyval) (delay : Z)
  (k : nat) : list event :=
  match k with
  | O => []
  | S k' =>
      EPost url payload :: ESleep delay
        :: failed_attempts url payload delay k'
  end.

(** The payload [classify] sends (lines 86-99). *)
Definition payload_of (json_dumps : pyval -> string) (self : CVEClassifier)
  (cve_data : pydict) (prompt_template : string) : pyval :=
  make_payload self
    (str_replace prompt_template "{full_json_str}"
       (json_dumps (PDict cve_data))).

(** The [mitre] entry of the merged document and its [cveMetadata] entry
    are objects where they are present. *)
Definition metadata_ok (cve_data : pydict) : bool :=
  match dict_lookup "mitre" cve_data with
  | None => true
  | Some (PDict mitre) =>
      match dict_lookup "cveMetadata" mitre with
      | None => true
      | Some (PDict _) => true
      | Some _ => false
      end
  | Some _ => false
  end.

(** A value that can be the key of a [dict]. *)
Definition hashable (v : pyval) : bool :=
  match v with
  | PList _ | PDict _ => false
  | _ => true
  end.

(** The template file held an object whose values can be keys. *)
Definition template_ok (template : pyval) : bool :=
  match template with
  | PDict items => forallb (fun kv => hashable (snd kv)) items
  | _ => false
  end.

Definition object_or_falsy (v : pyval) : bool :=
  match v with
  | PDict _ => true
  | _ => negb (truthy v)
  end.

(** The three fields [classify] sets on its own in a success result. *)
Definition reserved (k : string) : bool :=
  ((k =? "CVE_ID") || (k =? "execution_time_seconds") || (k =? "attempts"))%string.

(** [r.get("error")] counts as true (line 186). *)
Definition marked_error (r : pydict) : bool :=
  truthy (match dict_lookup "error" r with Some v => v | None => PNone end).

(** The identifier a completed future adds to the failure list. *)
Definition failed_id (future : res (option pydict)) : list pyval :=
  match future with
  | Ok (Some r) =>
      if marked_error r
      then match dict_lookup "CVE_ID" r with
           | Some cve_id => [cve_id]
           | None => []
           end
      else []
  | _ => []
  end.

(** [f] is the output file of a result of [futures] that is not marked as
    an error. *)
Definition output_of (futures : list (res (option pydict))) (f : fwrite)
  : Prop :=
  exists path r,
    f = OutputFile path r /\ In (Ok (Some r)) futures
    /\ marked_error r = false.

(** The exception a write raised, when it did not complete. *)
Definition write_raised (o : write_outcome) : option exn :=
  match o with
  | Completed => None
  | OpenFailed e | ContentFailed e | SyncFailed e => Some e
  end.

(** What a write of the file [f] at [path] leaves there when it raises:
    nothing new, the file cut short, or the whole file. *)
Definition left_by (o : write_outcome) (path : string) (f : fwrite)
  : list leftover :=
  match o with
  | Completed | OpenFailed _ => []
  | ContentFailed _ => [CutShort path]
  | SyncFailed _ => [Whole f]
  end.

(** The document [process_file_group] loads for the tag [t] of a group:
    none when the group names no file for it or the file cannot be read or
    parsed. *)
Definition loaded (fs_read : string -> option string)
  (file_map : list (string * string)) (base_dir t : string) : option pyval :=
  match dict_lookup t file_map with
  | None => None
  | Some EmptyString => None
  | Some fname => json_load fs_read (path_join base_dir fname)
  end.

(** The group names a file for the tag [t] and that file cannot be read or
    parsed. *)
Definition unreadable (fs_read : string -> option string)
  (file_map : list (string * string)) (base_dir t : string) : bool :=
  match dict_lookup t file_map with
  | None => false
  | Some EmptyString => false
  | Some fname =>
      match json_load fs_read (path_join base_dir fname) with
      | Some _ => false
      | None => true
      end
  end.

(** The warning logged for a file that cannot be loaded. *)
Definition warnings (fs_read : string -> option string)
  (file_map : list (string * string)) (base_dir t : string) : list event :=
  if unreadable fs_read file_map base_dir t then [ELog Warning] else [].

End Terms.
Export Terms.

(** ** More vocabulary *)

Module MoreTerms.

(** The main thread passes over a future that gave nothing (lines
    183-184). *)
Definition passed_over (future : res (option pydict)) : bool :=
  match future with
  | Ok None => true
  | Ok (Some []) => true
  | _ => false
  end.

Definition is_warning (l : level) : bool :=
  match l with
  | Warning => true
  | Error => false
  end.

(** The output file of a future whose result is not marked as an error and
    carries an identifier. *)
Definition expected_output (py_str : pyval -> string) (out_dir : string)
  (future : res (option pydict)) : list fwrite :=
  match future with
  | Ok (Some r) =>
      if marked_error r then []
      else match dict_lookup "CVE_ID" r with
           | Some cve_id =>
               [OutputFile (path_join out_dir (py_str cve_id ++ ".json")) r]
           | None => []
           end
  | _ => []
  end.

(** [groups[base][tag]], where there is one. *)
Definition lookup2 (base tag : string) (g : groups) : option string :=
  match dict_lookup base g with
  | Some m => dict_lookup tag m
  | None => None
  end.

(** What the name [f] of a directory adds to the groups (lines 33-40): the
    base and the tag it is filed under, when it is filed. *)
Definition file_entry (f : string) : option (string * string) :=
  if negb (str_endswith f ".json" || str_endswith f ".nvd"
           || str_endswith f ".mitre")%bool
  then None
  else
    let '(base, ext) := splitext f in
    let ext := str_lower ext in
    if ((ext =? ".nvd") || (ext =? ".mitre"))%string
    then Some (base, str_tail ext)
    else None.

Definition entry_is (base tag : string) (f : string) : bool :=
  match file_entry f with
  | Some (b, t) => ((b =? base) && (t =? tag))%string
  | None => false
  end.

(** The tag of the sibling a single file is paired with. *)
Definition other_tag (tag : string) : string :=
  if (tag =? "nvd")%string then "mitre" else "nvd".

(** *** CVSS scores *)

(** The labels a score comes back with. *)
Definition cvss_labels : list string := ["4.0"; "3.1"; "3.0"; "2.0"].

(** What the caller of a score function can rely on (lines 98-113 of
    [cvss_helper.py] test the score against [None] and print the version):
    nothing at all, or a score that is not [None] with one of the labels. *)
Definition score_result (r : pyval * pyval) : Prop :=
  r = (PNone, PNone)
  \/ (fst r <> PNone /\ exists v, In v cvss_labels /\ snd r = PStr v).

(** The metrics of the first vulnerability of an NVD document, when the
    document has the objects and the list on the way to them. *)
Definition nvd_metrics (data : pyval) : option pydict :=
  match data with
  | PDict d =>
      match dict_lookup "vulnerabilities" d with
      | Some (PList (PDict v :: _)) =>
          match dict_lookup "cve" v with
          | Some (PDict c) =>
              match dict_lookup "metrics" c with
              | Some (PDict m) => Some m
              | _ => None
              end
          | _ => None
          end
      | _ => None
      end
  | _ => None
  end.

(** The base score of an object, when it has one that is not [None]. *)
Definition base_score (x : pydict) : option pyval :=
  match dict_lookup "baseScore" x with
  | Some s => if is_not_none s then Some s else None
  | None => None
  end.

(** The score NVD metrics offer under a key: the base score of the
    [cvssData] object of the first entry of the list under that key. *)
Definition nvd_offer (m : pydict) (key : string) : option pyval :=
  match dict_lookup key m with
  | Some (PList (PDict e :: _)) =>
      match dict_lookup "cvssData" e with
      | Some (PDict cd) => base_score cd
      | _ => None
      end
  | _ => None
  end.

(** NVD metrics have nothing to offer under a key, and nothing out of shape
    either: the key is absent, or its value is falsy, or it is a list whose
    first entry is an object without a base score. *)
Definition nvd_skips (m : pydict) (key : string) : bool :=
  match dict_lookup key m with
  | None => true
  | Some v =>
      if truthy v then
        match v with
        | PList (PDict e :: _) =>
            match dict_lookup "cvssData" e with
            | None => true
            | Some (PDict cd) =>
                match base_score cd with Some _ => false | None => true end
            | Some _ => false
            end
        | _ => false
        end
      else true
  end.

(** The value under a key is out of shape: it is truthy and is neither a
    list of objects nor an object, or the [cvssData] of its first entry is
    not an object. *)
Definition nvd_malformed (m : pydict) (key : string) : bool :=
  match dict_lookup key m with
  | None => false
  | Some v =>
      if truthy v then
        match v with
        | PList (PDict e :: _) =>
            match dict_lookup "cvssData" e with
            | None | Some (PDict _) => false
            | Some _ => true
            end
        | PDict _ => false
        | _ => true
        end
      else false
  end.

(** The metrics of the CNA container of a MITRE record, when they are a
    list and the record has the objects on the way to it. *)
Definition mitre_metrics (data : pyval) : option (list pyval) :=
  match data with
  | PDict d =>
      match dict_lookup "containers" d with
      | Some (PDict c) =>
          match dict_lookup "cna" c with
          | Some (PDict a) =>
              match dict_lookup "metrics" a with
              | Some (PList l) => Some l
              | _ => None
              end
          | _ => None
          end
      | _ => None
      end
  | _ => None
  end.

(** The score one MITRE metric offers under a key. *)
Definition mitre_offer (metric : pyval) (key : string) : option pyval :=
  match metric with
  | PDict e =>
      match dict_lookup key e with
      | Some (PDict x) => base_score x
      | _ => None
      end
  | _ => None
  end.

(** A MITRE metric is an object with nothing to offer under a key: the key
    is absent, or it holds an object without a base score. *)
Definition mitre_skips (metric : pyval) (key : string) : bool :=
  match metric with
  | PDict e =>
      match dict_lookup key e with
      | None => true
      | Some (PDict x) =>
          match base_score x with Some _ => false | None => true end
      | Some _ => false
      end
  | _ => false
  end.

(** The documents of the examples: an NVD document around given metrics,
    a metric list entry of a given score, a MITRE record around given
    metrics, and the scores 9.8, 7.5 and 9.3. *)
Definition nvd_document (m : pydict) : pyval :=
  PDict [("format", PStr "NVD_CVE");
         ("vulnerabilities",
           PList [PDict [("cve", PDict [("metrics", PDict m)])]])].

Definition nvd_entry (score : pyval) : pyval :=
  PDict [("source", PStr "nvd@nist.gov");
         ("cvssData", PDict [("version", PStr "3.1"); ("baseScore", score)])].

Definition mitre_document (l : list pyval) : pyval :=
  PDict [("dataType", PStr "CVE_RECORD");
         ("containers", PDict [("cna", PDict [("metrics", PList l)])])].

Definition score_9_8 : pyval := PFloat (FDec 98 (-1)).
Definition score_7_5 : pyval := PFloat (FDec 75 (-1)).
Definition score_9_3 : pyval := PFloat (FDec 93 (-1)).

(** NVD metrics with an empty v4.0 list, a v3.1 entry without a score
    followed by one with a score, a v3.0 score and a v2.0 score. *)
Definition nvd_sample_metrics : pydict :=
  [("cvssMetricV2", PList [nvd_entry score_7_5]);
   ("cvssMetricV30", PList [nvd_entry score_9_8; nvd_entry score_9_3]);
   ("cvssMetricV31", PList [PDict [("source", PStr "cna")];
                            nvd_entry score_9_3]);
   ("cvssMetricV40", PList [])].

(** NVD metrics where a string stands under the v3.1 key and a score
    under the v2.0 key. *)
Definition nvd_broken_metrics : pydict :=
  [("cvssMetricV2", PList [nvd_entry score_7_5]);
   ("cvssMetricV31", PStr "n/a")].

(** NVD metrics whose v4.0 entries are keyed by position in an object. *)
Definition nvd_keyed_metrics : pydict :=
  [("cvssMetricV40", PDict [("0", nvd_entry score_9_3)])].

(** MITRE metrics where a v3.1 score comes before the v4.0 score. *)
Definition mitre_sample_metrics : list pyval :=
  [PDict [("cvssV3_1", PDict [("baseScore", score_7_5)])];
   PDict [("format", PStr "CVSS")];
   PDict [("cvssV4_0", PDict [("baseScore", score_9_3)])];
   PStr "trailer"].

End MoreTerms.
Export MoreTerms.

(** ** [helpers/cvss_helper.py]: the update run *)

(** [main] of the helper, from line 65 on, on the two directories its
    command line names. The file system is a parameter: what reading a file
    comes to, which paths are files and directories, what the pattern
    [*.json] yields and whether a write completes. A run is followed by the
    files it opens, the files it rewrites and the lines it prints, in
    order, and by its two counters; [print] itself is taken to succeed. *)

Module CvssMain.

(** What opening a file for reading and reading it as UTF-8 comes to: its
    text, an [OSError] (which [IOError] names), or a [UnicodeDecodeError]
    for bytes that are no UTF-8. *)
Inductive read_outcome : Type :=
| Text (s : string)
| IOError
| NotUtf8.

(** The lines the run prints: lines 70 and 73, 87, 119, 122, 126 and
    129-134 of the source. *)
Inductive line : Type :=
| DirectoryNotFound (dir : string)
| NoCveId (name : string)
| UpdatedLine (cve_id score : pyval) (version : string)
| NoScoreLine (cve_id : pyval)
| ErrorProcessing (name : string)
| Summary (updated missing : nat).

(** What the run does to the outside: it opens a file for reading, rewrites
    a file, fails to, or prints a line. *)
Inductive action : Type :=
| Opened (dir name : string)
| Wrote (dir name : string) (data : pyval)
| WriteFailed (dir name : string)
| Printed (l : line).

Record tally : Type := mkTally {
  actions : list action;
  updated_count : nat;
  missing_count : nat;
  attempted : nat
}.

Definition tally0 : tally := mkTally [] 0 0 0.

(** A step of the run ends normally, with [json.JSONDecodeError] or
    [IOError], which line 125 catches, or with an exception line 125 does
    not name. *)
Inductive outcome (A : Type) : Type :=
| Done (a : A)
| Caught
| Escapes (e : exn).
Arguments Done {A} a.
Arguments Caught {A}.
Arguments Escapes {A} e.

Definition U (A : Type) : Type := tally -> outcome A * tally.

Definition unit_u {A} (a : A) : U A := fun st => (Done a, st).

Definition bind_u {A B} (m : U A) (k : A -> U B) : U B :=
  fun st =>
    match m st with
    | (Done a, st') => k a st'
    | (Caught, st') => (Caught, st')
    | (Escapes e, st') => (Escapes e, st')
    end.

Local Notation "x <<- m ;; k" := (bind_u m (fun x => k))
  (at level 61, m at next level, right associativity).

Definition escape {A} (e : exn) : U A := fun st => (Escapes e, st).

Definition of_res {A} (r : res A) : U A :=
  match r with
  | Ok a => unit_u a
  | Raise e => escape e
  end.

Definition act (a : action) : U unit :=
  fun st =>
    (Done tt,
     mkTally (actions st ++ [a]) (updated_count st) (missing_count st)
       (attempted st)).

Definition count_updated : U unit :=
  fun st =>
    (Done tt,
     mkTally (actions st) (S (updated_count st)) (missing_count st)
       (attempted st)).

Definition count_missing : U unit :=
  fun st =>
    (Done tt,
     mkTally (actions st) (updated_count st) (S (missing_count st))
       (attempted st)).

(** [format(v, "<18")], as the f-string of line 119 asks for: [None], a
    list and a dict take no format specification and raise [TypeError]. *)
Definition format_ok (v : pyval) : bool :=
  match v with
  | PNone | PList _ | PDict _ => false
  | _ => true
  end.

(** [x[key] = v] for a string [key] *)
Definition py_setitem (x : pyval) (key : string) (v : pyval) : res pyval :=
  match x with
  | PDict d => Ok (PDict (dict_set key v d))
  | _ => Raise TypeError
  end.

Section Run.

(** The file [name] of the directory [dir], opened and read. *)
Variable read_file : string -> string -> read_outcome.

(** [(dir / name).is_file()] and [dir.is_dir()]. A name the platform
    refuses outright (one longer than it allows), for which [is_file]
    raises an [OSError] that line 125 catches, is not modelled. *)
Variable is_file : string -> string -> bool.
Variable is_dir : string -> bool.

(** [output_dir.glob("*.json")]: the names it yields, in its order. *)
Variable glob_json : string -> list string.

(** [str(v)], as the f-strings of lines 91, 92 and 113 format a value. *)
Variable py_str : pyval -> string.

(** Whether the [n]-th attempt to rewrite a file ([open] for writing and
    [json.dump]) completes; otherwise it raises [IOError]. *)
Variable write_file : nat -> string -> string -> pyval -> bool.

(** [with open(dir / name, "r", encoding="utf-8") as f: json.load(f)] *)
Definition load_json (dir name : string) : U pyval :=
  _ <<- act (Opened dir name) ;;
  match read_file dir name with
  | Text s =>
      match json_loads s with
      | Some v => unit_u v
      | None => fun st => (Caught, st)
      end
  | IOError => fun st => (Caught, st)
  | NotUtf8 => escape ValueError
  end.

(** Lines 116-117 *)
Definition dump_json (dir name : string) (data : pyval) : U unit :=
  fun st =>
    if write_file (attempted st) dir name data
    then (Done tt,
          mkTally (actions st ++ [Wrote dir name data]) (updated_count st)
            (missing_count st) (S (attempted st)))
    else (Caught,
          mkTally (actions st ++ [WriteFailed dir name]) (updated_count st)
            (missing_count st) (S (attempted st))).

(** The triple [score, version, source] of line 90. *)
Definition found : Type := pyval * pyval * option string.

(** Lines 95-100 *)
Definition from_nvd (json_dir : string) (cve_id : pyval) : U found :=
  let nvd_file := (py_str cve_id ++ ".nvd")%string in
  if is_file json_dir nvd_file then
    nvd_data <<- load_json json_dir nvd_file ;;
    sv <<- of_res (get_nvd_cvss_score nvd_data) ;;
    unit_u (fst sv, snd sv,
            if is_not_none (fst sv) then Some "nvd"%string else None)
  else unit_u (PNone, PNone, None).

(** Lines 103-108 *)
Definition from_mitre (json_dir : string) (cve_id : pyval) (so_far : found)
  : U found :=
  let mitre_file := (py_str cve_id ++ ".mitre")%string in
  let '(score, version, source) := so_far in
  if (negb (is_not_none score) && is_file json_dir mitre_file)%bool then
    mitre_data <<- load_json json_dir mitre_file ;;
    sv <<- of_res (get_mitre_cvss_score mitre_data) ;;
    unit_u (fst sv, snd sv,
            if is_not_none (fst sv) then Some "mitre"%string else source)
  else unit_u so_far.

(** [f"{version}.{source}"] *)
Definition version_label (version : pyval) (source : option string) : string :=
  (py_str version ++ "."
   ++ match source with Some s => s | None => "None" end)%string.

(** Lines 111-123 *)
Definition settle (output_dir name : string) (output_data cve_id : pyval)
  (result : found) : U unit :=
  let '(score, version, source) := result in
  if is_not_none score then
    with_score <<- of_res (py_setitem output_data "CVSS_score" score) ;;
    let label := version_label version source in
    with_both <<- of_res (py_setitem with_score "CVSS_version" (PStr label)) ;;
    _ <<- dump_json output_dir name with_both ;;
    if (format_ok cve_id && format_ok score)%bool then
      _ <<- act (Printed (UpdatedLine cve_id score label)) ;;
      count_updated
    else escape TypeError
  else
    _ <<- act (Printed (NoScoreLine cve_id)) ;;
    count_missing.

(** Lines 82-123: the body of the [try]. *)
Definition update_body (json_dir output_dir name : string) : U unit :=
  output_data <<- load_json output_dir name ;;
  cve_id <<- of_res (py_get output_data "CVE_ID" PNone) ;;
  if negb (truthy cve_id) then act (Printed (NoCveId name))
  else
    result <<- from_nvd json_dir cve_id ;;
    result <<- from_mitre json_dir cve_id result ;;
    settle output_dir name output_data cve_id result.

(** Lines 81-126: one turn of the loop. *)
Definition update_file (json_dir output_dir name : string) : U unit :=
  fun st =>
    match update_body json_dir output_dir name st with
    | (Caught, st') => act (Printed (ErrorProcessing name)) st'
    | other => other
    end.

(** Lines 80-126 *)
Fixpoint update_files (json_dir output_dir : string) (names : list string)
  : U unit :=
  match names with
  | [] => unit_u tt
  | name :: rest =>
      _ <<- update_file json_dir output_dir name ;;
      update_files json_dir output_dir rest
  end.

(** Lines 65-134, on the two directories the command line names. *)
Definition main (json_dir output_dir : string) : U unit :=
  if negb (is_dir json_dir)
  then act (Printed (DirectoryNotFound json_dir))
  else if negb (is_dir output_dir)
  then act (Printed (DirectoryNotFound output_dir))
  else
    _ <<- update_files json_dir output_dir (glob_json output_dir) ;;
    fun st =>
      act (Printed (Summary (updated_count st) (missing_count st))) st.

End Run.

(** *** Vocabulary of the statements about the run *)

Definition is_wrote (a : action) : bool :=
  match a with
  | Wrote _ _ _ => true
  | _ => false
  end.

Definition is_no_id (a : action) : bool :=
  match a with
  | Printed (NoCveId _) => true
  | _ => false
  end.

Definition is_error_line (a : action) : bool :=
  match a with
  | Printed (ErrorProcessing _) => true
  | _ => false
  end.

(** Loading a file ends in an exception line 125 catches: the file cannot
    be opened or read, or its text is no JSON. *)
Definition caught_on_load (r : read_outcome) : bool :=
  match r with
  | Text s => match json_loads s with Some _ => false | None => true end
  | IOError => true
  | NotUtf8 => false
  end.

(** The NVD file of an identifier yields no score: there is none, or it
    loads and [get_nvd_cvss_score] returns [None] for its score. *)
Definition nvd_silent (read_file : string -> string -> read_outcome)
  (is_file : string -> string -> bool) (json_dir nvd_file : string) : bool :=
  if is_file json_dir nvd_file then
    match read_file json_dir nvd_file with
    | Text tn =>
        match json_loads tn with
        | Some nvd_data =>
            match get_nvd_cvss_score nvd_data with
            | Ok (PNone, _) => true
            | _ => false
            end
        | None => false
        end
    | _ => false
    end
  else true.

(** The object [d] with the two CVSS fields set. *)
Definition with_cvss (score : pyval) (label : string) (d : pydict) : pydict :=
  dict_set "CVSS_version" (PStr label) (dict_set "CVSS_score" score d).

(** [data] is the object [d] with the two CVSS fields set, to a score that
    is not [None] and to a string. *)
Definition cvss_update_of (d : pydict) (data : pyval) : Prop :=
  exists (score : pyval) (label : string),
    score <> PNone /\ data = PDict (with_cvss score label d).

(** The directories and files of the examples: an output file [a.json] for
    [CVE-2024-1234], whose NVD file is [nvd_text] and whose MITRE file
    offers 9.3 under v4.0; a second output file [b.json] for
    [CVE-2024-5678], which has no source file. *)
Definition a_text : string :=
  "{" ++ quoted "CVE_ID" ++ ": " ++ quoted "CVE-2024-1234" ++ ", "
      ++ quoted "Category" ++ ": " ++ quoted "RCE" ++ "}".

Definition b_text : string :=
  "{" ++ quoted "CVE_ID" ++ ": " ++ quoted "CVE-2024-5678" ++ "}".

Definition nvd_scored_text : string :=
  "{" ++ quoted "vulnerabilities" ++ ": [{" ++ quoted "cve" ++ ": {"
      ++ quoted "metrics" ++ ": {" ++ quoted "cvssMetricV31" ++ ": [{"
      ++ quoted "cvssData" ++ ": {" ++ quoted "baseScore" ++ ": 9.8}}]}}}]}".

Definition nvd_keyed_text : string :=
  "{" ++ quoted "vulnerabilities" ++ ": {}}".

Definition nvd_unscored_text : string :=
  "{" ++ quoted "vulnerabilities" ++ ": [{" ++ quoted "cve" ++ ": {"
      ++ quoted "metrics" ++ ": {}}}]}".

(** An output file whose identifier is a list, and a disk that holds it
    under every name of the output directory and a scored NVD file under
    every other name. *)
Definition listed_text : string :=
  "{" ++ quoted "CVE_ID" ++ ": [" ++ quoted "CVE-2024-1234" ++ "]}".

Definition listed_disk (dir name : string) : read_outcome :=
  if (dir =? "output")%string then Text listed_text
  else Text nvd_scored_text.

Definition mitre_scored_text : string :=
  "{" ++ quoted "containers" ++ ": {" ++ quoted "cna" ++ ": {"
      ++ quoted "metrics" ++ ": [{" ++ quoted "cvssV4_0" ++ ": {"
      ++ quoted "baseScore" ++ ": 9.3}}]}}}".

Definition sample_disk (nvd_text : string) (dir name : string)
  : read_outcome :=
  if (dir =? "output")%string then
    if (name =? "a.json")%string then Text a_text
    else if (name =? "b.json")%string then Text b_text
    else IOError
  else
    if (name =? "CVE-2024-1234.nvd")%string then Text nvd_text
    else if (name =? "CVE-2024-1234.mitre")%string then Text mitre_scored_text
    else IOError.

Definition sample_is_file (dir name : string) : bool :=
  ((dir =? "json") && ((name =? "CVE-2024-1234.nvd")
                       || (name =? "CVE-2024-1234.mitre")))%string%bool.

Definition sample_glob (dir : string) : list string := ["a.json"; "b.json"].

Definition every_write_ok : nat -> string -> string -> pyval -> bool :=
  fun _ _ _ _ => true.

End CvssMain.

(** * Properties *)

(** ** Strings *)

Lemma append_assoc (a b c : string) : ((a ++ b) ++ c = a ++ (b ++ c))%string.
Proof. induction a as [|x a IH]; simpl; [reflexivity | now rewrite IH]. Qed.

Lemma append_empty_r (a : string) : (a ++ "" = a)%string.
Proof. induction a as [|x a IH]; simpl; [reflexivity | now rewrite IH]. Qed.

Lemma eqb_nonempty_app (a : string) (c : ascii) (b : string) :
  ((a ++ String c b) =? "")%string = false.
Proof. destruct a; reflexivity. Qed.

(** ** The decoder never runs out of fuel *)

Lemma starts_with_some (c : ascii) (s r : string) :
  starts_with c s = Some r -> s = String c r.
Proof.
  destruct s as [|c' s']; simpl; [discriminate|].
  destruct (Ascii.eqb c' c) eqn:E; [|discriminate].
  apply Ascii.eqb_eq in E. now intros [= <-]; subst.
Qed.

Lemma starts_with_length (c : ascii) (s r : string) :
  starts_with c s = Some r -> String.length s = S (String.length r).
Proof. intro H. now rewrite (starts_with_some _ _ _ H). Qed.

Lemma skip_ws_length (s : string) :
  (String.length (skip_ws s) <= String.length s)%nat.
Proof.
  induction s as [|c s IH]; simpl; [lia|].
  destruct (is_ws c); simpl; lia.
Qed.

Lemma strip_prefix_length (p s r : string) :
  strip_prefix p s = Some r ->
  String.length s = (String.length p + String.length r)%nat.
Proof.
  revert s. induction p as [|a p IH]; intros s; simpl.
  - now intros [= ->].
  - destruct s as [|b s]; [discriminate|].
    destruct (Ascii.eqb a b); [|discriminate].
    intro H. simpl. now rewrite (IH _ H).
Qed.

Lemma scan_digits_length (s : string) (acc n v c : Z) (r : string) :
  scan_digits s acc n = (v, c, r) ->
  (String.length r <= String.length s)%nat.
Proof.
  revert acc n. induction s as [|a s IH]; intros acc n; simpl.
  - intros [= _ _ <-]. simpl. lia.
  - destruct (is_digit a).
    + intro H. apply IH in H. lia.
    + intros [= _ _ <-]. simpl. lia.
Qed.

Lemma scan_digits1_length (s : string) (v c : Z) (r : string) :
  scan_digits1 s = Some (v, c, r) ->
  (String.length r < String.length s)%nat.
Proof.
  unfold scan_digits1. destruct s as [|a s]; [discriminate|].
  destruct (is_digit a) eqn:E; [|discriminate].
  simpl. rewrite E. intros [= H]. apply scan_digits_length in H. lia.
Qed.

Lemma scan_int_part_length (s : string) (v : Z) (r : string) :
  scan_int_part s = Some (v, r) ->
  (String.length r < String.length s)%nat.
Proof.
  unfold scan_int_part.
  destruct (starts_with "0" s) as [r0|] eqn:E.
  - intros [= _ <-]. rewrite (starts_with_length _ _ _ E). lia.
  - destruct (scan_digits1 s) as [[[v' c'] r']|] eqn:D; [|discriminate].
    intros [= _ <-]. now apply scan_digits1_length in D.
Qed.

Lemma scan_frac_part_length (s : string) (v c : Z) (r : string) :
  scan_frac_part s = Some (v, c, r) ->
  (String.length r < String.length s)%nat.
Proof.
  unfold scan_frac_part.
  destruct (starts_with "." s) as [r0|] eqn:E; [|discriminate].
  intro H. apply scan_digits1_length in H.
  rewrite (starts_with_length _ _ _ E). lia.
Qed.

Lemma scan_exp_part_length (s : string) (v : Z) (r : string) :
  scan_exp_part s = Some (v, r) ->
  (String.length r < String.length s)%nat.
Proof.
  unfold scan_exp_part. destruct s as [|a s]; [discriminate|].
  destruct (Ascii.eqb a "e" || Ascii.eqb a "E")%bool; [|discriminate].
  destruct (starts_with "+" s) as [r1|] eqn:Ep.
  - destruct (scan_digits1 r1) as [[[v' c'] r']|] eqn:D; [|discriminate].
    intros [= _ <-]. apply scan_digits1_length in D.
    apply starts_with_length in Ep. simpl. lia.
  - destruct (starts_with "-" s) as [r1|] eqn:Em.
    + destruct (scan_digits1 r1) as [[[v' c'] r']|] eqn:D; [|discriminate].
      intros [= _ <-]. apply scan_digits1_length in D.
      apply starts_with_length in Em. simpl. lia.
    + destruct (scan_digits1 s) as [[[v' c'] r']|] eqn:D; [|discriminate].
      intros [= _ <-]. apply scan_digits1_length in D. simpl. lia.
Qed.

Lemma scan_number_length (s : string) (v : pyval) (r : string) :
  scan_number s = Some (v, r) -> (String.length r < String.length s)%nat.
Proof.
  unfold scan_number.
  assert (Hsign : forall sgn s1,
             (sgn, s1) = match starts_with "-" s with
                         | Some r0 => (-1, r0)
                         | None => (1, s)
                         end ->
             (String.length s1 <= String.length s)%nat).
  { intros sgn s1. destruct (starts_with "-" s) as [r0|] eqn:E.
    - intros [= _ ->]. rewrite (starts_with_length _ _ _ E). lia.
    - intros [= _ ->]. lia. }
  destruct (match starts_with "-" s with
            | Some r0 => (-1, r0)
            | None => (1, s)
            end) as [sgn s1] eqn:E.
  specialize (Hsign sgn s1 eq_refl).
  destruct (scan_int_part s1) as [[ip r1]|] eqn:Hi; [|discriminate].
  apply scan_int_part_length in Hi.
  assert (Hr2 : forall frac r2,
             (frac, r2) = match scan_frac_part r1 with
                          | Some (fv, fn, r0) => (Some (fv, fn), r0)
                          | None => (None, r1)
                          end ->
             (String.length r2 <= String.length r1)%nat).
  { intros frac r2.
    destruct (scan_frac_part r1) as [[[fv fn] r0]|] eqn:F.
    - intros [= _ ->]. apply scan_frac_part_length in F. lia.
    - intros [= _ ->]. lia. }
  destruct (match scan_frac_part r1 with
            | Some (fv, fn, r0) => (Some (fv, fn), r0)
            | None => (None, r1)
            end) as [frac r2].
  specialize (Hr2 frac r2 eq_refl).
  assert (Hr3 : forall ex r3,
             (ex, r3) = match scan_exp_part r2 with
                        | Some (ev, r0) => (Some ev, r0)
                        | None => (None, r2)
                        end ->
             (String.length r3 <= String.length r2)%nat).
  { intros ex r3. destruct (scan_exp_part r2) as [[ev r0]|] eqn:X.
    - intros [= _ ->]. apply scan_exp_part_length in X. lia.
    - intros [= _ ->]. lia. }
  destruct (match scan_exp_part r2 with
            | Some (ev, r0) => (Some ev, r0)
            | None => (None, r2)
            end) as [ex r3].
  specialize (Hr3 ex r3 eq_refl).
  destruct frac as [[fv fn]|], ex as [ev|]; intros [= _ <-]; lia.
Qed.

Lemma scan_literal_length (s : string) (v : pyval) (r : string) :
  scan_literal s = Some (v, r) -> (String.length r < String.length s)%nat.
Proof.
  unfold scan_literal.
  repeat match goal with
         | |- context [strip_prefix ?p s] =>
             let E := fresh "E" in
             destruct (strip_prefix p s) eqn:E;
             [apply strip_prefix_length in E; simpl in E;
              intros [= _ <-]; lia |]
         end.
  apply scan_number_length.
Qed.

Lemma scan_pieces_length (s : string) (st : sstate) (acc ps : list piece)
  (r : string) :
  scan_pieces s st acc = Some (ps, r) ->
  (String.length r < String.length s)%nat.
Proof.
  revert st acc. induction s as [|c s IH]; intros st acc; simpl.
  - discriminate.
  - destruct st as [| |k a].
    + destruct (Ascii.eqb c dquote); [intros [= _ <-]; lia|].
      destruct (Ascii.eqb c "\"); [intro H; apply IH in H; lia|].
      destruct (byte_in c 0 31); [discriminate|].
      intro H; apply IH in H; lia.
    + destruct (Ascii.eqb c "u"); [intro H; apply IH in H; lia|].
      destruct (escape_byte c); [|discriminate].
      intro H; apply IH in H; lia.
    + destruct (hex_val c); [|discriminate].
      destruct k as [|[|k]]; [discriminate| |];
        intro H; apply IH in H; lia.
Qed.

Lemma scan_string_length (s str r : string) :
  scan_string s = Some (str, r) -> (String.length r < String.length s)%nat.
Proof.
  unfold scan_string.
  destruct (scan_pieces s SNormal []) as [[ps rest]|] eqn:E; [|discriminate].
  intros [= _ <-]. now apply scan_pieces_length in E.
Qed.

(** What is parsed is at least one character long. *)
Lemma parse_length (fuel : nat) :
  (forall s v r, parse_value fuel s = Parsed v r ->
                 (String.length r < String.length s)%nat)
  /\ (forall s acc v r, parse_elems fuel s acc = Parsed v r ->
                        (String.length r < String.length s)%nat)
  /\ (forall s acc v r, parse_members fuel s acc = Parsed v r ->
                        (String.length r < String.length s)%nat).
Proof.
  induction fuel as [|f (IHv & IHe & IHm)].
  - repeat split; intros; discriminate.
  - split; [|split].
    + intros s v r. simpl.
      destruct (starts_with dquote s) as [r0|] eqn:Eq.
      { apply starts_with_length in Eq.
        destruct (scan_string r0) as [[str rest]|] eqn:Es; [|discriminate].
        intros [= _ <-]. apply scan_string_length in Es. lia. }
      destruct (starts_with "{" s) as [r0|] eqn:Eo.
      { apply starts_with_length in Eo.
        pose proof (skip_ws_length r0) as Hws.
        destruct (starts_with "}" (skip_ws r0)) as [r1|] eqn:Ec.
        - apply starts_with_length in Ec. intros [= _ <-]. lia.
        - intro H. apply IHm in H. lia. }
      destruct (starts_with "[" s) as [r0|] eqn:Ea.
      { apply starts_with_length in Ea.
        pose proof (skip_ws_length r0) as Hws.
        destruct (starts_with "]" (skip_ws r0)) as [r1|] eqn:Ec.
        - apply starts_with_length in Ec. intros [= _ <-]. lia.
        - intro H. apply IHe in H. lia. }
      destruct (scan_literal s) as [[v0 rest]|] eqn:El; [|discriminate].
      intros [= _ <-]. now apply scan_literal_length in El.
    + intros s acc v r. simpl.
      destruct (parse_value f s) as [v0 r0| |] eqn:Ev; try discriminate.
      apply IHv in Ev. pose proof (skip_ws_length r0) as Hws.
      destruct (starts_with "," (skip_ws r0)) as [r1|] eqn:Ec.
      { apply starts_with_length in Ec.
        pose proof (skip_ws_length r1) as Hws1.
        intro H. apply IHe in H. lia. }
      destruct (starts_with "]" (skip_ws r0)) as [r1|] eqn:Eb; [|discriminate].
      apply starts_with_length in Eb. intros [= _ <-]. lia.
    + intros s acc v r. simpl.
      destruct (starts_with dquote s) as [r0|] eqn:Eq; [|discriminate].
      apply starts_with_length in Eq.
      destruct (scan_string r0) as [[key r1]|] eqn:Es; [|discriminate].
      apply scan_string_length in Es.
      pose proof (skip_ws_length r1) as Hws1.
      destruct (starts_with ":" (skip_ws r1)) as [r2|] eqn:Ec; [|discriminate].
      apply starts_with_length in Ec.
      pose proof (skip_ws_length r2) as Hws2.
      destruct (parse_value f (skip_ws r2)) as [v0 r3| |] eqn:Ev;
        try discriminate.
      apply IHv in Ev. pose proof (skip_ws_length r3) as Hws3.
      destruct (starts_with "," (skip_ws r3)) as [r4|] eqn:Em.
      { apply starts_with_length in Em.
        pose proof (skip_ws_length r4) as Hws4.
        intro H. apply IHm in H. lia. }
      destruct (starts_with "}" (skip_ws r3)) as [r4|] eqn:Eb; [|discriminate].
      apply starts_with_length in Eb. intros [= _ <-]. lia.
Qed.

(** Twice the length of the text, and one or two more, is fuel enough. *)
Lemma parse_fuel (fuel : nat) :
  (forall s, (2 * String.length s + 1 <= fuel)%nat ->
             parse_value fuel s <> OutOfFuel)
  /\ (forall s acc, (2 * String.length s + 2 <= fuel)%nat ->
                    parse_elems fuel s acc <> OutOfFuel)
  /\ (forall s acc, (2 * String.length s + 2 <= fuel)%nat ->
                    parse_members fuel s acc <> OutOfFuel).
Proof.
  induction fuel as [|f (IHv & IHe & IHm)].
  - repeat split; intros; lia.
  - split; [|split].
    + intros s Hf. simpl.
      destruct (starts_with dquote s) as [r0|] eqn:Eq.
      { destruct (scan_string r0) as [[str rest]|]; discriminate. }
      destruct (starts_with "{" s) as [r0|] eqn:Eo.
      { apply starts_with_length in Eo.
        pose proof (skip_ws_length r0) as Hws.
        destruct (starts_with "}" (skip_ws r0)); [discriminate|].
        apply IHm. lia. }
      destruct (starts_with "[" s) as [r0|] eqn:Ea.
      { apply starts_with_length in Ea.
        pose proof (skip_ws_length r0) as Hws.
        destruct (starts_with "]" (skip_ws r0)); [discriminate|].
        apply IHe. lia. }
      destruct (scan_literal s) as [[v0 rest]|]; discriminate.
    + intros s acc Hf. simpl.
      destruct (parse_value f s) as [v0 r0| |] eqn:Ev.
      * apply (proj1 (parse_length f)) in Ev.
        pose proof (skip_ws_length r0) as Hws.
        destruct (starts_with "," (skip_ws r0)) as [r1|] eqn:Ec.
        { apply starts_with_length in Ec.
          pose proof (skip_ws_length r1) as Hws1.
          apply IHe. lia. }
        destruct (starts_with "]" (skip_ws r0)); discriminate.
      * discriminate.
      * exfalso. revert Ev. apply IHv. lia.
    + intros s acc Hf. simpl.
      destruct (starts_with dquote s) as [r0|] eqn:Eq; [|discriminate].
      apply starts_with_length in Eq.
      destruct (scan_string r0) as [[key r1]|] eqn:Es; [|discriminate].
      apply scan_string_length in Es.
      pose proof (skip_ws_length r1) as Hws1.
      destruct (starts_with ":" (skip_ws r1)) as [r2|] eqn:Ec; [|discriminate].
      apply starts_with_length in Ec.
      pose proof (skip_ws_length r2) as Hws2.
      destruct (parse_value f (skip_ws r2)) as [v0 r3| |] eqn:Ev.
      * apply (proj1 (parse_length f)) in Ev.
        pose proof (skip_ws_length r3) as Hws3.
        destruct (starts_with "," (skip_ws r3)) as [r4|] eqn:Em.
        { apply starts_with_length in Em.
          pose proof (skip_ws_length r4) as Hws4.
          apply IHm. lia. }
        destruct (starts_with "}" (skip_ws r3)); discriminate.
      * discriminate.
      * exfalso. revert Ev. apply IHv. lia.
Qed.

(** [json_loads] answers [None] only for a text the decoder refuses. *)
Lemma decode_fuel (s : string) : decode s <> OutOfFuel.
Proof.
  unfold decode. apply (proj1 (parse_fuel _)).
  pose proof (skip_ws_length s). lia.
Qed.

(** ** The Response Extractor *)

Lemma from_first_open_app (pre t : string) :
  has_char "{" pre = false ->
  from_first_open (pre ++ String "{" t) = Some (String "{" t).
Proof.
  induction pre as [|c pre IH]; simpl; intro H.
  - reflexivity.
  - apply orb_false_iff in H as [Hc Hpre].
    rewrite Hc. now apply IH.
Qed.

Lemma upto_last_close_none (s : string) :
  has_char "}" s = false -> upto_last_close s = None.
Proof.
  induction s as [|c s IH]; simpl; intro H.
  - reflexivity.
  - apply orb_false_iff in H as [Hc Hs].
    now rewrite (IH Hs), Hc.
Qed.

Lemma upto_last_close_app (m post : string) :
  has_char "}" post = false ->
  upto_last_close (m ++ String "}" post) = Some (m ++ "}")%string.
Proof.
  intro H. induction m as [|c m IH]; simpl.
  - now rewrite (upto_last_close_none post H).
  - now rewrite IH.
Qed.

Lemma re_search_braces_span (pre body post : string) :
  has_char "{" pre = false -> has_char "}" post = false ->
  re_search_braces (pre ++ "{" ++ body ++ "}" ++ post)
  = Some ("{" ++ body ++ "}")%string.
Proof.
  intros Hpre Hpost. unfold re_search_braces. simpl.
  rewrite (from_first_open_app pre _ Hpre).
  change (String "{" (body ++ String "}" post))
    with (String "{" body ++ String "}" post)%string.
  now rewrite (upto_last_close_app _ post Hpost).
Qed.

Lemma from_first_open_some (s t : string) :
  from_first_open s = Some t ->
  exists pre t', s = (pre ++ String "{" t')%string /\ t = String "{" t'.
Proof.
  revert t. induction s as [|c s IH]; simpl; intros t H.
  - discriminate.
  - destruct (Ascii.eqb c "{") eqn:E.
    + apply Ascii.eqb_eq in E. subst c. inversion H; subst.
      now exists EmptyString, s.
    + destruct (IH _ H) as (pre & t' & -> & ->).
      now exists (String c pre), t'.
Qed.

Lemma upto_last_close_some (t p : string) :
  upto_last_close t = Some p ->
  exists m post, p = (m ++ "}")%string /\ t = (m ++ String "}" post)%string.
Proof.
  revert p. induction t as [|c t IH]; simpl; intros p H.
  - discriminate.
  - destruct (upto_last_close t) as [q|] eqn:E.
    + inversion H; subst. destruct (IH _ eq_refl) as (m & post & -> & ->).
      now exists (String c m), post.
    + destruct (Ascii.eqb c "}") eqn:Ec; [|discriminate].
      apply Ascii.eqb_eq in Ec. subst c. inversion H; subst.
      now exists EmptyString, t.
Qed.

Lemma re_search_braces_some (s g : string) :
  re_search_braces s = Some g ->
  exists pre body post, s = (pre ++ "{" ++ body ++ "}" ++ post)%string.
Proof.
  unfold re_search_braces. intro H.
  destruct (from_first_open s) as [t|] eqn:E; [|discriminate].
  destruct (from_first_open_some _ _ E) as (pre & t' & -> & ->).
  destruct (upto_last_close_some _ _ H) as (m & post & _ & Ht).
  destruct m as [|c m]; simpl in Ht.
  - discriminate.
  - inversion Ht; subst. now exists pre, m, post.
Qed.

(** C3, as the code has it. The empty string always fails. A text whose
    first opening brace and last closing brace enclose [body] gives what the
    decoder makes of that span, a [ValueError] when the decoder fails; so an
    object embedded in prose with no opening brace before it and no closing
    brace after it is returned parsed. A non-empty text with no such span
    gives what the decoder makes of the whole text. *)
Theorem safe_json_loads_span :
  safe_json_loads "" = Raise ValueError
  /\ (forall pre body post : string,
        has_char "{" pre = false -> has_char "}" post = false ->
        safe_json_loads (pre ++ "{" ++ body ++ "}" ++ post)
        = of_parse (json_loads ("{" ++ body ++ "}")))
  /\ (forall s : string,
        s <> ""%string ->
        (forall pre body post : string,
            s <> (pre ++ "{" ++ body ++ "}" ++ post)%string) ->
        safe_json_loads s = of_parse (json_loads s)).
Proof.
  split; [reflexivity|]. split.
  - intros pre body post Hpre Hpost. unfold safe_json_loads.
    rewrite (re_search_braces_span pre body post Hpre Hpost).
    simpl. rewrite eqb_nonempty_app. reflexivity.
  - intros s Hne Hnospan. unfold safe_json_loads.
    apply String.eqb_neq in Hne. rewrite Hne.
    destruct (re_search_braces s) as [g|] eqn:E.
    + destruct (re_search_braces_some _ _ E) as (pre & body & post & Hs).
      now destruct (Hnospan pre body post).
    + reflexivity.
Qed.

Lemma safe_json_loads_span_witness :
  safe_json_loads
    ("Sure! " ++ "{" ++ rce_members ++ "}" ++ " Hope this helps.")
  = Ok (PDict [("category", PStr "RCE")])
  /\ safe_json_loads "[1, 2]" = Ok (PList [PInt 1; PInt 2]).
Proof.
  split.
  - exact (eq_trans
             (proj1 (proj2 safe_json_loads_span) "Sure! "
                rce_members " Hope this helps." eq_refl eq_refl)
             eq_refl).
  - refine (eq_trans (proj2 (proj2 safe_json_loads_span) "[1, 2]" _ _) eq_refl).
    + discriminate.
    + intros pre body post H.
      assert (E : has_char "{" "[1, 2]" = has_char "{" (pre ++ "{" ++ body ++ "}" ++ post))
        by (now rewrite <- H).
      clear H. revert E. simpl (has_char "{" "[1, 2]").
      induction pre as [|c pre IH]; simpl.
      * discriminate.
      * destruct (Ascii.eqb c "{"); simpl; [discriminate | exact IH].
Defined.

(** C3, as the specification words it, fails on prose that itself holds a
    brace: the span then runs beyond the embedded object. *)
Lemma safe_json_loads_prose_counterexample :
  json_loads a1_object = Some (PDict [("a", PInt 1)])
  /\ safe_json_loads ("Either " ++ a1_object ++ " or " ++ a2_object)
     = Raise ValueError.
Proof. split; reflexivity. Qed.

(** ** The Transport Client *)

Local Open Scope list_scope.

(** Discharges [sleep_accepts] for a platform and a length that are
    given. *)
Ltac accepted :=
  split; [unfold sleep_max; simpl; lia | intros; reflexivity].

Lemma sleep_ok (os_sleep : world -> Z -> bool) (d : Z) (w : world) :
  sleep_accepts os_sleep d ->
  sleep os_sleep d w = (Ok tt, mkWorld (posts w) (trace w ++ [ESleep d])).
Proof.
  intros [[Hlo Hhi] Hos]. unfold sleep.
  destruct (sleep_max <? Z.abs d) eqn:E'; [lia|].
  destruct (d <? 0) eqn:E; [lia|]. now rewrite Hos.
Qed.

Lemma sleep_negative (os_sleep : world -> Z -> bool) (d : Z) (w : world) :
  - sleep_max <= d < 0 -> sleep os_sleep d w = (Raise ValueError, w).
Proof.
  intro H. unfold sleep.
  destruct (sleep_max <? Z.abs d) eqn:E'; [lia|].
  destruct (d <? 0) eqn:E; [reflexivity | lia].
Qed.

Lemma sleep_too_long (os_sleep : world -> Z -> bool) (d : Z) (w : world) :
  sleep_max < Z.abs d -> sleep os_sleep d w = (Raise OverflowError, w).
Proof.
  intro H. unfold sleep.
  destruct (sleep_max <? Z.abs d) eqn:E'; [reflexivity | lia].
Qed.

(** [time.sleep] returns after the sleep, or raises and leaves the world
    as it was. *)
Lemma sleep_cases (os_sleep : world -> Z -> bool) (d : Z) (w : world) :
  sleep os_sleep d w = (Ok tt, mkWorld (posts w) (trace w ++ [ESleep d]))
  \/ exists e, sleep os_sleep d w = (Raise e, w) /\ sleep_refusal d e.
Proof.
  unfold sleep, sleep_refusal.
  destruct (sleep_max <? Z.abs d) eqn:E'.
  { right. exists OverflowError. split; [reflexivity|]. right. left.
    split; [auto|lia]. }
  destruct (d <? 0) eqn:E.
  { right. exists ValueError. split; [reflexivity|]. left.
    split; [auto|lia]. }
  destruct (os_sleep w d); [now left|].
  right. exists OSError. split; [reflexivity|]. right. right.
  split; [auto|lia].
Qed.

Lemma network_app (a b : list event) :
  network (a ++ b) = network a ++ network b.
Proof. apply filter_app. Qed.

Section TransportFacts.

Variable os_sleep : world -> Z -> bool.
Variable http : string -> pyval -> Z -> nat -> http_outcome.
Variables (payload : pyval) (url : string) (delay timeout : Z).

(** One pass of the loop body, unfolded. *)
Lemma query_loop_step (a : Z) (rest : list Z) (w : world) :
  query_loop os_sleep http (a :: rest) payload url delay timeout w
  = let w1 := mkWorld (S (posts w)) (trace w ++ [EPost url payload]) in
    match try_body (http url payload timeout (posts w)) with
    | Ok (Some text) => (Ok (Some text), w1)
    | Ok None =>
        (sleep os_sleep delay ;;; query_loop os_sleep http rest payload url delay timeout) w1
    | Raise _ =>
        (log_warning ;;;
         sleep os_sleep delay ;;; query_loop os_sleep http rest payload url delay timeout) w1
    end.
Proof.
  simpl. unfold bind at 1. unfold session_post. simpl.
  destruct (try_body _) as [[t|]|e]; reflexivity.
Qed.

(** The loop never makes more POSTs than its range is long, whatever
    happens. *)
Lemma query_loop_posts (rng : list Z) (w : world) :
  (posts w
   <= posts (snd (query_loop os_sleep http rng payload url delay timeout w))
   <= posts w + List.length rng)%nat.
Proof.
  revert w. induction rng as [|a rest IH]; intro w.
  - simpl. lia.
  - rewrite query_loop_step. cbv zeta.
    destruct (try_body _) as [[t|]|e].
    + simpl. lia.
    + unfold bind.
      match goal with |- context [sleep os_sleep delay ?w0] =>
        destruct (sleep_cases os_sleep delay w0) as [->|(e & -> & _)] end.
      * match goal with |- context [query_loop _ _ _ _ _ _ _ ?w1] =>
          specialize (IH w1) end. simpl in IH. simpl. lia.
      * simpl. lia.
    + unfold bind, log_warning, emit.
      match goal with |- context [sleep os_sleep delay ?w0] =>
        destruct (sleep_cases os_sleep delay w0) as [->|(e' & -> & _)] end.
      * match goal with |- context [query_loop _ _ _ _ _ _ _ ?w1] =>
          specialize (IH w1) end. simpl in IH. simpl. lia.
      * simpl. lia.
Qed.

Hypothesis delay_ok : sleep_accepts os_sleep delay.

(** With a delay that [time.sleep] accepts, the loop returns: either
    nothing, after as many failed attempts as the range is long, or the text
    of the first attempt whose body returns one, right after that POST. *)
Lemma query_loop_spec (rng : list Z) (w : world) :
  exists (k : nat) (evs : list event),
    (forall i t, (i < k)%nat ->
       try_body (http url payload timeout (posts w + i)) <> Ok (Some t))
    /\ match query_loop os_sleep http rng payload url delay timeout w with
       | (Ok None, w') =>
           k = List.length rng
           /\ w' = mkWorld (posts w + k) (trace w ++ evs)
           /\ network evs = failed_attempts url payload delay k
       | (Ok (Some text), w') =>
           (k < List.length rng)%nat
           /\ try_body (http url payload timeout (posts w + k))
              = Ok (Some text)
           /\ w' = mkWorld (posts w + S k) (trace w ++ evs)
           /\ network evs
              = failed_attempts url payload delay k ++ [EPost url payload]
       | (Raise _, _) => False
       end.
Proof.
  revert w. induction rng as [|a rest IH]; intro w.
  - exists 0%nat, []. split; [intros; lia|]. simpl.
    rewrite Nat.add_0_r, app_nil_r. destruct w; auto.
  - rewrite query_loop_step. cbv zeta.
    destruct (try_body (http url payload timeout (posts w))) as [[t|]|e] eqn:E.
    + exists 0%nat, [EPost url payload]. split; [intros; lia|].
      rewrite Nat.add_0_r. repeat split; simpl; auto; try lia.
      now rewrite Nat.add_1_r.
    + unfold bind at 1. rewrite sleep_ok by assumption. simpl posts; simpl trace.
      match goal with |- context [query_loop _ _ _ _ _ _ _ ?w1] =>
        destruct (IH w1) as (k & evs & Hbefore & Hrun);
        destruct (query_loop os_sleep http rest payload url delay timeout w1)
          as [[[text|]|e'] w'] end; simpl in Hrun, Hbefore.
      * destruct Hrun as (Hk & Htext & Hw & Hnet).
        exists (S k), (EPost url payload :: ESleep delay :: evs).
        split.
        { intros i t' Hi. destruct i as [|i].
          - rewrite Nat.add_0_r, E. discriminate.
          - rewrite Nat.add_succ_r. apply Hbefore. lia. }
        repeat split; simpl; try lia.
        { now rewrite Nat.add_succ_r. }
        { rewrite Hw, <- !app_assoc. simpl. f_equal. lia. }
        { now rewrite Hnet. }
      * destruct Hrun as (Hk & Hw & Hnet).
        exists (S k), (EPost url payload :: ESleep delay :: evs).
        split.
        { intros i t' Hi. destruct i as [|i].
          - rewrite Nat.add_0_r, E. discriminate.
          - rewrite Nat.add_succ_r. apply Hbefore. lia. }
        repeat split; simpl; try lia.
        { rewrite Hw, <- !app_assoc. simpl. f_equal. lia. }
        { now rewrite Hnet. }
      * contradiction.
    + unfold bind at 1. unfold log_warning, emit. simpl posts; simpl trace.
      unfold bind at 1. rewrite sleep_ok by assumption. simpl posts; simpl trace.
      match goal with |- context [query_loop _ _ _ _ _ _ _ ?w1] =>
        destruct (IH w1) as (k & evs & Hbefore & Hrun);
        destruct (query_loop os_sleep http rest payload url delay timeout w1)
          as [[[text|]|e'] w'] end; simpl in Hrun, Hbefore.
      * destruct Hrun as (Hk & Htext & Hw & Hnet).
        exists (S k),
          (EPost url payload :: ELog Warning :: ESleep delay :: evs).
        split.
        { intros i t' Hi. destruct i as [|i].
          - rewrite Nat.add_0_r, E. discriminate.
          - rewrite Nat.add_succ_r. apply Hbefore. lia. }
        repeat split; simpl; try lia.
        { now rewrite Nat.add_succ_r. }
        { rewrite Hw, <- !app_assoc. simpl. f_equal. lia. }
        { now rewrite Hnet. }
      * destruct Hrun as (Hk & Hw & Hnet).
        exists (S k),
          (EPost url payload :: ELog Warning :: ESleep delay :: evs).
        split.
        { intros i t' Hi. destruct i as [|i].
          - rewrite Nat.add_0_r, E. discriminate.
          - rewrite Nat.add_succ_r. apply Hbefore. lia. }
        repeat split; simpl; try lia.
        { rewrite Hw, <- !app_assoc. simpl. f_equal. lia. }
        { now rewrite Hnet. }
      * contradiction.
Qed.

End TransportFacts.

Lemma py_range_length (lo hi : Z) :
  List.length (py_range lo hi) = Z.to_nat (hi - lo).
Proof. unfold py_range. now rewrite length_map, length_seq. Qed.

(** With a delay that [time.sleep] accepts, [_query]
    sleeps [delay] after every failed attempt, the last one included, and
    returns the text of a successful attempt at once, without sleeping: its
    network events are [k] times a POST and a sleep, followed by one more
    POST exactly when it returns a text; it returns nothing exactly when all
    [attempts] attempts failed. *)
Lemma query_spec :
  forall (os_sleep : world -> Z -> bool)
         (http : string -> pyval -> Z -> nat -> http_outcome)
         (payload : pyval) (url : string) (attempts delay timeout : Z)
         (w : world),
    sleep_accepts os_sleep delay ->
    exists (k : nat) (evs : list event),
      (forall i t, (i < k)%nat ->
         try_body (http url payload timeout (posts w + i)%nat) <> Ok (Some t))
      /\ match _query os_sleep http payload url attempts delay timeout w with
         | (Ok None, w') =>
             k = Z.to_nat attempts
             /\ w' = mkWorld (posts w + k) (trace w ++ evs)
             /\ network evs = failed_attempts url payload delay k
         | (Ok (Some text), w') =>
             (k < Z.to_nat attempts)%nat
             /\ try_body (http url payload timeout (posts w + k)%nat)
                = Ok (Some text)
             /\ w' = mkWorld (posts w + S k) (trace w ++ evs)
             /\ network evs
                = failed_attempts url payload delay k ++ [EPost url payload]
         | (Raise _, _) => False
         end.
Proof.
  intros os_sleep http payload url attempts delay timeout w Hdelay.
  unfold _query.
  pose proof (query_loop_spec os_sleep http payload url delay timeout Hdelay
                (py_range 1 (attempts + 1)) w) as H.
  rewrite py_range_length in H.
  replace (attempts + 1 - 1) with attempts in H by lia.
  exact H.
Qed.




(** ** The attempt loop of the Classifier *)

Lemma seq_add (n a b : nat) : seq (a + b) n = map (Nat.add a) (seq b n).
Proof.
  revert b. induction n as [|n IH]; intro b; simpl.
  - reflexivity.
  - f_equal. rewrite <- IH. f_equal. lia.
Qed.

Lemma py_range_split (lo mid hi : Z) :
  lo <= mid <= hi -> py_range lo hi = py_range lo mid ++ py_range mid hi.
Proof.
  intros H. unfold py_range.
  replace (Z.to_nat (hi - lo))
    with (Z.to_nat (mid - lo) + Z.to_nat (hi - mid))%nat by lia.
  rewrite seq_app, map_app. f_equal.
  replace (0 + Z.to_nat (mid - lo))%nat with (Z.to_nat (mid - lo) + 0)%nat
    by lia.
  rewrite seq_add, map_map.
  apply map_ext. intro i. lia.
Qed.

Lemma py_range_one (k : Z) : py_range k (k + 1) = [k].
Proof.
  unfold py_range. replace (k + 1 - k) with 1 by lia. simpl. f_equal. lia.
Qed.

Lemma py_range_last (n d : Z) : 1 <= n -> last (py_range 1 (n + 1)) d = n.
Proof.
  intro H. rewrite (py_range_split 1 n (n + 1)) by lia.
  rewrite py_range_one. apply last_last.
Qed.

Lemma safe_json_loads_raises (text : string) (e : exn) :
  safe_json_loads text = Raise e -> e = ValueError.
Proof.
  unfold safe_json_loads. destruct (text =? "")%string.
  - now intros [= <-].
  - destruct (match re_search_braces text with
              | Some g => json_loads g
              | None => json_loads text
              end); [discriminate | now intros [= <-]].
Qed.

Section LoopFacts.

Variable os_sleep : world -> Z -> bool.
Variable http : string -> pyval -> Z -> nat -> http_outcome.
Variable self : CVEClassifier.
Variable payload : pyval.

Local Abbreviation transport w :=
  (_query os_sleep http payload (url self) (transport_budget self) (retry_delay self)
     (timeout self) w).

(** One pass of the outer loop, unfolded. *)
Lemma classify_loop_step (a : Z) (rest : list Z) (used : Z) (w : world) :
  classify_loop os_sleep http self payload (a :: rest) used w
  = match transport w with
    | (Ok None, w1) => classify_loop os_sleep http self payload rest a w1
    | (Ok (Some EmptyString), w1) => classify_loop os_sleep http self payload rest a w1
    | (Ok (Some text), w1) =>
        match safe_json_loads text with
        | Ok data => (Ok (Some data, a), w1)
        | Raise _ =>
            (sleep os_sleep (retry_delay self) ;;;
             classify_loop os_sleep http self payload rest a) w1
        end
    | (Raise e, w1) => (Raise e, w1)
    end.
Proof.
  simpl. unfold bind at 1.
  destruct (_query _ _ _ _ _ _ _ w) as [[[[|c t]|]|e] w1]; try reflexivity.
  destruct (safe_json_loads (String c t)) as [d|e] eqn:E; [reflexivity|].
  now rewrite (safe_json_loads_raises _ _ E).
Qed.

(** The outer loop goes on to the rest of the range as long as it has not
    left by [break]. *)
Lemma classify_loop_app (l1 l2 : list Z) (used : Z) (w : world) :
  classify_loop os_sleep http self payload (l1 ++ l2) used w
  = match classify_loop os_sleep http self payload l1 used w with
    | (Ok (None, u), w1) => classify_loop os_sleep http self payload l2 u w1
    | other => other
    end.
Proof.
  revert used w. induction l1 as [|a l1 IH]; intros used w.
  - reflexivity.
  - rewrite <- app_comm_cons, !classify_loop_step.
    destruct (transport w) as [[[[|c t]|]|e] w1]; try apply IH.
    + destruct (safe_json_loads (String c t)) as [d|e].
      * reflexivity.
      * unfold bind. destruct (sleep os_sleep (retry_delay self) w1) as [[[]|e'] w2].
        -- apply IH.
        -- reflexivity.
    + reflexivity.
Qed.

(** Each pass of the outer loop makes at most [transport_budget] POSTs. *)
Lemma classify_loop_posts (rng : list Z) (used : Z) (w : world) :
  (posts (snd (classify_loop os_sleep http self payload rng used w))
   <= posts w + List.length rng * Z.to_nat (transport_budget self))%nat.
Proof.
  revert used w. induction rng as [|a rest IH]; intros used w.
  - simpl. lia.
  - rewrite classify_loop_step.
    pose proof (query_loop_posts os_sleep http payload (url self) (retry_delay self)
                  (timeout self) (py_range 1 (transport_budget self + 1)) w)
      as Hq.
    rewrite py_range_length in Hq.
    replace (transport_budget self + 1 - 1) with (transport_budget self)
      in Hq by lia.
    fold (_query os_sleep http payload (url self) (transport_budget self)
            (retry_delay self) (timeout self) w) in Hq.
    destruct (transport w) as [[[[|c t]|]|e] w1]; simpl in Hq.
    + specialize (IH a w1). simpl List.length. lia.
    + destruct (safe_json_loads (String c t)) as [d|e].
      * simpl. lia.
      * unfold bind.
        destruct (sleep_cases os_sleep (retry_delay self) w1)
          as [->|(e' & -> & _)].
        -- match goal with |- context [classify_loop _ _ _ _ _ _ ?w2] =>
             specialize (IH a w2) end.
           simpl in IH. simpl List.length. lia.
        -- simpl. lia.
    + specialize (IH a w1). simpl List.length. lia.
    + simpl. lia.
Qed.

Hypothesis delay_ok : sleep_accepts os_sleep (retry_delay self).

(** What [_query] gives the outer loop, from [query_loop_spec]. *)
Lemma transport_spec (w : world) :
  match transport w with
  | (Ok None, w') =>
      posts w' = (posts w + Z.to_nat (transport_budget self))%nat
  | (Ok (Some text), w') =>
      exists n, try_body (http (url self) payload (timeout self) n)
                = Ok (Some text)
  | (Raise _, _) => False
  end.
Proof.
  destruct (query_spec os_sleep http payload (url self)
              (transport_budget self) (retry_delay self) (timeout self) w
              delay_ok) as (k & evs & _ & H).
  destruct (_query _ _ _ _ _ _ _ w) as [[[text|]|e] w'].
  - destruct H as (_ & Ht & _). eauto.
  - destruct H as (-> & -> & _). reflexivity.
  - exact H.
Qed.

(** When no attempt yields a text the extractor accepts, the loop uses up
    its range and leaves [data] unset. *)
Lemma classify_loop_all_fail (rng : list Z) (used : Z) (w : world) :
  (forall n text,
     try_body (http (url self) payload (timeout self) n) = Ok (Some text) ->
     text = EmptyString \/ safe_json_loads text = Raise ValueError) ->
  exists w',
    classify_loop os_sleep http self payload rng used w = (Ok (None, last rng used), w').
Proof.
  intro Hfail. revert used w. induction rng as [|a rest IH]; intros used w.
  - simpl. now exists w.
  - rewrite classify_loop_step.
    pose proof (transport_spec w) as Ht.
    replace (last (a :: rest) used) with (last rest a)
      by (clear; revert a; induction rest as [|b rest IH]; intro a;
          [reflexivity | simpl in *; destruct rest; [reflexivity | apply IH]]).
    destruct (transport w) as [[[[|c t]|]|e] w1].
    + apply IH.
    + destruct Ht as (n & Hn). destruct (Hfail _ _ Hn) as [H|H].
      * discriminate.
      * rewrite H. unfold bind. rewrite sleep_ok by assumption. apply IH.
    + apply IH.
    + contradiction.
Qed.

(** When no attempt yields any text, every pass uses the whole transport
    budget. *)
Lemma classify_loop_worst_case (rng : list Z) (used : Z) (w : world) :
  (forall n text,
     try_body (http (url self) payload (timeout self) n) <> Ok (Some text)) ->
  posts (snd (classify_loop os_sleep http self payload rng used w))
  = (posts w + List.length rng * Z.to_nat (transport_budget self))%nat.
Proof.
  intro Hnever. revert used w. induction rng as [|a rest IH]; intros used w.
  - simpl. lia.
  - rewrite classify_loop_step.
    pose proof (transport_spec w) as Ht.
    destruct (transport w) as [[[text|]|e] w1].
    + destruct Ht as (n & Hn). now destruct (Hnever n text).
    + rewrite IH, Ht. simpl List.length. lia.
    + contradiction.
Qed.

End LoopFacts.

(** ** The Classifier *)

Lemma get_cve_id_ok (cve_data : pydict) (fallback : string) :
  metadata_ok cve_data = true ->
  exists cve_id, get_cve_id cve_data fallback = Ok cve_id.
Proof.
  unfold metadata_ok, get_cve_id. simpl.
  destruct (dict_lookup "mitre" cve_data) as [[| | | | |l|mitre]|];
    try discriminate; simpl.
  - destruct (dict_lookup "cveMetadata" mitre) as [[| | | | |l|meta]|];
      try discriminate; simpl; eauto.
  - eauto.
Qed.

Lemma get_cve_id_raises (cve_data : pydict) (fallback : string) :
  metadata_ok cve_data = false ->
  get_cve_id cve_data fallback = Raise AttributeError.
Proof.
  unfold metadata_ok, get_cve_id. simpl.
  destruct (dict_lookup "mitre" cve_data) as [[| | | | |l|mitre]|];
    try discriminate; try reflexivity; simpl.
  destruct (dict_lookup "cveMetadata" mitre) as [[| | | | |l|meta]|];
    try discriminate; reflexivity.
Qed.

Section ClassifyFacts.

Variable os_sleep : world -> Z -> bool.
Variable http : string -> pyval -> Z -> nat -> http_outcome.
Variable json_dumps : pyval -> string.
Variable elapsed : world -> world -> Z.
Variable self : CVEClassifier.
Variable cve_data : pydict.
Variables prompt_template cve_id_fallback : string.

Let payload : pyval := payload_of json_dumps self cve_data prompt_template.

(** [classify] in three steps: the identifier, the loop, the result. *)
Lemma classify_unfold (w : world) :
  classify os_sleep http json_dumps elapsed self cve_data prompt_template
    cve_id_fallback w
  = match get_cve_id cve_data cve_id_fallback with
    | Raise e => (Raise e, w)
    | Ok cve_id =>
        match classify_loop os_sleep http self payload
                (py_range 1 (outer_budget self + 1)) 0 w with
        | (Raise e, w1) => (Raise e, w1)
        | (Ok (data, attempts_used), w1) =>
            (make_result self cve_id (data_of data) attempts_used
               (PFloat (FDec (elapsed w w1) (-2))), w1)
        end
    end.
Proof.
  unfold classify, bind, lift, payload, payload_of.
  destruct (get_cve_id cve_data cve_id_fallback) as [cve_id|e];
    [|reflexivity].
  destruct (classify_loop _ _ _ _ _ _ w) as [[[data used]|e] w1]; reflexivity.
Qed.

Lemma classify_posts (w : world) :
  (posts (snd (classify os_sleep http json_dumps elapsed self cve_data prompt_template
                 cve_id_fallback w))
   <= posts w + Z.to_nat (attempts self) * Z.to_nat (attempts self))%nat.
Proof.
  rewrite classify_unfold.
  destruct (get_cve_id cve_data cve_id_fallback) as [cve_id|e];
    [|simpl; lia].
  pose proof (classify_loop_posts os_sleep http self payload
                (py_range 1 (outer_budget self + 1)) 0 w) as H.
  rewrite py_range_length in H.
  replace (outer_budget self + 1 - 1) with (outer_budget self) in H by lia.
  unfold outer_budget, transport_budget in H.
  destruct (classify_loop _ _ _ _ _ _ w) as [[[data used]|e] w1]; exact H.
Qed.

End ClassifyFacts.




Lemma last_cons (A : Type) (a d : A) (l : list A) :
  last (a :: l) d = last l a.
Proof.
  revert a d. induction l as [|b l IH]; intros a d; [reflexivity|].
  change (last (a :: b :: l) d) with (last (b :: l) d).
  now rewrite !IH.
Qed.

(** A text [_query] returns is the text of one of the responses. *)
Lemma query_loop_text (os_sleep : world -> Z -> bool)
         (http : string -> pyval -> Z -> nat -> http_outcome)
  (payload : pyval) (url : string) (delay timeout : Z) (rng : list Z)
  (w w' : world) (text : string) :
  query_loop os_sleep http rng payload url delay timeout w = (Ok (Some text), w') ->
  exists n, try_body (http url payload timeout n) = Ok (Some text).
Proof.
  revert w. induction rng as [|a rest IH]; intro w.
  - discriminate.
  - rewrite query_loop_step. cbv zeta.
    destruct (try_body (http url payload timeout (posts w))) as [[t|]|e] eqn:E.
    + intros [= <- _]. eauto.
    + unfold bind.
      match goal with |- context [sleep os_sleep delay ?w0] =>
        destruct (sleep_cases os_sleep delay w0) as [->|(e0 & -> & _)] end;
        [apply IH | discriminate].
    + unfold bind, log_warning, emit.
      match goal with |- context [sleep os_sleep delay ?w0] =>
        destruct (sleep_cases os_sleep delay w0) as [->|(e0 & -> & _)] end;
        [apply IH | discriminate].
Qed.

(** When no attempt yields a text the extractor accepts, the loop cannot
    end but by using up its range. *)
Lemma classify_loop_only_exhausts
  (os_sleep : world -> Z -> bool)
         (http : string -> pyval -> Z -> nat -> http_outcome)
  (self : CVEClassifier) (payload : pyval) (rng : list Z) (used : Z)
  (w : world) (data : option pyval) (u : Z) (w' : world) :
  (forall n text,
     try_body (http (url self) payload (timeout self) n) = Ok (Some text) ->
     text = EmptyString \/ safe_json_loads text = Raise ValueError) ->
  classify_loop os_sleep http self payload rng used w = (Ok (data, u), w') ->
  data = None /\ u = last rng used.
Proof.
  intro Hfail. revert used w. induction rng as [|a rest IH]; intros used w.
  - simpl. unfold ret. now intros [= <- <- _].
  - rewrite classify_loop_step, last_cons.
    destruct (_query _ _ _ _ _ _ _ w) as [[[[|c t]|]|e] w1] eqn:Hq;
      try apply IH; [|discriminate].
    destruct (query_loop_text _ _ _ _ _ _ _ _ _ _ Hq) as (n & Hn).
    destruct (Hfail _ _ Hn) as [H|H]; [discriminate|].
    rewrite H. unfold bind.
    destruct (sleep_cases os_sleep (retry_delay self) w1)
      as [->|(e0 & -> & _)]; [apply IH | discriminate].
Qed.




(** The run of the witness, evaluated: three passes of the outer loop, one
    POST and one sleep each. *)
Example classify_refused_three_times :
  let self := sample_classifier 3 2 sample_template in
  classify any_sleep (always (reply "I cannot answer that.")) no_dumps clock0 self
    [("nvd", PDict [])] "Classify." "CVE-2024-1234" world0
  = (Ok [("CVE_ID", PStr "CVE-2024-1234"); ("error", PBool true);
         ("attempts", PInt 3);
         ("execution_time_seconds", PFloat (FDec 0 (-2)))],
     mkWorld 3
       [EPost (url self) sample_payload; ESleep 2;
        EPost (url self) sample_payload; ESleep 2;
        EPost (url self) sample_payload; ESleep 2]).
Proof. reflexivity. Qed.



(** ** Dictionaries *)

Lemma dict_lookup_set_same {V} (k : string) (v : V) (d : list (string * V)) :
  dict_lookup k (dict_set k v d) = Some v.
Proof.
  induction d as [|[k' v'] d IH]; simpl.
  - now rewrite String.eqb_refl.
  - destruct (k' =? k)%string eqn:E; simpl.
    + now rewrite String.eqb_refl.
    + now rewrite E.
Qed.

Lemma dict_lookup_set_other {V} (k k' : string) (v : V)
  (d : list (string * V)) :
  k <> k' -> dict_lookup k' (dict_set k v d) = dict_lookup k' d.
Proof.
  intro Hne. induction d as [|[k0 v0] d IH]; simpl.
  - destruct (k =? k')%string eqn:E; [|reflexivity].
    apply String.eqb_eq in E. contradiction.
  - destruct (k0 =? k)%string eqn:E; simpl.
    + apply String.eqb_eq in E. subst k0.
      destruct (k =? k')%string eqn:E'; [|reflexivity].
      apply String.eqb_eq in E'. contradiction.
    + destruct (k0 =? k')%string; [reflexivity | exact IH].
Qed.

Lemma dict_keys_set {V} (k x : string) (v : V) (d : list (string * V)) :
  In x (dict_keys (dict_set k v d)) <-> x = k \/ In x (dict_keys d).
Proof.
  unfold dict_keys. induction d as [|[k0 v0] d IH]; simpl.
  - intuition.
  - destruct (k0 =? k)%string eqn:E; simpl.
    + apply String.eqb_eq in E. subst k0. intuition.
    + rewrite IH. intuition.
Qed.

Lemma dict_lookup_in_keys {V} (k : string) (d : list (string * V)) :
  dict_lookup k d <> None <-> In k (dict_keys d).
Proof.
  unfold dict_keys. induction d as [|[k0 v0] d IH]; simpl.
  - intuition.
  - destruct (k0 =? k)%string eqn:E.
    + apply String.eqb_eq in E. subst k0. intuition discriminate.
    + apply String.eqb_neq in E. rewrite IH. intuition.
Qed.

(** ** The projection through the Output Template *)

Section ProjectFacts.

Variable data : pyval.

Lemma project_untouched (items : list (string * pyval)) (result r : pydict)
  (k : string) :
  project items data result = Ok r ->
  (k = "CVE_ID"%string \/ ~ In k (dict_keys items)) ->
  dict_lookup k r = dict_lookup k result.
Proof.
  revert result. induction items as [|[fk ak] rest IH]; simpl; intros result H Hk.
  - now inversion H.
  - destruct (fk =? "CVE_ID")%string eqn:E.
    + apply IH; [exact H|]. destruct Hk as [Hk|Hk]; [now left | right; tauto].
    + destruct (py_get_val data ak (default_val fk)) as [v|e]; simpl in H;
        [|discriminate].
      rewrite (IH _ H) by (destruct Hk as [Hk|Hk]; [now left | right; tauto]).
      apply dict_lookup_set_other. apply String.eqb_neq in E.
      destruct Hk as [->|Hk]; [exact E | tauto].
Qed.

Lemma project_keeps (items : list (string * pyval)) (result r : pydict)
  (k : string) :
  project items data result = Ok r ->
  In k (dict_keys result) -> In k (dict_keys r).
Proof.
  revert result. induction items as [|[fk ak] rest IH]; simpl; intros result H Hk.
  - now inversion H; subst.
  - destruct (fk =? "CVE_ID")%string.
    + eauto.
    + destruct (py_get_val data ak (default_val fk)) as [v|e]; simpl in H;
        [|discriminate].
      apply (IH _ H). apply dict_keys_set. now right.
Qed.

Lemma project_present (items : list (string * pyval)) (result r : pydict)
  (fk : string) :
  project items data result = Ok r ->
  In fk (dict_keys items) -> fk <> "CVE_ID"%string ->
  In fk (dict_keys r).
Proof.
  revert result. induction items as [|[fk0 ak] rest IH]; simpl;
    intros result H Hin Hne.
  - contradiction.
  - destruct (fk0 =? "CVE_ID")%string eqn:E.
    + apply String.eqb_eq in E. subst fk0.
      destruct Hin as [Hin|Hin]; [congruence | eauto].
    + destruct (py_get_val data ak (default_val fk0)) as [v|e]; simpl in H;
        [|discriminate].
      destruct Hin as [<-|Hin].
      * apply (project_keeps _ _ _ _ H). apply dict_keys_set. now left.
      * eauto.
Qed.

Lemma project_only (items : list (string * pyval)) (result r : pydict)
  (k : string) :
  project items data result = Ok r ->
  In k (dict_keys r) -> In k (dict_keys result) \/ In k (dict_keys items).
Proof.
  revert result. induction items as [|[fk ak] rest IH]; simpl; intros result H Hk.
  - inversion H; subst. now left.
  - destruct (fk =? "CVE_ID")%string.
    + destruct (IH _ H Hk); tauto.
    + destruct (py_get_val data ak (default_val fk)) as [v|e]; simpl in H;
        [|discriminate].
      destruct (IH _ H Hk) as [Hr|Hr]; [|tauto].
      apply dict_keys_set in Hr. destruct Hr as [->|Hr]; tauto.
Qed.

Lemma project_value (items : list (string * pyval)) (result r : pydict)
  (fk : string) (ak : pyval) :
  project items data result = Ok r ->
  NoDup (dict_keys items) ->
  In (fk, ak) items -> fk <> "CVE_ID"%string ->
  exists v, py_get_val data ak (default_val fk) = Ok v
            /\ dict_lookup fk r = Some v.
Proof.
  revert result. induction items as [|[fk0 ak0] rest IH]; simpl;
    intros result H Hnodup Hin Hne.
  - contradiction.
  - inversion Hnodup as [|x l Hnotin Hnodup']; subst.
    destruct Hin as [Heq|Hin].
    + inversion Heq; subst fk0 ak0.
      apply String.eqb_neq in Hne. rewrite Hne in H.
      destruct (py_get_val data ak (default_val fk)) as [v|e]; simpl in H;
        [|discriminate].
      exists v. split; [reflexivity|].
      rewrite (project_untouched _ _ _ fk H) by (right; exact Hnotin).
      apply dict_lookup_set_same.
    + destruct (fk0 =? "CVE_ID")%string.
      * eauto.
      * destruct (py_get_val data ak0 (default_val fk0)) as [v0|e];
          simpl in H; [|discriminate].
        eauto.
Qed.

End ProjectFacts.

(** [project] calls [get] on the parsed value for every field of the
    template other than [CVE_ID]: it returns only for an object, or for a
    template with no such field. *)
Lemma project_object (items : list (string * pyval)) (data : pyval)
  (result r : pydict) (fk : string) :
  project items data result = Ok r ->
  In fk (dict_keys items) -> fk <> "CVE_ID"%string ->
  exists d, data = PDict d.
Proof.
  revert result. induction items as [|[fk0 ak] rest IH]; simpl;
    intros result H Hin Hne.
  - contradiction.
  - destruct (fk0 =? "CVE_ID")%string eqn:E.
    + apply String.eqb_eq in E. subst fk0.
      destruct Hin as [Hin|Hin]; [congruence | eauto].
    + destruct data; simpl in H; try discriminate. eauto.
Qed.

(** The exceptions of [project] are those of [get]: on a value that is no
    object, and on a key that cannot be hashed. *)
Lemma project_raises (items : list (string * pyval)) (data : pyval)
  (result : pydict) (e : exn) :
  project items data result = Raise e ->
  e = AttributeError \/ e = TypeError.
Proof.
  revert result. induction items as [|[fk ak] rest IH]; simpl;
    intros result H.
  - discriminate.
  - destruct (fk =? "CVE_ID")%string; [eauto|].
    destruct (py_get_val data ak (default_val fk)) as [v|e'] eqn:E;
      simpl in H; [eauto|].
    injection H as <-.
    destruct data; simpl in E; try (injection E as <-; now left).
    destruct ak; simpl in E; try discriminate; injection E as <-; now right.
Qed.

Lemma make_result_raises (self : CVEClassifier) (cve_id data : pyval)
  (used : Z) (t : pyval) (e : exn) :
  make_result self cve_id data used t = Raise e ->
  e = AttributeError \/ e = TypeError.
Proof.
  unfold make_result. destruct (truthy data); simpl; [|discriminate].
  destruct (output_map self) as [| | | | | |items]; simpl;
    try (intros [= <-]; now left).
  destruct (project items data [("CVE_ID", cve_id)]) as [r0|e'] eqn:E;
    simpl; [discriminate|].
  intros [= <-]. exact (project_raises _ _ _ _ E).
Qed.

Lemma project_object_ok (items : list (string * pyval)) (d result : pydict) :
  forallb (fun kv => hashable (snd kv)) items = true ->
  exists r, project items (PDict d) result = Ok r.
Proof.
  revert result. induction items as [|[fk ak] rest IH]; simpl; intros result H.
  - eauto.
  - apply andb_true_iff in H as [Hak Hrest].
    destruct (fk =? "CVE_ID")%string; [now apply IH|].
    destruct ak; try discriminate; simpl; now apply IH.
Qed.

(** ** The result of [classify] *)

Lemma reserved_cases (k : string) :
  reserved k = false ->
  k <> "CVE_ID"%string /\ k <> "execution_time_seconds"%string
  /\ k <> "attempts"%string.
Proof.
  unfold reserved. intro H.
  apply orb_false_iff in H as [H Ha]. apply orb_false_iff in H as [Hc He].
  now rewrite !String.eqb_neq in *.
Qed.

Lemma reserved_true (k : string) :
  reserved k = true <->
  k = "CVE_ID"%string \/ k = "execution_time_seconds"%string
  \/ k = "attempts"%string.
Proof.
  unfold reserved. rewrite !orb_true_iff, !String.eqb_eq. tauto.
Qed.

(** The two shapes of a result, from lines 119-135. *)
Lemma make_result_shape (self : CVEClassifier) (cve_id data : pyval)
  (used : Z) (t : pyval) (r : pydict) :
  make_result self cve_id data used t = Ok r ->
  (truthy data = false
   /\ r = [("CVE_ID", cve_id); ("error", PBool true);
           ("attempts", PInt used); ("execution_time_seconds", t)])
  \/ (truthy data = true
      /\ exists items,
           output_map self = PDict items
           /\ (forall fk, In fk (dict_keys items) ->
                 fk <> "CVE_ID"%string -> exists d, data = PDict d)
           /\ dict_lookup "CVE_ID" r = Some cve_id
           /\ dict_lookup "execution_time_seconds" r = Some t
           /\ dict_lookup "attempts" r = Some (PInt used)
           /\ (forall fk, In fk (dict_keys items) -> In fk (dict_keys r))
           /\ (forall k, In k (dict_keys r) ->
                 reserved k = true \/ In k (dict_keys items))
           /\ (NoDup (dict_keys items) ->
               forall fk ak, In (fk, ak) items -> reserved fk = false ->
                 exists v, py_get_val data ak (default_val fk) = Ok v
                           /\ dict_lookup fk r = Some v)).
Proof.
  unfold make_result. destruct (truthy data) eqn:Hdata; simpl.
  - intro H. right. split; [reflexivity|].
    destruct (output_map self) as [| | | | | |items]; try discriminate.
    simpl in H.
    destruct (project items data [("CVE_ID", cve_id)]) as [r0|e] eqn:Hproj;
      [|discriminate].
    simpl in H. injection H as <-. exists items.
    split; [reflexivity|].
    split; [intros fk Hin Hne; exact (project_object _ _ _ _ _ Hproj Hin Hne)|].
    split.
    { rewrite !dict_lookup_set_other by discriminate.
      rewrite (project_untouched _ _ _ _ "CVE_ID" Hproj) by now left.
      reflexivity. }
    split.
    { rewrite dict_lookup_set_other by discriminate.
      apply dict_lookup_set_same. }
    split; [apply dict_lookup_set_same|].
    split.
    { intros fk Hfk. apply dict_keys_set. right. apply dict_keys_set.
      destruct (String.eqb_spec fk "CVE_ID") as [->|Hne].
      - right. apply (project_keeps _ _ _ _ _ Hproj). now left.
      - right. now apply (project_present _ _ _ _ _ Hproj). }
    split.
    { intros k Hk. apply dict_keys_set in Hk as [->|Hk]; [now left|].
      apply dict_keys_set in Hk as [->|Hk]; [now left|].
      destruct (project_only _ _ _ _ _ Hproj Hk) as [[<-|[]]|Hin];
        [now left | now right]. }
    intros Hnodup fk ak Hin Hres.
    destruct (reserved_cases _ Hres) as (Hc & He & Ha).
    destruct (project_value _ _ _ _ _ _ Hproj Hnodup Hin Hc) as (v & Hv & Hl).
    exists v. split; [exact Hv|].
    rewrite !dict_lookup_set_other by congruence. exact Hl.
  - intro H. left. split; [reflexivity|]. now injection H as <-.
Qed.

(** The object the loop leaves with was read by the extractor from the text
    of one of the responses. *)
Lemma classify_loop_data (os_sleep : world -> Z -> bool)
         (http : string -> pyval -> Z -> nat -> http_outcome)
  (self : CVEClassifier) (payload : pyval) (rng : list Z) (used u : Z)
  (w w' : world) (data : pyval) :
  classify_loop os_sleep http self payload rng used w = (Ok (Some data, u), w') ->
  exists n text,
    try_body (http (url self) payload (timeout self) n) = Ok (Some text)
    /\ safe_json_loads text = Ok data.
Proof.
  revert used w. induction rng as [|a rest IH]; intros used w.
  - discriminate.
  - rewrite classify_loop_step.
    destruct (_query _ _ _ _ _ _ _ w) as [[[[|c t]|]|e] w1] eqn:Hq;
      try apply IH; [|discriminate].
    destruct (safe_json_loads (String c t)) as [d|e] eqn:Hd.
    + intros [= <- _ _].
      destruct (query_loop_text _ _ _ _ _ _ _ _ _ _ Hq) as (n & Hn). eauto.
    + unfold bind.
      destruct (sleep_cases os_sleep (retry_delay self) w1)
        as [->|(e0 & -> & _)]; [apply IH | discriminate].
Qed.

(** C2, as the code has it. A result [classify] returns has the error
    shape or the success shape, and not both when the template declares no
    field named [error]. The error shape is exactly the identifier, [error],
    [attempts] and [execution_time_seconds]. The success shape is built from
    a value the extractor read from a response and that counts as true, an
    object whenever the template declares a field other than [CVE_ID]; it
    holds the identifier, [execution_time_seconds], [attempts] and every
    field the template declares, and nothing else: a declared field that is
    none of the three fields [classify] sets itself holds what the parsed
    object has under the mapped key, and where the object lacks that key or
    the key is no string, the empty list for a name with Vendors or
    Products in it and [None] otherwise; the field [error] is absent unless
    the template declares it. *)
Theorem classify_result_shapes :
  forall (os_sleep : world -> Z -> bool)
         (http : string -> pyval -> Z -> nat -> http_outcome)
         (json_dumps : pyval -> string) (elapsed : world -> world -> Z)
         (self : CVEClassifier) (cve_data : pydict)
         (prompt_template cve_id_fallback : string) (w w' : world)
         (r : pydict),
    classify os_sleep http json_dumps elapsed self cve_data prompt_template
      cve_id_fallback w = (Ok r, w') ->
    exists (cve_id : pyval) (used : Z) (t : pyval),
      let error_shape :=
        [("CVE_ID", cve_id); ("error", PBool true);
         ("attempts", PInt used); ("execution_time_seconds", t)] in
      get_cve_id cve_data cve_id_fallback = Ok cve_id
      /\ (r = error_shape
          \/ exists (items : pydict) (data : pyval) (n : nat) (text : string),
               output_map self = PDict items
               /\ try_body (http (url self)
                              (payload_of json_dumps self cve_data
                                 prompt_template)
                              (timeout self) n) = Ok (Some text)
               /\ safe_json_loads text = Ok data
               /\ truthy data = true
               /\ (forall fk, In fk (dict_keys items) ->
                     fk <> "CVE_ID"%string -> exists d, data = PDict d)
               /\ dict_lookup "CVE_ID" r = Some cve_id
               /\ dict_lookup "execution_time_seconds" r = Some t
               /\ dict_lookup "attempts" r = Some (PInt used)
               /\ (forall fk, In fk (dict_keys items) ->
                     dict_lookup fk r <> None)
               /\ (forall k, dict_lookup k r <> None ->
                     reserved k = true \/ In k (dict_keys items))
               /\ (~ In "error"%string (dict_keys items) ->
                   dict_lookup "error" r = None /\ r <> error_shape)
               /\ (NoDup (dict_keys items) ->
                   forall fk ak, In (fk, ak) items ->
                     reserved fk = false ->
                     exists d,
                       data = PDict d
                       /\ dict_lookup fk r
                          = Some (match match ak with
                                        | PStr a => dict_lookup a d
                                        | _ => None
                                        end with
                                  | Some v => v
                                  | None =>
                                      if (str_contains "Vendors" fk
                                          || str_contains "Products" fk)%bool
                                      then PList [] else PNone
                                  end))).
Proof.
  intros os_sleep http json_dumps elapsed self cve_data prompt_template
    cve_id_fallback w w' r H.
  rewrite classify_unfold in H.
  destruct (get_cve_id cve_data cve_id_fallback) as [cve_id|e];
    [|discriminate].
  destruct (classify_loop _ _ _ _ _ _ w) as [[[data used]|e] w1] eqn:Hloop;
    [|discriminate].
  injection H as Hres <-.
  exists cve_id, used, (PFloat (FDec (elapsed w w1) (-2))). cbv zeta.
  split; [reflexivity|].
  destruct (make_result_shape _ _ _ _ _ _ Hres)
    as [[_ ->]
       |(Htruthy & items & Hmap & Hobj & Hc & He & Ha & Hall & Honly & Hval)].
  - now left.
  - right. destruct data as [data|]; [|discriminate Htruthy].
    destruct (classify_loop_data _ _ _ _ _ _ _ _ _ _ Hloop)
      as (n & text & Hn & Htext).
    simpl in Htruthy, Hval, Hobj.
    exists items, data, n, text. repeat (split; [assumption|]).
    split.
    { intros fk Hfk. apply dict_lookup_in_keys. now apply Hall. }
    split.
    { intros k Hk. apply Honly. now apply dict_lookup_in_keys. }
    split.
    { intro Hno.
      assert (Hnone : dict_lookup "error" r = None).
      { destruct (dict_lookup "error" r) eqn:E; [|reflexivity].
        destruct (Honly "error"%string) as [Hr|Hin].
        - apply dict_lookup_in_keys. congruence.
        - discriminate.
        - contradiction. }
      split; [exact Hnone|]. intros ->. discriminate Hnone. }
    intros Hnodup fk ak Hin Hr.
    destruct (Hval Hnodup fk ak Hin Hr) as (v & Hv & Hl).
    destruct data as [| | | | | |d]; try discriminate.
    exists d. split; [reflexivity|]. rewrite Hl. f_equal.
    destruct ak; simpl in Hv; try discriminate; now injection Hv as <-.
Qed.

Lemma classify_result_shapes_witness :
  exists (cve_id : pyval) (used : Z) (t : pyval),
    get_cve_id [("nvd", PDict []); ("mitre", PDict [])] "CVE-2024-1234"
    = Ok cve_id
    /\ fst (classify any_sleep
              (always (reply ("Sure: " ++ rce_object ++ " as asked.")))
              no_dumps clock0 (sample_classifier 3 2 sample_template)
              [("nvd", PDict []); ("mitre", PDict [])] "Classify."
              "CVE-2024-1234" world0)
       = Ok [("CVE_ID", cve_id); ("Category", PStr "RCE");
             ("Vendors", PList []); ("execution_time_seconds", t);
             ("attempts", PInt used)].
Proof.
  destruct (classify_result_shapes any_sleep
              (always (reply ("Sure: " ++ rce_object ++ " as asked.")))
              no_dumps clock0 (sample_classifier 3 2 sample_template)
              [("nvd", PDict []); ("mitre", PDict [])] "Classify."
              "CVE-2024-1234" world0 _ _ eq_refl)
    as (cve_id & used & t & Hid
        & [Herr
          |(items & data & n & text & _ & _ & _ & _ & _ & Hc & Ht & Hu & _)]).
  - discriminate Herr.
  - exists cve_id, used, t. split; [exact Hid|].
    injection Hc as <-. injection Ht as <-. injection Hu as <-.
    reflexivity.
Defined.

(** C2, as the specification words it, fails in three ways. A template
    that declares [CVE_ID] has that field in the error result. A template
    that declares [error] has that field in the success result. And the two
    shapes are not disjoint: with a template that declares [error],
    [attempts] and [execution_time_seconds], an answer the extractor reads
    gives a result that is the error result to the last field. *)
Lemma classify_result_shapes_counterexample :
  output_map (sample_classifier 1 0 sample_template) = PDict sample_fields
  /\ In "CVE_ID"%string (dict_keys sample_fields)
  /\ fst (classify any_sleep (always HFault) no_dumps clock0
            (sample_classifier 1 0 sample_template)
            [("nvd", PDict [])] "Classify." "CVE-2024-1234" world0)
     = Ok [("CVE_ID", PStr "CVE-2024-1234"); ("error", PBool true);
           ("attempts", PInt 1);
           ("execution_time_seconds", PFloat (FDec 0 (-2)))]
  /\ fst (classify any_sleep (always (reply note_object)) no_dumps clock0
            (sample_classifier 1 0 (PDict [("error", PStr "note")]))
            [("nvd", PDict [])] "Classify." "CVE-2024-1234" world0)
     = Ok [("CVE_ID", PStr "CVE-2024-1234"); ("error", PStr "none");
           ("execution_time_seconds", PFloat (FDec 0 (-2)));
           ("attempts", PInt 1)]
  /\ safe_json_loads flag_object = Ok (PDict [("flag", PBool true)])
  /\ fst (classify any_sleep (always (reply flag_object)) no_dumps clock0
            (sample_classifier 1 0 flag_template)
            [("nvd", PDict [])] "Classify." "CVE-2024-1234" world0)
     = Ok [("CVE_ID", PStr "CVE-2024-1234"); ("error", PBool true);
           ("attempts", PInt 1);
           ("execution_time_seconds", PFloat (FDec 0 (-2)))].
Proof. repeat split. simpl. now left. Qed.

(** With a template that declares nothing but [CVE_ID], the success result
    is built from any answer that counts as true, here an array. *)
Example classify_success_from_array :
  fst (classify any_sleep (always (reply rce_array)) no_dumps clock0
         (sample_classifier 1 0 (PDict [("CVE_ID", PStr "id")]))
         [("nvd", PDict [])] "Classify." "CVE-2024-1234" world0)
  = Ok [("CVE_ID", PStr "CVE-2024-1234");
        ("execution_time_seconds", PFloat (FDec 0 (-2)));
        ("attempts", PInt 1)].
Proof. reflexivity. Qed.

(** ** Which calls of [classify] return *)

(** With a delay [time.sleep] accepts, the loop of [classify] ends without
    an exception. *)
Lemma classify_loop_returns
  (os_sleep : world -> Z -> bool)
         (http : string -> pyval -> Z -> nat -> http_outcome)
  (self : CVEClassifier) (payload : pyval) (rng : list Z) (used : Z)
  (w : world) :
  sleep_accepts os_sleep (retry_delay self) ->
  exists data u w',
    classify_loop os_sleep http self payload rng used w = (Ok (data, u), w').
Proof.
  intro Hdelay. revert used w. induction rng as [|a rest IH]; intros used w.
  - simpl. unfold ret. eauto.
  - rewrite classify_loop_step.
    pose proof (transport_spec os_sleep http self payload Hdelay w) as Ht.
    destruct (_query _ _ _ _ _ _ _ w) as [[[[|c t]|]|e] w1]; try apply IH.
    + destruct (safe_json_loads (String c t)) as [d|e].
      * eauto.
      * unfold bind. rewrite sleep_ok by assumption. apply IH.
    + contradiction.
Qed.

(** The one exception of [_query] is that of a [time.sleep] that refuses
    the delay: what the POST and the reading of the response raise is
    caught. *)
Lemma query_loop_refusal (os_sleep : world -> Z -> bool)
  (http : string -> pyval -> Z -> nat -> http_outcome)
  (payload : pyval) (url : string) (delay timeout : Z) (rng : list Z)
  (w w' : world) (e : exn) :
  query_loop os_sleep http rng payload url delay timeout w = (Raise e, w') ->
  sleep_refusal delay e.
Proof.
  revert w. induction rng as [|a rest IH]; intro w.
  - discriminate.
  - rewrite query_loop_step. cbv zeta.
    destruct (try_body (http url payload timeout (posts w))) as [[t|]|e0].
    + discriminate.
    + unfold bind.
      match goal with |- context [sleep os_sleep delay ?w0] =>
        destruct (sleep_cases os_sleep delay w0) as [->|(e1 & -> & Hr)] end.
      * apply IH.
      * now intros [= <- _].
    + unfold bind, log_warning, emit.
      match goal with |- context [sleep os_sleep delay ?w0] =>
        destruct (sleep_cases os_sleep delay w0) as [->|(e1 & -> & Hr)] end.
      * apply IH.
      * now intros [= <- _].
Qed.

(** So it is with the loop of [classify]: the extractor's [ValueError] is
    caught, and the sleep that follows stands in no [try]. *)
Lemma classify_loop_refusal (os_sleep : world -> Z -> bool)
  (http : string -> pyval -> Z -> nat -> http_outcome)
  (self : CVEClassifier) (payload : pyval) (rng : list Z) (used : Z)
  (w w' : world) (e : exn) :
  classify_loop os_sleep http self payload rng used w = (Raise e, w') ->
  sleep_refusal (retry_delay self) e.
Proof.
  revert used w. induction rng as [|a rest IH]; intros used w.
  - discriminate.
  - rewrite classify_loop_step.
    destruct (_query _ _ _ _ _ _ _ w) as [[[[|c t]|]|e0] w1] eqn:Hq;
      try apply IH.
    + destruct (safe_json_loads (String c t)) as [d|e1]; [discriminate|].
      unfold bind.
      destruct (sleep_cases os_sleep (retry_delay self) w1)
        as [->|(e2 & -> & Hr)]; [apply IH | now intros [= <- _]].
    + intros [= <- _]. exact (query_loop_refusal _ _ _ _ _ _ _ _ _ _ Hq).
Qed.

(** C1, as the code has it. [classify] returns a result, and no exception
    escapes it, when the [mitre] and [cveMetadata] entries of the document
    are objects where present, the retry delay is a length [time.sleep]
    takes, the template is an object whose values can be keys, and what the
    extractor reads from a response is an object or a value that counts as
    false. An empty transport result, a failure of the extractor and the
    exhaustion of the attempts then all end in the error result: the result
    is the error result unless the extractor read a non-empty object from
    one of the responses. Whatever the conditions, an exception that
    escapes [classify] is an [AttributeError], a [TypeError] or the
    exception of a [time.sleep] that refuses the retry delay. *)
Theorem classify_returns :
  forall (os_sleep : world -> Z -> bool)
         (http : string -> pyval -> Z -> nat -> http_outcome)
         (json_dumps : pyval -> string) (elapsed : world -> world -> Z)
         (self : CVEClassifier) (cve_data : pydict)
         (prompt_template cve_id_fallback : string) (w : world),
    let payload := payload_of json_dumps self cve_data prompt_template in
    (metadata_ok cve_data = true ->
     sleep_accepts os_sleep (retry_delay self) ->
     template_ok (output_map self) = true ->
     (forall n text v,
        try_body (http (url self) payload (timeout self) n) = Ok (Some text) ->
        safe_json_loads text = Ok v -> object_or_falsy v = true) ->
     exists (r : pydict) (w' : world) (cve_id : pyval) (used : Z),
       classify os_sleep http json_dumps elapsed self cve_data prompt_template
         cve_id_fallback w = (Ok r, w')
       /\ get_cve_id cve_data cve_id_fallback = Ok cve_id
       /\ (r = [("CVE_ID", cve_id); ("error", PBool true);
                ("attempts", PInt used);
                ("execution_time_seconds",
                  PFloat (FDec (elapsed w w') (-2)))]
           \/ exists n text k v d,
                try_body (http (url self) payload (timeout self) n)
                = Ok (Some text)
                /\ safe_json_loads text = Ok (PDict ((k, v) :: d))))
    /\ (forall (e : exn) (w' : world),
          classify os_sleep http json_dumps elapsed self cve_data
            prompt_template cve_id_fallback w = (Raise e, w') ->
          e = AttributeError \/ e = TypeError
          \/ sleep_refusal (retry_delay self) e).
Proof.
  intros os_sleep http json_dumps elapsed self cve_data prompt_template
    cve_id_fallback w payload.
  split.
  - intros Hmeta Hdelay Htemplate Hobject.
    destruct (get_cve_id_ok cve_data cve_id_fallback Hmeta) as (cve_id & Hid).
    destruct (classify_loop_returns os_sleep http self payload
                (py_range 1 (outer_budget self + 1)) 0 w Hdelay)
      as (data & used & w' & Hloop).
    rewrite classify_unfold, Hid. fold payload. rewrite Hloop.
    unfold make_result.
    destruct (truthy (data_of data)) eqn:Htruthy; simpl.
    + destruct data as [data|]; [|discriminate Htruthy]. simpl in Htruthy.
      destruct (classify_loop_data _ _ _ _ _ _ _ _ _ _ Hloop)
        as (n & text & Hn & Htext).
      pose proof (Hobject _ _ _ Hn Htext) as Hobj.
      assert (Hd : exists d, data = PDict d).
      { destruct data; simpl in Hobj, Htruthy; eauto;
          try discriminate Htruthy;
          rewrite Htruthy in Hobj; discriminate Hobj. }
      destruct Hd as (d & ->).
      destruct d as [|[k v] d]; [discriminate Htruthy|].
      destruct (output_map self) as [| | | | | |items]; try discriminate.
      simpl in Htemplate. simpl.
      destruct (project_object_ok items ((k, v) :: d) [("CVE_ID", cve_id)]
                  Htemplate) as (r0 & ->).
      simpl. eexists. exists w', cve_id, used.
      split; [reflexivity|]. split; [reflexivity|].
      right. eauto 10.
    + eexists. exists w', cve_id, used.
      split; [reflexivity|]. split; [reflexivity|]. now left.
  - intros e w' H. rewrite classify_unfold in H.
    destruct (metadata_ok cve_data) eqn:Hmeta.
    + destruct (get_cve_id_ok cve_data cve_id_fallback Hmeta)
        as (cve_id & Hid).
      rewrite Hid in H.
      destruct (classify_loop _ _ _ _ _ _ w) as [[[data used]|e0] w1]
        eqn:Hloop.
      * injection H as H _.
        destruct (make_result_raises _ _ _ _ _ _ H); auto.
      * injection H as <- _. right. right.
        exact (classify_loop_refusal _ _ _ _ _ _ _ _ _ Hloop).
    + rewrite (get_cve_id_raises _ cve_id_fallback Hmeta) in H.
      injection H as <- _. now left.
Qed.

Lemma classify_returns_witness :
  (exists (r : pydict) (w' : world) (cve_id : pyval) (used : Z),
     classify any_sleep (down_once (reply rce_object)) no_dumps clock0
       (sample_classifier 3 2 sample_template)
       [("nvd", PDict []); ("mitre", PDict [])] "Classify." "CVE-2024-1234"
       world0 = (Ok r, w')
     /\ get_cve_id [("nvd", PDict []); ("mitre", PDict [])] "CVE-2024-1234"
        = Ok cve_id
     /\ (r = [("CVE_ID", cve_id); ("error", PBool true);
              ("attempts", PInt used);
              ("execution_time_seconds",
                PFloat (FDec (clock0 world0 w') (-2)))]
         \/ exists n text k v d,
              try_body
                (down_once (reply rce_object)
                   (url (sample_classifier 3 2 sample_template))
                   (payload_of no_dumps
                      (sample_classifier 3 2 sample_template)
                      [("nvd", PDict []); ("mitre", PDict [])] "Classify.")
                   (timeout (sample_classifier 3 2 sample_template)) n)
              = Ok (Some text)
              /\ safe_json_loads text = Ok (PDict ((k, v) :: d))))
  /\ classify any_sleep (always HFault) no_dumps clock0
       (sample_classifier 3 (-1) sample_template) [("nvd", PDict [])]
       "Classify." "CVE-2024-1234" world0
     = (Raise ValueError,
        mkWorld 1
          [EPost (url (sample_classifier 3 (-1) sample_template))
             sample_payload;
           ELog Warning])
  /\ (ValueError = AttributeError \/ ValueError = TypeError
      \/ sleep_refusal (-1) ValueError).
Proof.
  split; [|split; [reflexivity|]].
  - apply (proj1 (classify_returns any_sleep (down_once (reply rce_object))
                    no_dumps clock0 (sample_classifier 3 2 sample_template)
                    [("nvd", PDict []); ("mitre", PDict [])] "Classify."
                    "CVE-2024-1234" world0)).
    + reflexivity.
    + accepted.
    + reflexivity.
    + intros n text v Hn Htext. destruct n as [|n]; vm_compute in Hn.
      * discriminate Hn.
      * injection Hn as <-. vm_compute in Htext. injection Htext as <-.
        reflexivity.
  - exact (proj2 (classify_returns any_sleep (always HFault) no_dumps clock0
                    (sample_classifier 3 (-1) sample_template)
                    [("nvd", PDict [])] "Classify." "CVE-2024-1234" world0)
             ValueError _ eq_refl).
Defined.

(** C1, as the specification words it, fails: an exception escapes
    [classify] when the [mitre] document is not an object, when the
    extractor reads a non-empty array, when the template is not an object
    or maps a field to a list, and when [time.sleep] refuses the retry
    delay: a negative one, one beyond the interpreter's clock, and one the
    platform does not take. *)
Lemma classify_raises_counterexample :
  fst (classify any_sleep (always (reply rce_object)) no_dumps clock0
         (sample_classifier 3 2 sample_template)
         [("nvd", PDict []); ("mitre", PList [])] "Classify."
         "CVE-2024-1234" world0)
  = Raise AttributeError
  /\ fst (classify any_sleep (always (reply rce_array)) no_dumps clock0
            (sample_classifier 3 2 sample_template)
            [("nvd", PDict [])] "Classify." "CVE-2024-1234" world0)
     = Raise AttributeError
  /\ fst (classify any_sleep (always (reply rce_object)) no_dumps clock0
            (sample_classifier 3 2 (PList []))
            [("nvd", PDict [])] "Classify." "CVE-2024-1234" world0)
     = Raise AttributeError
  /\ fst (classify any_sleep (always (reply rce_object)) no_dumps clock0
            (sample_classifier 3 2 (PDict [("Category", PList [])]))
            [("nvd", PDict [])] "Classify." "CVE-2024-1234" world0)
     = Raise TypeError
  /\ fst (classify any_sleep (always HFault) no_dumps clock0
            (sample_classifier 3 (-1) sample_template)
            [("nvd", PDict [])] "Classify." "CVE-2024-1234" world0)
     = Raise ValueError
  /\ fst (classify any_sleep (always HFault) no_dumps clock0
            (sample_classifier 3 9223372037 sample_template)
            [("nvd", PDict [])] "Classify." "CVE-2024-1234" world0)
     = Raise OverflowError
  /\ fst (classify hour_old_sleep (always HFault) no_dumps clock0
            (sample_classifier 3 9223372036 sample_template)
            [("nvd", PDict [])] "Classify." "CVE-2024-1234" world0)
     = Raise OSError.
Proof. repeat split. Qed.

(** ** The group loader *)

Section GroupFacts.

Variable os_sleep : world -> Z -> bool.
Variable http : string -> pyval -> Z -> nat -> http_outcome.
Variable json_dumps : pyval -> string.
Variable elapsed : world -> world -> Z.
Variable fs_read : string -> option string.
Variables (base : string) (file_map : list (string * string)).
Variable base_dir : string.
Variable classifier : CVEClassifier.
Variable prompt_template : string.

Local Abbreviation loaded t := (loaded fs_read file_map base_dir t).
Local Abbreviation warnings t := (warnings fs_read file_map base_dir t).

Lemma load_sources_one (t : string) (rest : list string) (combined : pydict)
  (w : world) :
  load_sources fs_read (t :: rest) file_map base_dir combined w
  = load_sources fs_read rest file_map base_dir
      (match loaded t with
       | Some doc => dict_set t doc combined
       | None => combined
       end)
      (mkWorld (posts w) (trace w ++ warnings t)).
Proof.
  unfold Terms.loaded, Terms.warnings, unreadable. simpl.
  destruct (dict_lookup t file_map) as [[|c fname]|].
  - rewrite app_nil_r. now destruct w.
  - destruct (json_load fs_read (path_join base_dir (String c fname))).
    + rewrite app_nil_r. now destruct w.
    + reflexivity.
  - rewrite app_nil_r. now destruct w.
Qed.

Lemma load_sources_both (w : world) :
  load_sources fs_read ["nvd"; "mitre"]%string file_map base_dir [] w
  = (Ok (match loaded "mitre" with
         | Some doc =>
             dict_set "mitre" doc
               (match loaded "nvd" with
                | Some doc' => [("nvd"%string, doc')]
                | None => []
                end)
         | None =>
             match loaded "nvd" with
             | Some doc' => [("nvd"%string, doc')]
             | None => []
             end
         end),
     mkWorld (posts w) (trace w ++ warnings "nvd" ++ warnings "mitre")).
Proof.
  rewrite !load_sources_one. simpl. unfold ret.
  rewrite <- app_assoc.
  destruct (loaded "nvd"); reflexivity.
Qed.

End GroupFacts.




(** ** The main thread *)

Section DrainFacts.

Variable py_str : pyval -> string.
Variable fs_write : nat -> string -> pydict -> write_outcome.
Variable out_dir : string.

(** One completed future: the failure list grows by its [failed_id]; the
    files grow by at most its output file, and only if it is not marked as
    an error; and so it is with what a write that raised leaves behind. *)
Lemma drain_step_spec (st : run) (future : res (option pydict)) :
  let st' := drain_step py_str fs_write out_dir st future in
  failed_cves st' = failed_cves st ++ failed_id future
  /\ (written st' = written st
      \/ exists path r,
           future = Ok (Some r) /\ marked_error r = false
           /\ written st' = written st ++ [OutputFile path r])
  /\ (left_behind st' = left_behind st
      \/ (exists path, left_behind st' = left_behind st ++ [CutShort path])
      \/ exists path r,
           future = Ok (Some r) /\ marked_error r = false
           /\ left_behind st'
              = left_behind st ++ [Whole (OutputFile path r)]).
Proof.
  cbv zeta. unfold failed_id, drain_step.
  destruct future as [[r|]|e];
    [|rewrite app_nil_r; split; [reflexivity | split; now left]
     |rewrite app_nil_r; split; [reflexivity | split; now left]].
  destruct r as [|kv r].
  { rewrite app_nil_r. split; [reflexivity | split; now left]. }
  fold (marked_error (kv :: r)).
  destruct (marked_error (kv :: r)) eqn:Herr.
  - destruct (dict_lookup "CVE_ID" (kv :: r)) as [cve_id|].
    + split; [reflexivity | split; now left].
    + rewrite app_nil_r. split; [reflexivity | split; now left].
  - rewrite app_nil_r.
    destruct (dict_lookup "CVE_ID" (kv :: r)) as [cve_id|].
    + unfold write_output, write_failed. destruct (fs_write _ _ _); simpl.
      * split; [reflexivity|]. split; [|now left]. right.
        exists (path_join out_dir (py_str cve_id ++ ".json")), (kv :: r).
        auto.
      * rewrite app_nil_r. split; [reflexivity | split; now left].
      * split; [reflexivity|]. split; [now left|]. right. left. eauto.
      * split; [reflexivity|]. split; [now left|]. right. right.
        exists (path_join out_dir (py_str cve_id ++ ".json")), (kv :: r).
        auto.
    + split; [reflexivity | split; now left].
Qed.

Lemma drain_spec (futures : list (res (option pydict))) (st : run) :
  let st' := drain py_str fs_write out_dir futures st in
  failed_cves st' = failed_cves st ++ flat_map failed_id futures
  /\ (exists outs,
        written st' = written st ++ outs
        /\ Forall (output_of futures) outs)
  /\ forall f,
       In (Whole f) (left_behind st') ->
       In (Whole f) (left_behind st) \/ output_of futures f.
Proof.
  revert st. induction futures as [|future rest IH]; intro st; simpl.
  - rewrite app_nil_r. split; [reflexivity|]. split; [|now left].
    exists []. now rewrite app_nil_r.
  - destruct (IH (drain_step py_str fs_write out_dir st future))
      as (Hfailed & (outs & Hwritten & Houts) & Hleft).
    destruct (drain_step_spec st future) as (Hf1 & Hw1 & Hl1).
    unfold drain in *. split; [|split].
    + rewrite Hfailed, Hf1. now rewrite app_assoc.
    + assert (Hrest : Forall (output_of (future :: rest)) outs).
      { eapply Forall_impl; [|exact Houts].
        intros f (path & r & -> & Hin & Hm). exists path, r.
        simpl. auto. }
      destruct Hw1 as [Hsame | (path & r & -> & Hm & Hadd)].
      * exists outs. now rewrite Hwritten, Hsame.
      * exists (OutputFile path r :: outs). split.
        -- rewrite Hwritten, Hadd, <- app_assoc. reflexivity.
        -- constructor; [|exact Hrest].
           exists path, r. simpl. auto.
    + intros f Hin. destruct (Hleft f Hin) as [Hin1|(path & r & -> & Hr & Hm)].
      * destruct Hl1 as [Hsame|[(path & Hcut)|(path & r & -> & Hm & Hadd)]].
        -- left. now rewrite <- Hsame.
        -- rewrite Hcut in Hin1. apply in_app_or in Hin1 as [Hin1|[Hin1|[]]];
             [now left | discriminate].
        -- rewrite Hadd in Hin1.
           apply in_app_or in Hin1 as [Hin1|[Hin1|[]]]; [now left|].
           injection Hin1 as <-. right. exists path, r. simpl. auto.
      * right. exists path, r. simpl. auto.
Qed.

End DrainFacts.



(** The run of the witness, evaluated: one output file, then the failure
    list. *)
Example main_run_two_groups :
  main_run any_sleep down_for_sample no_dumps clock0 fs_empty_objects
    str_of_text disk_ok list_ok sample_args
    (sample_classifier 1 0 sample_template) "Classify." "json"
    [other_group; sample_group]
  = (Ok tt,
     mkRun
       [OutputFile "output/CVE-2024-5678.json"
          [("CVE_ID", PStr "CVE-2024-5678"); ("Category", PStr "RCE");
           ("Vendors", PList [PStr "Acme"]);
           ("execution_time_seconds", PFloat (FDec 0 (-2)));
           ("attempts", PInt 1)];
        FailedList "failed_cves.txt" ("CVE-2024-1234" ++ newline)]
       [PStr "CVE-2024-1234"] [] 1 []).
Proof. reflexivity. Qed.


(** The error result of [classify] is marked as an error and carries its
    identifier. *)
Lemma error_result_failed_id (cve_id : pyval) (used : Z) (t : pyval) :
  failed_id (Ok (Some (error_result cve_id used t))) = [cve_id].
Proof. reflexivity. Qed.

(** C10, as the code has it. When the write of the output file of a result
    raises, the main thread logs a warning and goes on: the file does not
    count as written and the failure list is as it was. What the write
    leaves at the path depends on where it raised: nothing new when [open]
    raised, the file cut short when the content could not be written, and
    the whole output file when [os.fsync] or the closing of the file raised
    after the content was handed over. Over a whole drain the failure list
    does not depend on which writes fail. *)
Theorem write_failure_only_logged :
  forall (py_str : pyval -> string)
         (fs_write : nat -> string -> pydict -> write_outcome)
         (out_dir : string) (st : run) (r : pydict) (cve_id : pyval),
    let out_path := path_join out_dir (py_str cve_id ++ ".json") in
    let outcome := fs_write (tried st) out_path r in
    r <> [] ->
    marked_error r = false ->
    dict_lookup "CVE_ID" r = Some cve_id ->
    outcome <> Completed ->
    let st' := drain_step py_str fs_write out_dir st (Ok (Some r)) in
    (written st' = written st
     /\ failed_cves st' = failed_cves st
     /\ logged st' = logged st ++ [Warning]
     /\ tried st' = S (tried st)
     /\ left_behind st'
        = left_behind st
          ++ match outcome with
             | Completed | OpenFailed _ => []
             | ContentFailed _ => [CutShort out_path]
             | SyncFailed _ => [Whole (OutputFile out_path r)]
             end)
    /\ forall (fs_write' : nat -> string -> pydict -> write_outcome)
              (futures : list (res (option pydict))) (st0 : run),
         failed_cves (drain py_str fs_write out_dir futures st0)
         = failed_cves (drain py_str fs_write' out_dir futures st0).
Proof.
  intros py_str fs_write out_dir st r cve_id out_path outcome Hne Hm Hid
    Hfail st'.
  split.
  - subst st'. destruct r as [|kv r]; [contradiction|].
    unfold drain_step. unfold marked_error in Hm. rewrite Hm, Hid.
    unfold write_output, write_failed. fold out_path. fold outcome.
    destruct outcome; [contradiction | | |]; simpl; rewrite ?app_nil_r;
      auto 6.
  - intros fs_write' futures st0.
    destruct (drain_spec py_str fs_write out_dir futures st0) as (-> & _).
    destruct (drain_spec py_str fs_write' out_dir futures st0) as (-> & _).
    reflexivity.
Qed.

Lemma write_failure_only_logged_witness :
  let r := [("CVE_ID", PStr "CVE-2024-1234"); ("Category", PStr "RCE");
            ("Vendors", PList []);
            ("execution_time_seconds", PFloat (FDec 731 (-2)));
            ("attempts", PInt 1)] in
  let st' := drain_step str_of_text disk_full "output" run0 (Ok (Some r)) in
  (written st' = written run0
   /\ failed_cves st' = failed_cves run0
   /\ logged st' = logged run0 ++ [Warning]
   /\ tried st' = S (tried run0)
   /\ left_behind st' = left_behind run0 ++ [])
  /\ forall (fs_write' : nat -> string -> pydict -> write_outcome)
            (futures : list (res (option pydict))) (st0 : run),
       failed_cves (drain str_of_text disk_full "output" futures st0)
       = failed_cves (drain str_of_text fs_write' "output" futures st0).
Proof.
  intro r.
  apply (write_failure_only_logged str_of_text disk_full "output" run0 r
           (PStr "CVE-2024-1234")).
  - discriminate.
  - reflexivity.
  - reflexivity.
  - discriminate.
Defined.

(** C10, as the specification words it, fails when the write raises after
    the content was flushed: [os.fsync] raises, only a warning is logged,
    and the whole output file of the record is at its path. *)
Lemma write_failure_leaves_whole_file_counterexample :
  let r := [("CVE_ID", PStr "CVE-2024-1234"); ("Category", PStr "RCE");
            ("Vendors", PList []);
            ("execution_time_seconds", PFloat (FDec 731 (-2)));
            ("attempts", PInt 1)] in
  write_raised (disk_unsynced 0 "output/CVE-2024-1234.json" r)
  = Some OSError
  /\ drain_step str_of_text disk_unsynced "output" run0 (Ok (Some r))
     = mkRun [] [] [Warning] 1
         [Whole (OutputFile "output/CVE-2024-1234.json" r)].
Proof. split; reflexivity. Qed.

(** * Further properties of the code *)

(** ** The brace span of the Response Extractor *)

Lemma from_first_open_prefix (s t : string) :
  from_first_open s = Some t ->
  exists pre t',
    s = (pre ++ String "{" t')%string /\ t = String "{" t'
    /\ has_char "{" pre = false.
Proof.
  revert t. induction s as [|c s IH]; simpl; intros t H.
  - discriminate.
  - destruct (Ascii.eqb c "{") eqn:E.
    + apply Ascii.eqb_eq in E. subst c. inversion H; subst.
      now exists EmptyString, s.
    + destruct (IH _ H) as (pre & t' & -> & -> & Hpre).
      exists (String c pre), t'. simpl. now rewrite E, Hpre.
Qed.

Lemma upto_last_close_suffix (t p : string) :
  upto_last_close t = Some p ->
  exists m post,
    p = (m ++ "}")%string /\ t = (m ++ String "}" post)%string
    /\ has_char "}" post = false.
Proof.
  revert p. induction t as [|c t IH]; simpl; intros p H.
  - discriminate.
  - destruct (upto_last_close t) as [q|] eqn:E.
    + inversion H; subst.
      destruct (IH _ eq_refl) as (m & post & -> & -> & Hpost).
      now exists (String c m), post.
    + destruct (Ascii.eqb c "}") eqn:Ec; [|discriminate].
      apply Ascii.eqb_eq in Ec. subst c. inversion H; subst.
      exists EmptyString, t. repeat split.
      clear H. induction t as [|a t IHt]; [reflexivity|].
      simpl in E. destruct (upto_last_close t); [discriminate|].
      destruct (Ascii.eqb a "}") eqn:Ea; [discriminate|].
      simpl. rewrite Ea. now apply IHt.
Qed.

Lemma from_first_open_finds (pre t : string) :
  exists p2, from_first_open (pre ++ String "{" t)
             = Some (p2 ++ String "{" t)%string.
Proof.
  induction pre as [|c pre (p2 & IH)]; simpl.
  - now exists EmptyString.
  - destruct (Ascii.eqb c "{").
    + now exists (String c pre).
    + now exists p2.
Qed.

Lemma upto_last_close_finds (m post : string) :
  upto_last_close (m ++ String "}" post) <> None.
Proof.
  induction m as [|c m IH]; simpl.
  - destruct (upto_last_close post); discriminate.
  - destruct (upto_last_close (m ++ String "}" post));
      [discriminate | contradiction].
Qed.

(** The span [safe_json_loads] hands to the decoder runs from the first
    opening brace of the text to its last closing brace, and there is one
    exactly when some opening brace has a closing brace after it. *)
Theorem brace_span_first_to_last :
  forall s : string,
    (forall g,
       re_search_braces s = Some g <->
       exists pre body post,
         s = (pre ++ "{" ++ body ++ "}" ++ post)%string
         /\ g = ("{" ++ body ++ "}")%string
         /\ has_char "{" pre = false /\ has_char "}" post = false)
    /\ (re_search_braces s = None <->
        forall pre body post,
          s <> (pre ++ "{" ++ body ++ "}" ++ post)%string).
Proof.
  intro s. split.
  - intro g. split.
    + unfold re_search_braces. intro H.
      destruct (from_first_open s) as [t|] eqn:E; [|discriminate].
      destruct (from_first_open_prefix _ _ E) as (pre & t' & -> & -> & Hpre).
      destruct (upto_last_close_suffix _ _ H) as (m & post & -> & Ht & Hpost).
      destruct m as [|c m]; simpl in Ht; [discriminate|].
      inversion Ht; subst. exists pre, m, post. auto.
    + intros (pre & body & post & -> & -> & Hpre & Hpost).
      now apply re_search_braces_span.
  - split.
    + intros Hnone pre body post ->. revert Hnone. unfold re_search_braces.
      simpl.
      destruct (from_first_open_finds pre (body ++ String "}" post))
        as (p2 & ->).
      change (p2 ++ String "{" (body ++ String "}" post))%string
        with (p2 ++ (String "{" body ++ String "}" post))%string.
      rewrite <- append_assoc. apply upto_last_close_finds.
    + intro Hno. destruct (re_search_braces s) as [g|] eqn:E; [|reflexivity].
      destruct (re_search_braces_some _ _ E) as (pre & body & post & Hs).
      now destruct (Hno pre body post).
Qed.

(** ** More on the Transport Client *)

Lemma py_range_empty (lo hi : Z) : hi <= lo -> py_range lo hi = [].
Proof.
  intro H. unfold py_range.
  replace (Z.to_nat (hi - lo)) with 0%nat by lia. reflexivity.
Qed.

(** [_query] never makes more POSTs than its budget, whatever the endpoint
    answers and whatever the delay; with a budget of zero or less it returns
    nothing at once, without a POST or a sleep. *)
Theorem query_posts_within_budget :
  forall (os_sleep : world -> Z -> bool)
         (http : string -> pyval -> Z -> nat -> http_outcome)
         (payload : pyval) (url : string) (attempts delay timeout : Z)
         (w : world),
    (posts w
     <= posts (snd (_query os_sleep http payload url attempts delay timeout w))
     <= posts w + Z.to_nat attempts)%nat
    /\ (attempts <= 0 ->
        _query os_sleep http payload url attempts delay timeout w = (Ok None, w)).
Proof.
  intros os_sleep http payload url attempts delay timeout w. split.
  - unfold _query.
    pose proof (query_loop_posts os_sleep http payload url delay timeout
                  (py_range 1 (attempts + 1)) w) as H.
    rewrite py_range_length in H.
    now replace (attempts + 1 - 1) with attempts in H by lia.
  - intro H. unfold _query. rewrite py_range_empty by lia. reflexivity.
Qed.

Lemma query_posts_within_budget_witness :
  _query any_sleep (always HFault) sample_payload "u" (-3) 2 120 world0
  = (Ok None, world0).
Proof.
  apply (proj2 (query_posts_within_budget any_sleep (always HFault) sample_payload "u"
                  (-3) 2 120 world0)).
  lia.
Defined.

Lemma try_body_text (o : http_outcome) (text : string) :
  try_body o = Ok (Some text) ->
  exists data content,
    o = HResponse 200 (Some data)
    /\ read_content o = Ok (PStr content)
    /\ content <> EmptyString
    /\ text = str_strip content.
Proof.
  unfold try_body. destruct (read_content o) as [content|e] eqn:Hc;
    simpl; [|discriminate].
  destruct (truthy content) eqn:Ht; [|discriminate].
  destruct content as [| | | | c | |]; simpl; try discriminate.
  intros [= <-].
  destruct o as [|status body]; [discriminate|].
  simpl in Hc. destruct (status =? 200) eqn:Es; [|discriminate].
  apply Z.eqb_eq in Es. subst status.
  destruct body as [data|]; [|discriminate].
  exists data, c. repeat split; auto.
  intros ->. discriminate.
Qed.

(** A text [_query] returns is the stripped, non-empty message content of a
    response with status 200: never that of a fault or of another
    status. *)
Theorem query_text_is_content_of_ok_response :
  forall (os_sleep : world -> Z -> bool)
         (http : string -> pyval -> Z -> nat -> http_outcome)
         (payload : pyval) (url : string) (attempts delay timeout : Z)
         (w w' : world) (text : string),
    _query os_sleep http payload url attempts delay timeout w = (Ok (Some text), w') ->
    exists n data content,
      http url payload timeout n = HResponse 200 (Some data)
      /\ read_content (HResponse 200 (Some data)) = Ok (PStr content)
      /\ content <> EmptyString
      /\ text = str_strip content.
Proof.
  intros os_sleep http payload url attempts delay timeout w w' text H.
  destruct (query_loop_text _ _ _ _ _ _ _ _ _ _ H) as (n & Hn).
  destruct (try_body_text _ _ Hn) as (data & content & Ho & Hc & Hne & Ht).
  exists n, data, content. rewrite <- Ho. auto.
Qed.

Lemma query_text_is_content_of_ok_response_witness :
  exists n data content,
    down_once (reply "  ok  ") "u" sample_payload 120 n
    = HResponse 200 (Some data)
    /\ read_content (HResponse 200 (Some data)) = Ok (PStr content)
    /\ content <> EmptyString
    /\ "ok"%string = str_strip content.
Proof.
  exact (query_text_is_content_of_ok_response any_sleep (down_once (reply "  ok  "))
           sample_payload "u" 3 2 120 world0 _ "ok" eq_refl).
Defined.

(** No fault of the network or of the protocol escapes [_query]: the one
    exception it can raise is that of a [time.sleep] that refuses the
    delay, an [OverflowError] for a delay beyond the interpreter's clock on
    either side of zero, a [ValueError] for another negative delay, and the
    [OSError] of the platform for one in between. *)
Theorem query_raises_only_from_sleep :
  forall (os_sleep : world -> Z -> bool)
         (http : string -> pyval -> Z -> nat -> http_outcome)
         (payload : pyval) (url : string) (attempts delay timeout : Z)
         (w w' : world) (e : exn),
    _query os_sleep http payload url attempts delay timeout w
    = (Raise e, w') ->
    (e = ValueError /\ - sleep_max <= delay < 0)
    \/ (e = OverflowError /\ sleep_max < Z.abs delay)
    \/ (e = OSError /\ 0 <= delay <= sleep_max).
Proof.
  intros os_sleep http payload url attempts delay timeout w w' e.
  apply query_loop_refusal.
Qed.

Lemma query_raises_only_from_sleep_witness :
  _query any_sleep (always HFault) sample_payload "u" 3 9223372037 120 world0
  = (Raise OverflowError, mkWorld 1 [EPost "u" sample_payload; ELog Warning])
  /\ ((OverflowError = ValueError /\ - sleep_max <= 9223372037 < 0)
      \/ (OverflowError = OverflowError
          /\ sleep_max < Z.abs 9223372037)
      \/ (OverflowError = OSError /\ 0 <= 9223372037 <= sleep_max)).
Proof.
  split; [reflexivity|].
  exact (query_raises_only_from_sleep any_sleep (always HFault)
           sample_payload "u" 3 9223372037 120 world0 _ OverflowError
           eq_refl).
Defined.

(** The runs of [_query] under the three kinds of refusal, evaluated: one
    POST, the warning for its failure, and the exception of the sleep. *)
Example query_refused_sleep_sample :
  _query any_sleep (always HFault) sample_payload "u" 3 (-1) 120 world0
  = (Raise ValueError, mkWorld 1 [EPost "u" sample_payload; ELog Warning])
  /\ _query any_sleep (always HFault) sample_payload "u" 3 (-9223372037) 120
       world0
     = (Raise OverflowError,
        mkWorld 1 [EPost "u" sample_payload; ELog Warning])
  /\ _query hour_old_sleep (always HFault) sample_payload "u" 3 9223372036
       120 world0
     = (Raise OSError, mkWorld 1 [EPost "u" sample_payload; ELog Warning]).
Proof. repeat split; reflexivity. Qed.

(** ** More on the Classifier *)

Section MoreLoopFacts.

Variable os_sleep : world -> Z -> bool.
Variable http : string -> pyval -> Z -> nat -> http_outcome.
Variable self : CVEClassifier.
Variable payload : pyval.

(** A call of [_query] that returns under a budget of at least one has made
    at least one POST. *)
Lemma query_posts_at_least_one (r : option string) (w w1 : world) :
  1 <= transport_budget self ->
  _query os_sleep http payload (url self) (transport_budget self) (retry_delay self)
    (timeout self) w = (Ok r, w1) ->
  (posts w + 1 <= posts w1)%nat.
Proof.
  intros Hbudget Hq. unfold _query in Hq.
  rewrite (py_range_split 1 2 (transport_budget self + 1)) in Hq by lia.
  change (py_range 1 2) with [1] in Hq. simpl app in Hq.
  rewrite query_loop_step in Hq. cbv zeta in Hq.
  destruct (try_body _) as [[t|]|e].
  - injection Hq as _ <-. simpl. lia.
  - unfold bind in Hq.
    match type of Hq with context [sleep os_sleep ?d ?w0] =>
      destruct (sleep_cases os_sleep d w0) as [Hs|(e0 & Hs & _)];
      rewrite Hs in Hq; [|discriminate]
    end.
    match type of Hq with
    | query_loop _ _ ?l _ _ _ _ ?w2 = _ =>
        pose proof (query_loop_posts os_sleep http payload (url self)
                      (retry_delay self) (timeout self) l w2) as Hb
    end.
    rewrite Hq in Hb. simpl in Hb. lia.
  - unfold bind, log_warning, emit in Hq.
    match type of Hq with context [sleep os_sleep ?d ?w0] =>
      destruct (sleep_cases os_sleep d w0) as [Hs|(e0 & Hs & _)];
      rewrite Hs in Hq; [|discriminate]
    end.
    match type of Hq with
    | query_loop _ _ ?l _ _ _ _ ?w2 = _ =>
        pose proof (query_loop_posts os_sleep http payload (url self)
                      (retry_delay self) (timeout self) l w2) as Hb
    end.
    rewrite Hq in Hb. simpl in Hb. lia.
Qed.

(** The loop ends after some number [k] of passes: [attempts_used] is then
    the [k]-th number of the range (the initial one when no pass was made),
    and under a budget of at least one each pass has cost a POST. *)
Lemma classify_loop_passes (rng : list Z) (used : Z) (w w' : world)
  (data : option pyval) (u : Z) :
  classify_loop os_sleep http self payload rng used w = (Ok (data, u), w') ->
  exists k : nat,
    nth_error (used :: rng) k = Some u
    /\ (rng <> [] -> (1 <= k)%nat)
    /\ (1 <= transport_budget self -> (posts w + k <= posts w')%nat).
Proof.
  revert used w. induction rng as [|a rest IH]; intros used w.
  - simpl. unfold ret. intros [= _ <- <-]. exists 0%nat.
    repeat split; [congruence | lia].
  - rewrite classify_loop_step. intro H.
    assert (Hrest : forall r w1,
               _query os_sleep http payload (url self) (transport_budget self)
                 (retry_delay self) (timeout self) w = (Ok r, w1) ->
               forall w2, posts w2 = posts w1 ->
               classify_loop os_sleep http self payload rest a w2 = (Ok (data, u), w')
               -> exists k : nat,
                    nth_error (used :: a :: rest) k = Some u
                    /\ (a :: rest <> [] -> (1 <= k)%nat)
                    /\ (1 <= transport_budget self ->
                        (posts w + k <= posts w')%nat)).
    { intros r w1 Hq w2 Hw2 H1.
      destruct (IH _ _ H1) as (k & Hk & _ & Hposts).
      exists (S k). repeat split; [exact Hk | lia |].
      intro Hb. specialize (Hposts Hb).
      pose proof (query_posts_at_least_one _ _ _ Hb Hq). lia. }
    destruct (_query _ _ _ _ _ _ _ w) as [[[[|c t]|]|e] w1] eqn:Eq;
      try (now apply (Hrest _ w1 eq_refl w1 eq_refl)); [|discriminate].
    destruct (safe_json_loads (String c t)) as [d|e].
    + injection H as _ <- <-. exists 1%nat.
      repeat split; [lia|].
      intro Hb. pose proof (query_posts_at_least_one _ _ _ Hb Eq). lia.
    + unfold bind in H.
      destruct (sleep_cases os_sleep (retry_delay self) w1)
        as [Hs|(e0 & Hs & _)]; rewrite Hs in H; [|discriminate].
      refine (Hrest _ w1 eq_refl _ _ H). reflexivity.
Qed.

End MoreLoopFacts.

Lemma py_range_nth (lo hi : Z) (j : nat) (u : Z) :
  nth_error (py_range lo hi) j = Some u ->
  u = lo + Z.of_nat j /\ (j < Z.to_nat (hi - lo))%nat.
Proof.
  unfold py_range. intro H.
  assert (Hj : (j < Z.to_nat (hi - lo))%nat).
  { assert (Hs : nth_error (map (fun i => lo + Z.of_nat i)
                               (seq 0 (Z.to_nat (hi - lo)))) j <> None)
      by congruence.
    apply nth_error_Some in Hs.
    now rewrite length_map, length_seq in Hs. }
  split; [|exact Hj].
  rewrite nth_error_map in H.
  rewrite (nth_error_nth' _ 0%nat) in H by (now rewrite length_seq).
  rewrite seq_nth in H by exact Hj. simpl in H. now injection H as <-.
Qed.



(** Under a budget of zero or less [classify] contacts nobody: it returns
    the error result with [attempts] at 0 and leaves the world as it
    was. *)
Theorem classify_without_budget :
  forall (os_sleep : world -> Z -> bool)
         (http : string -> pyval -> Z -> nat -> http_outcome)
         (json_dumps : pyval -> string) (elapsed : world -> world -> Z)
         (self : CVEClassifier) (cve_data : pydict)
         (prompt_template cve_id_fallback : string) (w : world)
         (cve_id : pyval),
    attempts self <= 0 ->
    get_cve_id cve_data cve_id_fallback = Ok cve_id ->
    classify os_sleep http json_dumps elapsed self cve_data prompt_template
      cve_id_fallback w
    = (Ok [("CVE_ID", cve_id); ("error", PBool true); ("attempts", PInt 0);
           ("execution_time_seconds", PFloat (FDec (elapsed w w) (-2)))],
       w).
Proof.
  intros os_sleep http json_dumps elapsed self cve_data prompt_template
    cve_id_fallback w cve_id Hbudget Hid.
  rewrite classify_unfold, Hid. unfold outer_budget.
  rewrite py_range_empty by lia. reflexivity.
Qed.

Lemma classify_without_budget_witness :
  classify any_sleep (always (reply rce_object)) no_dumps clock0
    (sample_classifier 0 2 sample_template) [("nvd", PDict [])] "Classify."
    "CVE-2024-1234" world0
  = (Ok [("CVE_ID", PStr "CVE-2024-1234"); ("error", PBool true);
         ("attempts", PInt 0);
         ("execution_time_seconds",
           PFloat (FDec (clock0 world0 world0) (-2)))],
     world0).
Proof.
  apply classify_without_budget.
  - simpl. lia.
  - reflexivity.
Defined.

Section BlankAnswers.

Variable os_sleep : world -> Z -> bool.
Variable http : string -> pyval -> Z -> nat -> http_outcome.
Variable self : CVEClassifier.
Variable payload : pyval.

Hypothesis budget : 1 <= transport_budget self.
Hypothesis blank :
  forall n, try_body (http (url self) payload (timeout self) n)
            = Ok (Some EmptyString).

Lemma query_blank (w : world) :
  _query os_sleep http payload (url self) (transport_budget self) (retry_delay self)
    (timeout self) w
  = (Ok (Some EmptyString),
     mkWorld (S (posts w)) (trace w ++ [EPost (url self) payload])).
Proof.
  unfold _query.
  rewrite (py_range_split 1 2 (transport_budget self + 1)) by lia.
  change (py_range 1 2) with [1]. simpl app.
  rewrite query_loop_step. cbv zeta. now rewrite blank.
Qed.

Lemma classify_loop_blank (rng : list Z) (used : Z) (w : world) :
  classify_loop os_sleep http self payload rng used w
  = (Ok (None, last rng used),
     mkWorld (posts w + List.length rng)
       (trace w ++ repeat (EPost (url self) payload) (List.length rng))).
Proof.
  revert used w. induction rng as [|a rest IH]; intros used w.
  - simpl. unfold ret. rewrite Nat.add_0_r, app_nil_r. now destruct w.
  - rewrite classify_loop_step, query_blank, IH, last_cons. simpl.
    rewrite <- app_assoc. simpl. do 2 f_equal. lia.
Qed.

End BlankAnswers.

(** An endpoint whose answers are blank (content that is not empty and
    strips to nothing) costs one POST for each pass of the outer loop and
    no sleep, whatever the delay: [_query] returns the empty text at once,
    and [classify] goes on to its next pass without sleeping, down to the
    error result. *)
Theorem classify_blank_answers :
  forall (os_sleep : world -> Z -> bool)
         (http : string -> pyval -> Z -> nat -> http_outcome)
         (json_dumps : pyval -> string) (elapsed : world -> world -> Z)
         (self : CVEClassifier) (cve_data : pydict)
         (prompt_template cve_id_fallback : string) (w : world)
         (cve_id : pyval),
    let payload := payload_of json_dumps self cve_data prompt_template in
    let w' :=
      mkWorld (posts w + Z.to_nat (attempts self))
        (trace w
         ++ repeat (EPost (url self) payload) (Z.to_nat (attempts self))) in
    1 <= attempts self ->
    get_cve_id cve_data cve_id_fallback = Ok cve_id ->
    (forall n, try_body (http (url self) payload (timeout self) n)
               = Ok (Some EmptyString)) ->
    classify os_sleep http json_dumps elapsed self cve_data prompt_template
      cve_id_fallback w
    = (Ok [("CVE_ID", cve_id); ("error", PBool true);
           ("attempts", PInt (attempts self));
           ("execution_time_seconds", PFloat (FDec (elapsed w w') (-2)))],
       w').
Proof.
  intros os_sleep http json_dumps elapsed self cve_data prompt_template
    cve_id_fallback w cve_id payload w' Hbudget Hid Hblank.
  rewrite classify_unfold, Hid. fold payload.
  rewrite (classify_loop_blank os_sleep http self payload Hbudget Hblank).
  rewrite py_range_length. unfold outer_budget.
  replace (attempts self + 1 - 1) with (attempts self) by lia.
  rewrite py_range_last by assumption. reflexivity.
Qed.

Lemma classify_blank_answers_witness :
  let self := sample_classifier 3 (-1) sample_template in
  classify any_sleep (always (reply "   ")) no_dumps clock0 self [("nvd", PDict [])]
    "Classify." "CVE-2024-1234" world0
  = (Ok [("CVE_ID", PStr "CVE-2024-1234"); ("error", PBool true);
         ("attempts", PInt 3);
         ("execution_time_seconds", PFloat (FDec 0 (-2)))],
     mkWorld 3
       [EPost (url self) sample_payload; EPost (url self) sample_payload;
        EPost (url self) sample_payload]).
Proof.
  intro self.
  refine (classify_blank_answers any_sleep (always (reply "   ")) no_dumps clock0 self
            [("nvd", PDict [])] "Classify." "CVE-2024-1234" world0
            (PStr "CVE-2024-1234") _ _ _).
  - simpl. lia.
  - reflexivity.
  - intro n. reflexivity.
Defined.

Lemma dict_set_under_head {V} (k k0 : string) (v v0 : V)
  (d : list (string * V)) :
  (k =? k0)%string = false ->
  dict_set k v ((k0, v0) :: d) = (k0, v0) :: dict_set k v d.
Proof.
  intro H. unfold dict_set at 1. fold (@dict_set V).
  now rewrite String.eqb_sym, H.
Qed.

Lemma project_cons (fk : string) (ak : pyval) (items : list (string * pyval))
  (data : pyval) (result : pydict) :
  project ((fk, ak) :: items) data result
  = if (fk =? "CVE_ID")%string then project items data result
    else res_bind (py_get_val data ak (default_val fk))
           (fun v => project items data (dict_set fk v result)).
Proof. reflexivity. Qed.

Lemma project_keeps_head (items : list (string * pyval)) (data cve_id : pyval)
  (rest r : pydict) :
  project items data (("CVE_ID"%string, cve_id) :: rest) = Ok r ->
  exists rest', r = ("CVE_ID"%string, cve_id) :: rest'.
Proof.
  revert rest. induction items as [|[fk ak] items IH]; intros rest H.
  - simpl in H. injection H as <-. eauto.
  - rewrite project_cons in H.
    destruct (fk =? "CVE_ID")%string eqn:E; [eauto|].
    destruct (py_get_val data ak (default_val fk)) as [v|e];
      [|discriminate].
    unfold res_bind in H. rewrite dict_set_under_head in H by exact E.
    eauto.
Qed.

(** Every result of [classify] opens with its [CVE_ID] field. The
    identifier is what the [mitre] document has under [cveMetadata] and
    [cveId] when that counts as true and the fallback otherwise (the [nvd]
    document plays no part), so with a non-empty fallback it never counts as
    false. *)
Theorem classify_result_opens_with_identifier :
  forall (os_sleep : world -> Z -> bool)
         (http : string -> pyval -> Z -> nat -> http_outcome)
         (json_dumps : pyval -> string) (elapsed : world -> world -> Z)
         (self : CVEClassifier) (cve_data : pydict)
         (prompt_template cve_id_fallback : string) (w w' : world)
         (r : pydict),
    classify os_sleep http json_dumps elapsed self cve_data prompt_template
      cve_id_fallback w = (Ok r, w') ->
    exists (cve_id : pyval) (rest : pydict),
      r = ("CVE_ID"%string, cve_id) :: rest
      /\ get_cve_id (match dict_lookup "mitre" cve_data with
                     | Some mitre => [("mitre"%string, mitre)]
                     | None => []
                     end) cve_id_fallback = Ok cve_id
      /\ (cve_id = PStr cve_id_fallback
          \/ exists mitre meta,
               dict_lookup "mitre" cve_data = Some (PDict mitre)
               /\ dict_lookup "cveMetadata" mitre = Some (PDict meta)
               /\ dict_lookup "cveId" meta = Some cve_id)
      /\ (cve_id_fallback <> EmptyString -> truthy cve_id = true).
Proof.
  intros os_sleep http json_dumps elapsed self cve_data prompt_template
    cve_id_fallback w w' r H.
  rewrite classify_unfold in H.
  destruct (get_cve_id cve_data cve_id_fallback) as [cve_id|e] eqn:Hid;
    [|discriminate].
  destruct (classify_loop _ _ _ _ _ _ w) as [[[data used]|e] w1];
    [|discriminate].
  injection H as Hres _.
  assert (Hhead : exists rest, r = ("CVE_ID"%string, cve_id) :: rest).
  { unfold make_result in Hres. destruct (negb (truthy (data_of data))).
    - injection Hres as <-. unfold error_result. simpl. eauto.
    - destruct (py_items (output_map self)) as [items|e]; [|discriminate].
      simpl in Hres.
      destruct (project items (data_of data) [("CVE_ID"%string, cve_id)])
        as [r0|e] eqn:Hp; [|discriminate].
      destruct (project_keeps_head _ _ _ _ _ Hp) as (rest' & ->).
      simpl in Hres. injection Hres as <-. simpl. eauto. }
  destruct Hhead as (rest & ->). exists cve_id, rest.
  split; [reflexivity|].
  unfold get_cve_id in *. simpl in *.
  destruct (dict_lookup "mitre" cve_data) as [mitre|] eqn:Hm; simpl in *.
  - destruct mitre as [| | | | | |mitre]; try discriminate. simpl in *.
    split; [exact Hid|].
    destruct (dict_lookup "cveMetadata" mitre) as [meta|] eqn:Hmeta;
      simpl in *.
    + destruct meta as [| | | | | |meta]; try discriminate. simpl in *.
      injection Hid as <-. unfold py_or.
      destruct (dict_lookup "cveId" meta) as [v|] eqn:Hv; simpl.
      * destruct (truthy v) eqn:Hv'.
        -- split; [right; eauto | auto].
        -- split; [now left|]. intro Hne. simpl.
           destruct cve_id_fallback; [contradiction | reflexivity].
      * split; [now left|]. intro Hne.
        destruct cve_id_fallback; [contradiction | reflexivity].
    + injection Hid as <-. unfold py_or. simpl.
      split; [now left|]. intro Hne.
      destruct cve_id_fallback; [contradiction | reflexivity].
  - injection Hid as <-. unfold py_or. simpl.
    split; [reflexivity|]. split; [now left|]. intro Hne.
    destruct cve_id_fallback; [contradiction | reflexivity].
Qed.

Lemma classify_result_opens_with_identifier_witness :
  exists (cve_id : pyval) (rest : pydict),
    [("CVE_ID", PStr "CVE-2024-1234"); ("error", PBool true);
     ("attempts", PInt 1);
     ("execution_time_seconds", PFloat (FDec 0 (-2)))]
    = ("CVE_ID"%string, cve_id) :: rest
    /\ get_cve_id (match dict_lookup "mitre" [("nvd", PDict [])] with
                   | Some mitre => [("mitre"%string, mitre)]
                   | None => []
                   end) "CVE-2024-1234" = Ok cve_id
    /\ (cve_id = PStr "CVE-2024-1234"
        \/ exists mitre meta,
             dict_lookup "mitre" [("nvd", PDict [])] = Some (PDict mitre)
             /\ dict_lookup "cveMetadata" mitre = Some (PDict meta)
             /\ dict_lookup "cveId" meta = Some cve_id)
    /\ ("CVE-2024-1234"%string <> EmptyString -> truthy cve_id = true).
Proof.
  exact (classify_result_opens_with_identifier any_sleep (always HFault) no_dumps
           clock0 (sample_classifier 1 0 sample_template) [("nvd", PDict [])]
           "Classify." "CVE-2024-1234" world0 _ _ eq_refl).
Defined.

(** ** More on the main thread *)

Section MoreDrainFacts.

Variable py_str : pyval -> string.
Variable fs_write : nat -> string -> pydict -> write_outcome.
Variable out_dir : string.

Lemma drain_step_accounts (st : run) (future : res (option pydict)) :
  let st' := drain_step py_str fs_write out_dir st future in
  ((if passed_over future then 1 else 0)
   + List.length (failed_cves st') + List.length (written st')
   + List.length (logged st')
   = 1 + List.length (failed_cves st) + List.length (written st)
     + List.length (logged st))%nat
  /\ (tried st' + List.length (written st)
      + List.length (filter is_warning (logged st))
      = tried st + List.length (written st')
        + List.length (filter is_warning (logged st')))%nat.
Proof.
  cbv zeta. unfold drain_step.
  destruct future as [[r|]|e]; simpl passed_over.
  - destruct r as [|kv r]; [split; simpl; lia|].
    destruct (truthy _).
    + destruct (dict_lookup "CVE_ID" (kv :: r)); simpl;
        rewrite ?length_app, ?filter_app, ?length_app; simpl; lia.
    + destruct (dict_lookup "CVE_ID" (kv :: r)); simpl.
      * unfold write_output. destruct (fs_write _ _ _); simpl;
          rewrite ?length_app, ?filter_app, ?length_app; simpl; lia.
      * rewrite ?length_app, ?filter_app, ?length_app; simpl; lia.
  - split; simpl; lia.
  - simpl. rewrite ?length_app, ?filter_app, ?length_app; simpl; lia.
Qed.

Lemma drain_accounts (futures : list (res (option pydict))) (st : run) :
  let st' := drain py_str fs_write out_dir futures st in
  (List.length (filter passed_over futures)
   + List.length (failed_cves st') + List.length (written st')
   + List.length (logged st')
   = List.length futures + List.length (failed_cves st)
     + List.length (written st) + List.length (logged st))%nat
  /\ (tried st' + List.length (written st)
      + List.length (filter is_warning (logged st))
      = tried st + List.length (written st')
        + List.length (filter is_warning (logged st')))%nat.
Proof.
  revert st. induction futures as [|future rest IH]; intro st.
  - simpl. lia.
  - cbv zeta. unfold drain. simpl fold_left.
    specialize (IH (drain_step py_str fs_write out_dir st future)).
    cbv zeta in IH. unfold drain in IH.
    pose proof (drain_step_accounts st future) as Hs. cbv zeta in Hs.
    simpl filter. simpl List.length at 4.
    destruct (passed_over future); simpl List.length; lia.
Qed.

Lemma drain_step_writes_all (st : run) (future : res (option pydict)) :
  (forall n path r, fs_write n path r = Completed) ->
  let st' := drain_step py_str fs_write out_dir st future in
  written st' = written st ++ expected_output py_str out_dir future
  /\ filter is_warning (logged st') = filter is_warning (logged st).
Proof.
  intro Hdisk. cbv zeta. unfold drain_step, expected_output.
  destruct future as [[r|]|e].
  - destruct r as [|kv r]; [now rewrite app_nil_r|].
    fold (marked_error (kv :: r)).
    destruct (marked_error (kv :: r)).
    + destruct (dict_lookup "CVE_ID" (kv :: r)); simpl;
        rewrite ?app_nil_r, ?filter_app, ?app_nil_r; auto.
    + destruct (dict_lookup "CVE_ID" (kv :: r)); simpl.
      * unfold write_output. now rewrite Hdisk.
      * now rewrite ?app_nil_r, ?filter_app, ?app_nil_r.
  - now rewrite app_nil_r.
  - simpl. now rewrite ?app_nil_r, ?filter_app, ?app_nil_r.
Qed.

End MoreDrainFacts.

(** Every completed future is accounted for once: it is passed over, or its
    identifier enters the failure list, or its file is written, or a record
    is logged for it; and every attempt to write ended in a file or in a
    warning. *)
Theorem drain_accounts_for_every_future :
  forall (py_str : pyval -> string)
         (fs_write : nat -> string -> pydict -> write_outcome) (out_dir : string)
         (futures : list (res (option pydict))),
    let st := drain py_str fs_write out_dir futures run0 in
    List.length futures
    = (List.length (filter passed_over futures)
       + List.length (failed_cves st) + List.length (written st)
       + List.length (logged st))%nat
    /\ tried st
       = (List.length (written st)
          + List.length (filter is_warning (logged st)))%nat.
Proof.
  intros py_str fs_write out_dir futures st.
  pose proof (drain_accounts py_str fs_write out_dir futures run0) as H.
  cbv zeta in H. fold st in H. simpl in H. lia.
Qed.

(** When no write fails, the files written are the output files of the
    results that are not marked as errors and carry an identifier, each at
    [<out_dir>/<identifier>.json], in the order of completion, and no
    warning is logged. *)
Theorem drain_writes_every_success :
  forall (py_str : pyval -> string)
         (fs_write : nat -> string -> pydict -> write_outcome) (out_dir : string)
         (futures : list (res (option pydict))),
    (forall n path r, fs_write n path r = Completed) ->
    let st := drain py_str fs_write out_dir futures run0 in
    written st = flat_map (expected_output py_str out_dir) futures
    /\ filter is_warning (logged st) = [].
Proof.
  intros py_str fs_write out_dir futures Hdisk.
  assert (H : forall st0,
             let st := drain py_str fs_write out_dir futures st0 in
             written st
             = written st0 ++ flat_map (expected_output py_str out_dir) futures
             /\ filter is_warning (logged st)
                = filter is_warning (logged st0)).
  { induction futures as [|future rest IH]; intro st0.
    - simpl. now rewrite app_nil_r.
    - cbv zeta. unfold drain. simpl fold_left.
      destruct (drain_step_writes_all py_str fs_write out_dir st0 future Hdisk)
        as (Hw & Hl).
      specialize (IH (drain_step py_str fs_write out_dir st0 future)).
      cbv zeta in IH. unfold drain in IH. destruct IH as (IHw & IHl).
      rewrite IHw, IHl, Hw, Hl. simpl flat_map.
      now rewrite app_assoc. }
  apply (H run0).
Qed.

Lemma drain_writes_every_success_witness :
  let futures :=
    map (task any_sleep down_for_sample no_dumps clock0 fs_empty_objects
           (sample_classifier 1 0 sample_template) "Classify." "json")
      [other_group; sample_group] in
  let st := drain str_of_text disk_ok "output" futures run0 in
  written st = flat_map (expected_output str_of_text "output") futures
  /\ filter is_warning (logged st) = [].
Proof.
  intro futures.
  apply (drain_writes_every_success str_of_text disk_ok "output" futures).
  reflexivity.
Defined.

Section NoTextFacts.

Variable os_sleep : world -> Z -> bool.
Variable http : string -> pyval -> Z -> nat -> http_outcome.
Variable json_dumps : pyval -> string.
Variable elapsed : world -> world -> Z.

Hypothesis no_text :
  forall u p t n text, try_body (http u p t n) <> Ok (Some text).

Lemma classify_no_text_marked (self : CVEClassifier) (cve_data : pydict)
  (prompt_template cve_id_fallback : string) (w w' : world) (r : pydict) :
  classify os_sleep http json_dumps elapsed self cve_data prompt_template
    cve_id_fallback w = (Ok r, w') ->
  marked_error r = true.
Proof.
  intro H. rewrite classify_unfold in H.
  destruct (get_cve_id cve_data cve_id_fallback) as [cve_id|e];
    [|discriminate].
  destruct (classify_loop _ _ _ _ _ _ w) as [[[data used]|e] w1] eqn:Hloop;
    [|discriminate].
  assert (Hfail : forall n text,
             try_body (http (url self)
                         (payload_of json_dumps self cve_data prompt_template)
                         (timeout self) n) = Ok (Some text) ->
             text = EmptyString \/ safe_json_loads text = Raise ValueError).
  { intros n text Hn. now destruct (no_text _ _ _ _ _ Hn). }
  destruct (classify_loop_only_exhausts _ _ _ _ _ _ _ _ _ _ Hfail Hloop)
    as (-> & _).
  injection H as <- _. reflexivity.
Qed.

Lemma process_file_group_no_text (fs_read : string -> option string)
  (base : string) (file_map : list (string * string)) (base_dir : string)
  (classifier : CVEClassifier) (prompt_template : string) (w w' : world)
  (r : pydict) :
  process_file_group os_sleep http json_dumps elapsed fs_read base file_map base_dir
    classifier prompt_template w = (Ok (Some r), w') ->
  marked_error r = true.
Proof.
  unfold process_file_group, bind. rewrite load_sources_both.
  match goal with
  | |- context [match ?c with [] => _ | _ :: _ => _ end] =>
      destruct c as [|kv combined]
  end.
  - discriminate.
  - destruct (classify _ _ _ _ _ _ _ _ _) as [[r0|e] w0] eqn:Hc;
      [|discriminate].
    unfold ret. intros [= <- _].
    exact (classify_no_text_marked _ _ _ _ _ _ _ Hc).
Qed.

End NoTextFacts.

(** Where every result is marked as an error, no write is tried, so that
    nothing is left behind either. *)
Lemma marked_results_are_never_tried (py_str : pyval -> string)
  (fs_write : nat -> string -> pydict -> write_outcome) (out_dir : string)
  (futures : list (res (option pydict))) :
  (forall r, In (Ok (Some r)) futures -> marked_error r = true) ->
  tried (drain py_str fs_write out_dir futures run0) = 0%nat
  /\ left_behind (drain py_str fs_write out_dir futures run0) = [].
Proof.
  assert (H : forall st0,
             (forall r, In (Ok (Some r)) futures -> marked_error r = true) ->
             tried (drain py_str fs_write out_dir futures st0) = tried st0
             /\ left_behind (drain py_str fs_write out_dir futures st0)
                = left_behind st0).
  { induction futures as [|future rest IH]; intros st0 Hm.
    - split; reflexivity.
    - unfold drain. simpl fold_left. unfold drain in IH.
      destruct (IH (drain_step py_str fs_write out_dir st0 future))
        as (IHt & IHl); [intros r Hr; apply Hm; now right|].
      rewrite IHt, IHl.
      unfold drain_step. destruct future as [[r|]|e];
        try (split; reflexivity).
      destruct r as [|kv r]; [split; reflexivity|].
      specialize (Hm (kv :: r) (or_introl eq_refl)).
      unfold marked_error in Hm. rewrite Hm.
      destruct (dict_lookup "CVE_ID" (kv :: r)); split; reflexivity. }
  intro Hm. exact (H run0 Hm).
Qed.



(** The run of that example, evaluated with a failure list that is
    written and with one that cannot be opened: both identifiers are on the
    list; the first run writes the list and nothing else, the second
    writes nothing and ends in the exception of the open. *)
Example no_text_run_sample :
  let run_with list_write :=
    main_run any_sleep (fun _ => always HFault) no_dumps clock0
      fs_empty_objects str_of_text disk_ok list_write sample_args
      (sample_classifier 2 0 sample_template) "Classify." "json"
      [other_group; sample_group] in
  failed_cves (snd (run_with list_ok))
  = [PStr "CVE-2024-5678"; PStr "CVE-2024-1234"]
  /\ List.length (written (snd (run_with list_ok))) = 1%nat
  /\ fst (run_with list_ok) = Ok tt
  /\ run_with list_denied
     = (Raise OSError,
        mkRun [] [PStr "CVE-2024-5678"; PStr "CVE-2024-1234"] [] 0 []).
Proof. vm_compute. repeat split; reflexivity. Qed.

(** ** File names *)

Lemma has_char_app (c : ascii) (a b : string) :
  has_char c (a ++ b) = (has_char c a || has_char c b)%bool.
Proof.
  induction a as [|x a IH]; simpl; [reflexivity|].
  now rewrite IH, orb_assoc.
Qed.

Lemma rsplit_none (c : ascii) (s : string) :
  rsplit c s = None <-> has_char c s = false.
Proof.
  induction s as [|a s IH]; simpl; [tauto|].
  destruct (rsplit c s) as [[b e]|].
  - split; [discriminate|]. intro H. apply orb_false_iff in H as [_ H].
    apply IH in H. discriminate.
  - destruct (Ascii.eqb a c); simpl.
    + split; discriminate.
    + split; [intros _; now apply IH | reflexivity].
Qed.

Lemma rsplit_some (c : ascii) (s b e : string) :
  rsplit c s = Some (b, e) ->
  s = (b ++ String c e)%string /\ has_char c e = false.
Proof.
  revert b. induction s as [|a s IH]; simpl; intros b H; [discriminate|].
  destruct (rsplit c s) as [[b' e']|] eqn:E.
  - injection H as <- <-. destruct (IH _ eq_refl) as (-> & He). auto.
  - destruct (Ascii.eqb a c) eqn:Ea; [|discriminate].
    apply Ascii.eqb_eq in Ea. subst a. injection H as <- <-.
    split; [reflexivity | now apply rsplit_none].
Qed.

Lemma rsplit_app_sep (c : ascii) (b e : string) :
  has_char c e = false -> rsplit c (b ++ String c e) = Some (b, e).
Proof.
  intro He. induction b as [|a b IH]; simpl.
  - apply rsplit_none in He. rewrite He. now rewrite Ascii.eqb_refl.
  - now rewrite IH.
Qed.

Lemma str_endswith_iff (s suffix : string) :
  str_endswith s suffix = true <-> exists y, s = (y ++ suffix)%string.
Proof.
  induction s as [|a s IH]; unfold str_endswith; fold str_endswith.
  - destruct (String.eqb_spec "" suffix) as [<-|Hne].
    + split; [now exists EmptyString | reflexivity].
    + split; [discriminate|]. intros ([|x y] & Hy); simpl in Hy;
        [congruence | discriminate Hy].
  - destruct (String.eqb_spec (String a s) suffix) as [<-|Hne].
    + split; [now exists EmptyString | reflexivity].
    + rewrite IH. split.
      * intros (y & ->). now exists (String a y).
      * intros ([|x y] & Hy); simpl in Hy; [congruence|].
        injection Hy as _ ->. now exists y.
Qed.

Lemma basename_no_slash (s : string) :
  has_char "/" s = false -> basename s = s.
Proof. intro H. unfold basename. apply rsplit_none in H. now rewrite H. Qed.

Lemma basename_app (d n : string) :
  has_char "/" n = false -> basename (d ++ String "/" n) = n.
Proof. intro H. unfold basename. now rewrite rsplit_app_sep. Qed.

(** What [splitext] returns: the two parts make up the path, and an
    extension that is not empty is a dot and a run without dot or slash,
    after a last component that is not made of dots. *)
Lemma splitext_parts (p b ext : string) :
  splitext p = (b, ext) ->
  p = (b ++ ext)%string
  /\ (ext = EmptyString
      \/ exists e, ext = String "." e /\ has_char "." e = false
                   /\ has_char "/" e = false
                   /\ all_dots (basename b) = false).
Proof.
  unfold splitext.
  destruct (rsplit "/" p) as [[before name]|] eqn:Es.
  - destruct (rsplit_some _ _ _ _ Es) as (Hp & Hname).
    destruct (rsplit "." name) as [[stem e]|] eqn:Ed.
    + destruct (rsplit_some _ _ _ _ Ed) as (Hn & He).
      destruct (all_dots stem) eqn:Hs.
      * intros [= <- <-]. rewrite append_empty_r. auto.
      * intros [= <- <-]. subst name p.
        rewrite has_char_app in Hname. apply orb_false_iff in Hname as [Hst Hd].
        simpl in Hd.
        split.
        { rewrite !append_assoc. reflexivity. }
        right. exists e. repeat split; auto.
        rewrite append_assoc. simpl. now rewrite basename_app.
    + intros [= <- <-]. rewrite append_empty_r. auto.
  - apply rsplit_none in Es.
    destruct (rsplit "." p) as [[stem e]|] eqn:Ed.
    + destruct (rsplit_some _ _ _ _ Ed) as (Hn & He).
      destruct (all_dots stem) eqn:Hs.
      * intros [= <- <-]. rewrite append_empty_r. auto.
      * intros [= <- <-]. subst p. simpl.
        rewrite has_char_app in Es. apply orb_false_iff in Es as [Hst Hd].
        simpl in Hd.
        split; [reflexivity|]. right. exists e. repeat split; auto.
        now rewrite basename_no_slash.
    + intros [= <- <-]. rewrite append_empty_r. auto.
Qed.

Lemma splitext_of (b e : string) :
  has_char "." e = false -> has_char "/" e = false ->
  all_dots (basename b) = false ->
  splitext (b ++ String "." e) = (b, String "." e).
Proof.
  intros Hd Hs Hstem. unfold splitext, basename in *.
  destruct (rsplit "/" b) as [[d n]|] eqn:Eb.
  - destruct (rsplit_some _ _ _ _ Eb) as (-> & Hn).
    rewrite append_assoc. simpl.
    rewrite rsplit_app_sep
      by (rewrite has_char_app; simpl; now rewrite Hn, Hs).
    rewrite rsplit_app_sep by exact Hd.
    rewrite Hstem. now rewrite !append_assoc.
  - apply rsplit_none in Eb.
    assert (Hnone : rsplit "/" (b ++ String "." e) = None).
    { apply rsplit_none. rewrite has_char_app. simpl. now rewrite Eb, Hs. }
    rewrite Hnone, rsplit_app_sep by exact Hd.
    now rewrite Hstem.
Qed.

Lemma ends_with_tag (f b e x : string) :
  f = (b ++ String "." e)%string -> has_char "." e = false ->
  has_char "." x = false ->
  str_endswith f (String "." x) = true -> e = x.
Proof.
  intros Hf He Hx Hends. apply str_endswith_iff in Hends as (y & Hy).
  assert (H1 : rsplit "." f = Some (b, e))
    by (rewrite Hf; now apply rsplit_app_sep).
  assert (H2 : rsplit "." f = Some (y, x))
    by (rewrite Hy; now apply rsplit_app_sep).
  congruence.
Qed.

(** What a name that is filed is made of. *)
Lemma file_entry_sound (f base tag : string) :
  file_entry f = Some (base, tag) ->
  f = (base ++ "." ++ tag)%string
  /\ (tag = "nvd"%string \/ tag = "mitre"%string)
  /\ all_dots (basename base) = false.
Proof.
  unfold file_entry.
  destruct (str_endswith f ".json") eqn:Ej;
    destruct (str_endswith f ".nvd") eqn:En;
    destruct (str_endswith f ".mitre") eqn:Em; simpl; try discriminate;
    destruct (splitext f) as [b ext] eqn:Esp;
    destruct (splitext_parts _ _ _ Esp) as (Hf & [->|(e & -> & Hd & Hs & Hstem)]);
    try discriminate;
    repeat match goal with
           | H : str_endswith f (String "." ?x) = true |- _ =>
               apply (ends_with_tag f b e x Hf Hd eq_refl) in H
           end;
    subst e; try discriminate; simpl;
    intros [= <- <-]; auto.
Qed.

Lemma file_entry_complete (base tag : string) :
  tag = "nvd"%string \/ tag = "mitre"%string ->
  all_dots (basename base) = false ->
  file_entry (base ++ "." ++ tag) = Some (base, tag).
Proof.
  intros Htag Hstem. unfold file_entry.
  assert (Hsp : splitext (base ++ "." ++ tag) = (base, String "." tag))
    by (destruct Htag as [->| ->]; now apply splitext_of).
  assert (Hend : (str_endswith (base ++ "." ++ tag) ".json"
                  || str_endswith (base ++ "." ++ tag) ".nvd"
                  || str_endswith (base ++ "." ++ tag) ".mitre")%bool = true).
  { destruct Htag as [->| ->].
    - apply orb_true_iff. left. apply orb_true_iff. right.
      apply str_endswith_iff. now exists base.
    - apply orb_true_iff. right. apply str_endswith_iff. now exists base. }
  rewrite Hend, Hsp. simpl negb. cbv iota.
  destruct Htag as [->| ->]; reflexivity.
Qed.

(** ** The Input Grouper *)

Lemma lookup2_group_add (b t base tag f : string) (g : groups) :
  lookup2 b t (group_add base tag f g)
  = if ((base =? b) && (tag =? t))%string then Some f else lookup2 b t g.
Proof.
  unfold lookup2, group_add.
  destruct (String.eqb_spec base b) as [->|Hb].
  - rewrite dict_lookup_set_same.
    destruct (String.eqb_spec tag t) as [->|Ht]; simpl.
    + apply dict_lookup_set_same.
    + rewrite dict_lookup_set_other by exact Ht.
      now destruct (dict_lookup b g).
  - simpl. now rewrite dict_lookup_set_other by exact Hb.
Qed.

Lemma group_loop_cons (f : string) (rest : list string) (g : groups) :
  group_loop (f :: rest) g
  = group_loop rest
      (match file_entry f with
       | Some (base, tag) => group_add base tag f g
       | None => g
       end).
Proof.
  unfold file_entry. simpl.
  destruct (negb _); [reflexivity|].
  destruct (splitext f) as [base ext].
  destruct (_ || _)%bool; reflexivity.
Qed.

Lemma group_loop_lookup (names : list string) (g : groups) (b t : string) :
  lookup2 b t (group_loop names g)
  = if existsb (entry_is b t) names then Some (b ++ "." ++ t)%string
    else lookup2 b t g.
Proof.
  revert g. induction names as [|f rest IH]; intro g.
  - reflexivity.
  - rewrite group_loop_cons, IH. simpl existsb. unfold entry_is at 2.
    destruct (existsb (entry_is b t) rest).
    + now rewrite orb_true_r.
    + rewrite orb_false_r.
      destruct (file_entry f) as [[base tag]|] eqn:E; [|reflexivity].
      rewrite lookup2_group_add.
      destruct ((base =? b)%string && (tag =? t)%string)%bool eqn:Eq;
        [|reflexivity].
      apply andb_true_iff in Eq as [Hb Ht].
      apply String.eqb_eq in Hb, Ht. subst base tag.
      destruct (file_entry_sound _ _ _ E) as (-> & _). reflexivity.
Qed.

(** Directory mode files a name under a base and a tag exactly when the
    name is the base, a dot and the tag, the tag is [nvd] or [mitre] as
    written, in lower case, and the last component of the base is not made
    of dots. So a [.json] file and a file whose extension is in upper case
    are never grouped, and nothing but names of the directory is. *)
Theorem group_cve_files_entries :
  forall (path_exists : string -> bool) (listdir : string -> res (list string))
         (json_dir : string) (names : list string) (w : world),
    path_exists json_dir = true ->
    listdir json_dir = Ok names ->
    exists g : groups,
      group_cve_files path_exists listdir json_dir w = (Ok g, w)
      /\ forall base tag f,
           lookup2 base tag g = Some f <->
           f = (base ++ "." ++ tag)%string /\ In f names
           /\ (tag = "nvd"%string \/ tag = "mitre"%string)
           /\ all_dots (basename base) = false.
Proof.
  intros path_exists listdir json_dir names w Hex Hls.
  exists (group_loop names []). split.
  - unfold group_cve_files, bind, lift, ret. now rewrite Hex, Hls.
  - intros base tag f. rewrite group_loop_lookup.
    destruct (existsb (entry_is base tag) names) eqn:E.
    + apply existsb_exists in E as (x & Hin & Hx). unfold entry_is in Hx.
      destruct (file_entry x) as [[b t]|] eqn:Ex; [|discriminate].
      apply andb_true_iff in Hx as [Hb Ht].
      apply String.eqb_eq in Hb, Ht. subst b t.
      destruct (file_entry_sound _ _ _ Ex) as (-> & Htag & Hstem).
      split.
      * intros [= <-]. auto.
      * intros (-> & _). reflexivity.
    + split; [discriminate|].
      intros (-> & Hin & Htag & Hstem). exfalso.
      assert (Hx : existsb (entry_is base tag) names = true).
      { apply existsb_exists. exists (base ++ "." ++ tag)%string.
        split; [exact Hin|]. unfold entry_is.
        rewrite (file_entry_complete _ _ Htag Hstem).
        now rewrite !String.eqb_refl. }
      congruence.
Qed.

Lemma group_cve_files_entries_witness :
  exists g : groups,
    group_cve_files (fun _ => true)
      (fun _ => Ok ["CVE-2024-1234.nvd"; "notes.json"; "CVE-2024-1234.mitre";
                    "CVE-2024-5678.NVD"]%string)
      "json" world0 = (Ok g, world0)
    /\ forall base tag f,
         lookup2 base tag g = Some f <->
         f = (base ++ "." ++ tag)%string
         /\ In f ["CVE-2024-1234.nvd"; "notes.json"; "CVE-2024-1234.mitre";
                  "CVE-2024-5678.NVD"]%string
         /\ (tag = "nvd"%string \/ tag = "mitre"%string)
         /\ all_dots (basename base) = false.
Proof.
  apply group_cve_files_entries; reflexivity.
Defined.

(** The groups of the witness, evaluated. *)
Example group_cve_files_sample :
  group_cve_files (fun _ => true)
    (fun _ => Ok ["CVE-2024-1234.nvd"; "notes.json"; "CVE-2024-1234.mitre";
                  "CVE-2024-5678.NVD"; ".nvd"]%string)
    "json" world0
  = (Ok [("CVE-2024-1234"%string,
          [("nvd", "CVE-2024-1234.nvd"); ("mitre", "CVE-2024-1234.mitre")]%string)],
     world0).
Proof. reflexivity. Qed.

(** Single-file mode never raises. It gives no group, and logs an error,
    for a file that does not exist or whose extension, lowered, is none of
    [.nvd], [.mitre] and [.json]. Otherwise it logs nothing and gives one
    group, under the base of the file name. The group holds the file
    itself, under [mitre] for a [.json] file and under the tag of its
    extension for a [.nvd] or [.mitre] file; it holds a second file, under
    the other tag, exactly when the file is no [.json] file and its
    sibling, the base with the other extension in the same directory,
    exists; and it holds nothing else. *)
Theorem single_file_group_holds_the_file :
  forall (path_exists : string -> bool) (file_path : string) (w : world),
    let filename := basename file_path in
    let base := fst (splitext filename) in
    let ext := str_lower (snd (splitext filename)) in
    exists (g : groups) (w' : world),
      get_single_file_group path_exists file_path w = (Ok g, w')
      /\ ((g = [] /\ w' = mkWorld (posts w) (trace w ++ [ELog Error])
           /\ (path_exists file_path = false
               \/ (ext <> ".nvd" /\ ext <> ".mitre" /\ ext <> ".json")%string))
          \/ (w' = w /\ path_exists file_path = true
              /\ exists tag m,
                   g = [(base, m)]
                   /\ dict_lookup tag m = Some filename
                   /\ ((ext = ".json"%string /\ tag = "mitre"%string)
                       \/ (ext = String "." tag
                           /\ (tag = "nvd"%string \/ tag = "mitre"%string)))
                   /\ m = (tag, filename)
                          :: match dict_lookup (other_tag tag) m with
                             | Some f' => [(other_tag tag, f')]
                             | None => []
                             end
                   /\ forall f',
                        dict_lookup (other_tag tag) m = Some f' <->
                        ext <> ".json"%string
                        /\ f' = (base ++ "." ++ other_tag tag)%string
                        /\ path_exists (path_join (dirname file_path) f')
                           = true)).
Proof.
  intros path_exists file_path w filename base ext.
  unfold get_single_file_group.
  destruct (path_exists file_path) eqn:Hex; simpl negb; cbv iota.
  2:{ do 2 eexists. split; [reflexivity|]. left. repeat split; auto. }
  fold filename. subst base ext.
  destruct (splitext filename) as [base ext0]. simpl fst. simpl snd.
  destruct (String.eqb_spec (str_lower ext0) ".nvd") as [En|En].
  - rewrite En. simpl. unfold ret.
    destruct (path_exists (path_join (dirname file_path) (base ++ ".mitre")))
      eqn:Hp.
    + do 2 eexists. split; [reflexivity|]. right.
      split; [reflexivity|]. split; [reflexivity|].
      exists "nvd"%string. eexists. split.
      { unfold group_add. simpl. rewrite String.eqb_refl. reflexivity. }
      simpl. split; [reflexivity|]. split; [auto 6|].
        split; [reflexivity|].
      intro f'. split.
      * intros [= <-]. repeat split; [discriminate | exact Hp].
      * intros (_ & -> & _). reflexivity.
    + do 2 eexists. split; [reflexivity|]. right.
      split; [reflexivity|]. split; [reflexivity|].
      exists "nvd"%string. eexists. split.
      { unfold group_add. simpl. reflexivity. }
      simpl. split; [reflexivity|]. split; [auto 6|].
        split; [reflexivity|].
      intro f'. split.
      * discriminate.
      * intros (_ & -> & Hp'). change (other_tag "nvd") with "mitre"%string in Hp'.
        change (other_tag "mitre") with "nvd"%string in Hp'. simpl in Hp'. congruence.
  - destruct (String.eqb_spec (str_lower ext0) ".mitre") as [Em|Em].
    + rewrite Em. simpl. unfold ret.
      destruct (path_exists (path_join (dirname file_path) (base ++ ".nvd")))
        eqn:Hp.
      * do 2 eexists. split; [reflexivity|]. right.
        split; [reflexivity|]. split; [reflexivity|].
        exists "mitre"%string. eexists. split.
        { unfold group_add. simpl. rewrite String.eqb_refl. reflexivity. }
        simpl. split; [reflexivity|]. split; [auto 6|].
        split; [reflexivity|].
        intro f'. split.
        -- intros [= <-]. repeat split; [discriminate | exact Hp].
        -- intros (_ & -> & _). reflexivity.
      * do 2 eexists. split; [reflexivity|]. right.
        split; [reflexivity|]. split; [reflexivity|].
        exists "mitre"%string. eexists. split.
        { unfold group_add. simpl. reflexivity. }
        simpl. split; [reflexivity|]. split; [auto 6|].
        split; [reflexivity|].
        intro f'. split.
        -- discriminate.
        -- intros (_ & -> & Hp'). change (other_tag "nvd") with "mitre"%string in Hp'.
        change (other_tag "mitre") with "nvd"%string in Hp'. simpl in Hp'. congruence.
    + destruct (String.eqb_spec (str_lower ext0) ".json") as [Ej|Ej].
      * rewrite Ej. simpl. unfold ret.
        do 2 eexists. split; [reflexivity|]. right.
        split; [reflexivity|]. split; [reflexivity|].
        exists "mitre"%string. eexists. split.
        { unfold group_add. simpl. reflexivity. }
        simpl. split; [reflexivity|]. split; [auto 6|].
        split; [reflexivity|].
        intro f'. split.
        -- discriminate.
        -- intros (Hne & _). now destruct Hne.
      * simpl. do 2 eexists. split; [reflexivity|]. left.
        repeat split; auto.
Qed.

Lemma str_rev_onto_last (s acc : string) (c : ascii) (r : string) :
  str_rev_onto s acc = String c r ->
  (s = EmptyString /\ acc = String c r)
  \/ exists s', s = (s' ++ String c EmptyString)%string.
Proof.
  revert acc. induction s as [|x s IH]; intros acc H; simpl in H.
  - now left.
  - right. destruct (IH _ H) as [[-> Hacc]|(s' & ->)].
    + injection Hacc as -> _. now exists EmptyString.
    + now exists (String x s').
Qed.

Lemma prefix_slash (f : string) :
  has_char "/" f = false -> prefix "/" f = false.
Proof.
  destruct f as [|c f]; [reflexivity|].
  intro H. simpl in H. apply orb_false_iff in H as [Hc _].
  unfold prefix. destruct (ascii_dec "/" c) as [<-|Hne];
    [rewrite Ascii.eqb_refl in Hc; discriminate | reflexivity].
Qed.

Lemma basename_path_join (dir f : string) :
  has_char "/" f = false -> basename (path_join dir f) = f.
Proof.
  intro Hf. unfold path_join. rewrite (prefix_slash f Hf).
  unfold str_last, str_rev.
  destruct (str_rev_onto dir EmptyString) as [|c r] eqn:E.
  - now apply basename_no_slash.
  - destruct (Ascii.eqb c "/") eqn:Ec.
    + apply Ascii.eqb_eq in Ec. subst c.
      destruct (str_rev_onto_last _ _ _ _ E) as [[_ H]|(d & ->)];
        [discriminate|].
      rewrite append_assoc. simpl. now apply basename_app.
    + now apply basename_app.
Qed.

(** The two modes agree: a name directory mode files under a base and a tag
    is filed under the same base and tag by single-file mode, when it is
    given the file at that name in any directory. *)
Theorem single_file_mode_agrees_with_directory_mode :
  forall (path_exists : string -> bool) (dir f base tag : string) (w : world),
    file_entry f = Some (base, tag) ->
    has_char "/" f = false ->
    path_exists (path_join dir f) = true ->
    exists (g : groups) (w' : world),
      get_single_file_group path_exists (path_join dir f) w = (Ok g, w')
      /\ lookup2 base tag g = Some f.
Proof.
  intros path_exists dir f base tag w Hentry Hf Hex.
  destruct (file_entry_sound _ _ _ Hentry) as (Heq & Htag & Hstem).
  unfold get_single_file_group. rewrite Hex. simpl negb. cbv iota.
  rewrite (basename_path_join dir f Hf).
  assert (Hsp : splitext f = (base, String "." tag))
    by (rewrite Heq; destruct Htag as [->| ->]; now apply splitext_of).
  rewrite Hsp.
  destruct Htag as [->| ->]; simpl; unfold ret;
    match goal with
    | |- context [if path_exists ?p then _ else _] =>
        destruct (path_exists p)
    end;
    do 2 eexists; (split; [reflexivity|]);
    rewrite ?lookup2_group_add; simpl;
    unfold lookup2, group_add; simpl; now rewrite String.eqb_refl.
Qed.

Lemma single_file_mode_agrees_with_directory_mode_witness :
  exists (g : groups) (w' : world),
    get_single_file_group (fun _ => true)
      (path_join "json" "CVE-2024-1234.nvd") world0 = (Ok g, w')
    /\ lookup2 "CVE-2024-1234" "nvd" g = Some "CVE-2024-1234.nvd"%string.
Proof.
  apply single_file_mode_agrees_with_directory_mode; reflexivity.
Defined.

(** [load_config] never raises. It returns the empty dict unless the file
    exists, can be read and parses, and then what the file holds, of
    whatever JSON type. It logs a warning for a missing file other than the
    default [config.json], an error for a file it cannot load, and nothing
    else. *)
Theorem load_config_never_raises :
  forall (path_exists : string -> bool) (fs_read : string -> option string)
         (config_path : string) (w : world),
    exists (v : pyval) (logs : list event),
      load_config path_exists fs_read config_path w
      = (Ok v, mkWorld (posts w) (trace w ++ logs))
      /\ ((v = PDict []
           /\ ((path_exists config_path = false
                /\ logs = if (config_path =? "config.json")%string
                          then [] else [ELog Warning])
               \/ (path_exists config_path = true
                   /\ logs = [ELog Error]
                   /\ match fs_read config_path with
                      | Some text => json_loads text = None
                      | None => True
                      end)))
          \/ (logs = [] /\ path_exists config_path = true
              /\ exists text,
                   fs_read config_path = Some text
                   /\ json_loads text = Some v)).
Proof.
  intros path_exists fs_read config_path w. unfold load_config.
  destruct (path_exists config_path); simpl negb; cbv iota.
  - destruct (fs_read config_path) as [text|].
    + destruct (json_loads text) as [v|] eqn:Ej.
      * exists v, []. rewrite app_nil_r. split; [now destruct w|].
        right. eauto.
      * exists (PDict []), [ELog Error]. split; [reflexivity|].
        left. split; [reflexivity|]. right. auto.
    + exists (PDict []), [ELog Error]. split; [reflexivity|].
      left. split; [reflexivity|]. right. auto.
  - destruct (config_path =? "config.json")%string; simpl negb; cbv iota.
    + exists (PDict []), []. rewrite app_nil_r. split; [now destruct w|].
      left. auto.
    + exists (PDict []), [ELog Warning]. split; [reflexivity|].
      left. auto.
Qed.

(** ** CVSS scores *)

Lemma nvd_loop_outcomes (versions : list (string * string)) (metrics : pyval) :
  match nvd_loop versions metrics with
  | Ok None => True
  | Ok (Some (s, x)) =>
      s <> PNone /\ exists v, In v (map snd versions) /\ x = PStr v
  | Raise e => e = KeyError \/ caught e = true
  end.
Proof.
  induction versions as [|[key version_str] rest IH]; [exact I|].
  assert (Hrest :
    match nvd_loop rest metrics with
    | Ok None => True
    | Ok (Some (s, x)) =>
        s <> PNone
        /\ exists v, In v (map snd ((key, version_str) :: rest)) /\ x = PStr v
    | Raise e => e = KeyError \/ caught e = true
    end).
  { destruct (nvd_loop rest metrics) as [[[s x]|]|e]; auto.
    destruct IH as (Hs & v & Hv & ->). split; [exact Hs|].
    exists v. split; [now right | reflexivity]. }
  unfold nvd_loop; fold nvd_loop.
  destruct (py_in key metrics) as [[|]|e] eqn:Hin; simpl res_bind; cbv iota;
    [| exact Hrest | destruct metrics; try discriminate; injection Hin as <-;
                     right; reflexivity].
  destruct (py_getitem metrics key) as [metric_list|e] eqn:Hget;
    simpl res_bind.
  2:{ destruct metrics; try discriminate; simpl in Hget;
        try (injection Hget as <-; right; reflexivity).
      destruct (dict_lookup key d); [discriminate|].
      injection Hget as <-. now left. }
  destruct (truthy metric_list); [|exact Hrest].
  destruct (py_item0 metric_list) as [first|e] eqn:H0; simpl res_bind.
  2:{ destruct metric_list as [| | | | s0 | l0 |]; simpl in H0;
        try (injection H0 as <-; auto; right; reflexivity).
      - destruct s0; [|discriminate]. injection H0 as <-. right. reflexivity.
      - destruct l0; [|discriminate]. injection H0 as <-. right. reflexivity. }
  destruct (py_get first "cvssData" (PDict [])) as [cvss_data|e] eqn:H1;
    simpl res_bind.
  2:{ destruct first; simpl in H1; try discriminate;
        injection H1 as <-; right; reflexivity. }
  destruct (py_get cvss_data "baseScore" PNone) as [score|e] eqn:H2;
    simpl res_bind.
  2:{ destruct cvss_data; simpl in H2; try discriminate;
        injection H2 as <-; right; reflexivity. }
  destruct (is_not_none score) eqn:Hs; [|exact Hrest].
  split; [now destruct score|].
  exists version_str. split; [now left | reflexivity].
Qed.

Lemma with_fallback_outcomes (body : res (option (pyval * pyval))) :
  match body with
  | Ok None => True
  | Ok (Some r) =>
      fst r <> PNone /\ exists v, In v cvss_labels /\ snd r = PStr v
  | Raise e => e = KeyError \/ caught e = true
  end ->
  with_fallback body = Raise KeyError
  \/ exists r, with_fallback body = Ok r /\ score_result r.
Proof.
  destruct body as [[r|]|e]; simpl.
  - intro H. right. exists r. split; [reflexivity|]. now right.
  - intros _. right. exists none_none. split; [reflexivity|]. now left.
  - intros [->|He]; [now left|]. rewrite He. right.
    exists none_none. split; [reflexivity|]. now left.
Qed.

(** [get_nvd_cvss_score] has three outcomes and no other: it returns
    [(None, None)]; it returns a score that is not [None] with one of the
    labels 4.0, 3.1, 3.0 and 2.0; or it raises [KeyError], which its
    [except] clause does not name. *)
Theorem nvd_score_outcomes :
  forall data : pyval,
    get_nvd_cvss_score data = Raise KeyError
    \/ exists r, get_nvd_cvss_score data = Ok r /\ score_result r.
Proof.
  intro data. unfold get_nvd_cvss_score. apply with_fallback_outcomes.
  generalize (nvd_loop_outcomes nvd_versions).
  change (map snd nvd_versions) with cvss_labels.
  generalize (nvd_loop nvd_versions). intros loop Hloop.
  destruct (py_get data "vulnerabilities" (PList [])) as [vs|e] eqn:H0;
    simpl res_bind.
  2:{ destruct data; simpl in H0; try discriminate;
        injection H0 as <-; right; reflexivity. }
  destruct (py_item0 vs) as [info|e] eqn:H1; simpl res_bind.
  2:{ destruct vs as [| | | | s0 | l0 |]; simpl in H1;
        try (injection H1 as <-; auto; right; reflexivity).
      - destruct s0; [|discriminate]. injection H1 as <-. right. reflexivity.
      - destruct l0; [|discriminate]. injection H1 as <-. right. reflexivity. }
  destruct (py_get info "cve" (PDict [])) as [cve|e] eqn:H2; simpl res_bind.
  2:{ destruct info; simpl in H2; try discriminate;
        injection H2 as <-; right; reflexivity. }
  destruct (py_get cve "metrics" (PDict [])) as [metrics|e] eqn:H3;
    simpl res_bind.
  2:{ destruct cve; simpl in H3; try discriminate;
        injection H3 as <-; right; reflexivity. }
  specialize (Hloop metrics).
  destruct (loop metrics) as [[[s x]|]|e]; exact Hloop.
Qed.

Lemma get_nvd_of_metrics (data : pyval) (m : pydict) :
  nvd_metrics data = Some m ->
  get_nvd_cvss_score data = with_fallback (nvd_loop nvd_versions (PDict m)).
Proof.
  unfold nvd_metrics, get_nvd_cvss_score. generalize (nvd_loop nvd_versions).
  intros loop H.
  destruct data as [| | | | | |d]; try discriminate. simpl py_get.
  destruct (dict_lookup "vulnerabilities" d) as [[| | | | |[|[| | | | | |v] ?]|]|];
    try discriminate.
  simpl. destruct (dict_lookup "cve" v) as [[| | | | | |c]|]; try discriminate.
  simpl. destruct (dict_lookup "metrics" c) as [[| | | | | |m']|];
    try discriminate.
  now injection H as ->.
Qed.

Lemma nvd_loop_skip (m : pydict) (key v : string)
  (rest : list (string * string)) :
  nvd_skips m key = true ->
  nvd_loop ((key, v) :: rest) (PDict m) = nvd_loop rest (PDict m).
Proof.
  unfold nvd_skips. intro H. unfold nvd_loop; fold nvd_loop.
  unfold py_in, py_getitem.
  destruct (dict_lookup key m) as [x|]; [|reflexivity]. simpl res_bind.
  destruct (truthy x); [|reflexivity].
  destruct x as [| | | | |[|[| | | | | |e] ?]|]; try discriminate.
  simpl. destruct (dict_lookup "cvssData" e) as [[| | | | | |cd]|];
    try discriminate; simpl.
  - unfold base_score in H.
    destruct (dict_lookup "baseScore" cd) as [s|]; [|reflexivity].
    now destruct (is_not_none s).
  - reflexivity.
Qed.

Lemma nvd_loop_skips (m : pydict) (before rest : list (string * string)) :
  forallb (fun kv => nvd_skips m (fst kv)) before = true ->
  nvd_loop (before ++ rest) (PDict m) = nvd_loop rest (PDict m).
Proof.
  induction before as [|[k v] before IH]; [reflexivity|].
  intro H. simpl in H. apply andb_true_iff in H as [Hk Hb].
  rewrite <- app_comm_cons, (nvd_loop_skip _ _ _ _ Hk). now apply IH.
Qed.

Lemma nvd_loop_offer (m : pydict) (key v : string)
  (rest : list (string * string)) (s : pyval) :
  nvd_offer m key = Some s ->
  nvd_loop ((key, v) :: rest) (PDict m) = Ok (Some (s, PStr v)).
Proof.
  unfold nvd_offer. intro H. unfold nvd_loop; fold nvd_loop.
  unfold py_in, py_getitem.
  destruct (dict_lookup key m) as [[| | | | |[|[| | | | | |e] ?]|]|];
    try discriminate.
  simpl. destruct (dict_lookup "cvssData" e) as [[| | | | | |cd]|];
    try discriminate.
  simpl. unfold base_score in H.
  destruct (dict_lookup "baseScore" cd) as [s'|]; [|discriminate].
  destruct (is_not_none s'); [|discriminate]. now injection H as ->.
Qed.

Lemma nvd_loop_malformed (m : pydict) (key v : string)
  (rest : list (string * string)) :
  nvd_malformed m key = true ->
  exists e, nvd_loop ((key, v) :: rest) (PDict m) = Raise e
            /\ caught e = true.
Proof.
  unfold nvd_malformed. intro H. unfold nvd_loop; fold nvd_loop.
  unfold py_in, py_getitem.
  destruct (dict_lookup key m) as [x|]; [|discriminate]. simpl res_bind.
  destruct (truthy x) eqn:Ht; [|discriminate].
  destruct x as [| | | |s|[|first ?]|]; try discriminate;
    try (now eexists; split; [reflexivity|]).
  - destruct s; [discriminate|]. simpl.
    now eexists; split; [reflexivity|].
  - destruct first as [| | | | | |e];
      try (now eexists; split; [reflexivity|]).
    simpl. destruct (dict_lookup "cvssData" e) as [[| | | | | |cd]|];
      try discriminate; now eexists; split; [reflexivity|].
Qed.

(** The priority among the versions: the score returned is the one offered
    under the first key, in the order v4.0, v3.1, v3.0, v2.0, that offers
    one, when the keys before it have nothing to offer: they are absent,
    hold a falsy value, or hold a list whose first entry has no base score.
    Only the first entry of a list counts, and what the later keys hold
    plays no part. *)
Theorem nvd_score_follows_priority :
  forall (data : pyval) (m : pydict) (before after : list (string * string))
         (key v : string) (s : pyval),
    nvd_metrics data = Some m ->
    nvd_versions = before ++ (key, v) :: after ->
    forallb (fun kv => nvd_skips m (fst kv)) before = true ->
    nvd_offer m key = Some s ->
    get_nvd_cvss_score data = Ok (s, PStr v).
Proof.
  intros data m before after key v s Hm Hsplit Hskip Hoffer.
  rewrite (get_nvd_of_metrics _ _ Hm), Hsplit, (nvd_loop_skips _ _ _ Hskip),
    (nvd_loop_offer _ _ _ _ _ Hoffer).
  reflexivity.
Qed.

Lemma nvd_score_follows_priority_witness :
  get_nvd_cvss_score (nvd_document nvd_sample_metrics)
  = Ok (score_9_8, PStr "3.0").
Proof.
  apply (nvd_score_follows_priority (nvd_document nvd_sample_metrics)
           nvd_sample_metrics
           [("cvssMetricV40", "4.0"); ("cvssMetricV31", "3.1")]
           [("cvssMetricV2", "2.0")] "cvssMetricV30" "3.0" score_9_8);
    reflexivity.
Defined.



(** An object where the list of vulnerabilities is expected makes the
    function raise [KeyError]: the index [0] is looked up as a key, and the
    [except] clause does not name that exception. *)
Theorem nvd_score_object_for_vulnerabilities_raises :
  forall (d x : pydict),
    dict_lookup "vulnerabilities" d = Some (PDict x) ->
    get_nvd_cvss_score (PDict d) = Raise KeyError.
Proof.
  intros d x H. unfold get_nvd_cvss_score. generalize (nvd_loop nvd_versions).
  intro loop. simpl py_get. rewrite H. reflexivity.
Qed.

Lemma nvd_score_object_for_vulnerabilities_raises_witness :
  get_nvd_cvss_score (PDict [("vulnerabilities", PDict [])]) = Raise KeyError.
Proof.
  apply (nvd_score_object_for_vulnerabilities_raises
           [("vulnerabilities", PDict [])] []).
  reflexivity.
Defined.

(** So does an object that is not empty where the list of entries of a
    version is expected, when the keys before it have nothing to offer. *)
Theorem nvd_score_object_for_entries_raises :
  forall (data : pyval) (m : pydict) (before after : list (string * string))
         (key v : string) (x : string * pyval) (xs : pydict),
    nvd_metrics data = Some m ->
    nvd_versions = before ++ (key, v) :: after ->
    forallb (fun kv => nvd_skips m (fst kv)) before = true ->
    dict_lookup key m = Some (PDict (x :: xs)) ->
    get_nvd_cvss_score data = Raise KeyError.
Proof.
  intros data m before after key v x xs Hm Hsplit Hskip Hobj.
  rewrite (get_nvd_of_metrics _ _ Hm), Hsplit, (nvd_loop_skips _ _ _ Hskip).
  unfold nvd_loop; fold nvd_loop. unfold py_in, py_getitem. rewrite Hobj.
  reflexivity.
Qed.

Lemma nvd_score_object_for_entries_raises_witness :
  get_nvd_cvss_score (nvd_document nvd_keyed_metrics) = Raise KeyError.
Proof.
  apply (nvd_score_object_for_entries_raises (nvd_document nvd_keyed_metrics)
           nvd_keyed_metrics []
           [("cvssMetricV31", "3.1"); ("cvssMetricV30", "3.0");
            ("cvssMetricV2", "2.0")]
           "cvssMetricV40" "4.0" ("0", nvd_entry score_9_3) []);
    reflexivity.
Defined.

Lemma mitre_scan_outcomes (key version_str : string) (metrics : list pyval) :
  match mitre_scan key version_str metrics with
  | Ok None => True
  | Ok (Some (s, x)) => s <> PNone /\ x = PStr version_str
  | Raise e => caught e = true
  end.
Proof.
  induction metrics as [|metric rest IH]; [exact I|].
  unfold mitre_scan; fold mitre_scan.
  destruct (py_in key metric) as [[|]|e] eqn:Hin; simpl res_bind; cbv iota;
    [| exact IH | destruct metric; try discriminate; now injection Hin as <-].
  destruct (py_get metric key (PDict [])) as [entry|e] eqn:H1;
    simpl res_bind.
  2:{ destruct metric; simpl in H1; try discriminate;
        now injection H1 as <-. }
  destruct (py_get entry "baseScore" PNone) as [score|e] eqn:H2;
    simpl res_bind.
  2:{ destruct entry; simpl in H2; try discriminate;
        now injection H2 as <-. }
  destruct (is_not_none score) eqn:Hs; [|exact IH].
  split; [now destruct score | reflexivity].
Qed.

Lemma mitre_loop_outcomes (versions : list (string * string))
  (metrics : pyval) :
  match mitre_loop versions metrics with
  | Ok None => True
  | Ok (Some (s, x)) =>
      s <> PNone /\ exists v, In v (map snd versions) /\ x = PStr v
  | Raise e => caught e = true
  end.
Proof.
  induction versions as [|[key version_str] rest IH]; [exact I|].
  unfold mitre_loop; fold mitre_loop.
  destruct (py_iter metrics) as [items|e] eqn:Hit; simpl res_bind.
  2:{ destruct metrics; simpl in Hit; try discriminate;
        now injection Hit as <-. }
  pose proof (mitre_scan_outcomes key version_str items) as Hscan.
  destruct (mitre_scan key version_str items) as [[[s x]|]|e];
    simpl res_bind; cbv iota.
  - destruct Hscan as [Hs ->]. split; [exact Hs|].
    exists version_str. split; [now left | reflexivity].
  - destruct (mitre_loop rest metrics) as [[[s x]|]|e]; auto.
    destruct IH as (Hs & v & Hv & ->). split; [exact Hs|].
    exists v. split; [now right | reflexivity].
  - exact Hscan.
Qed.

(** [get_mitre_cvss_score] never raises, whatever JSON value it is given:
    it returns [(None, None)], or a score that is not [None] with one of
    the labels 4.0, 3.1, 3.0 and 2.0. *)
Theorem mitre_score_never_raises :
  forall data : pyval,
    exists r, get_mitre_cvss_score data = Ok r /\ score_result r.
Proof.
  intro data. unfold get_mitre_cvss_score.
  generalize (mitre_loop_outcomes mitre_versions).
  change (map snd mitre_versions) with cvss_labels.
  generalize (mitre_loop mitre_versions). intros loop Hloop.
  assert (Hnone : exists r, Ok none_none = Ok r /\ score_result r)
    by (exists none_none; split; [reflexivity | now left]).
  destruct (py_get data "containers" (PDict [])) as [cs|e] eqn:H0;
    simpl res_bind.
  2:{ destruct data; simpl in H0; try discriminate;
        now injection H0 as <-. }
  destruct (py_get cs "cna" (PDict [])) as [cna|e] eqn:H1; simpl res_bind.
  2:{ destruct cs; simpl in H1; try discriminate; now injection H1 as <-. }
  destruct (py_get cna "metrics" (PList [])) as [metrics|e] eqn:H2;
    simpl res_bind.
  2:{ destruct cna; simpl in H2; try discriminate; now injection H2 as <-. }
  destruct (truthy metrics); simpl negb; cbv iota; [|exact Hnone].
  specialize (Hloop metrics).
  destruct (loop metrics) as [[[s x]|]|e]; simpl.
  - exists (s, x). split; [reflexivity|]. right. exact Hloop.
  - exact Hnone.
  - rewrite Hloop. exact Hnone.
Qed.

Lemma get_mitre_of_metrics (data : pyval) (l : list pyval) :
  mitre_metrics data = Some l ->
  l <> [] ->
  get_mitre_cvss_score data
  = with_fallback (mitre_loop mitre_versions (PList l)).
Proof.
  unfold mitre_metrics, get_mitre_cvss_score.
  generalize (mitre_loop mitre_versions). intros loop H Hl.
  destruct data as [| | | | | |d]; try discriminate. simpl py_get.
  destruct (dict_lookup "containers" d) as [[| | | | | |c]|];
    try discriminate.
  simpl. destruct (dict_lookup "cna" c) as [[| | | | | |a]|];
    try discriminate.
  simpl. destruct (dict_lookup "metrics" a) as [[| | | | |l'|]|];
    try discriminate.
  injection H as ->. simpl. now destruct l.
Qed.

Lemma mitre_scan_skips (key v : string) (pre rest : list pyval) :
  forallb (fun metric => mitre_skips metric key) pre = true ->
  mitre_scan key v (pre ++ rest) = mitre_scan key v rest.
Proof.
  induction pre as [|metric pre IH]; [reflexivity|].
  intro H. simpl in H. apply andb_true_iff in H as [Hm Hp].
  rewrite <- app_comm_cons. unfold mitre_scan; fold mitre_scan.
  rewrite (IH Hp). unfold mitre_skips in Hm.
  destruct metric as [| | | | | |e]; try discriminate.
  unfold py_in, py_get.
  destruct (dict_lookup key e) as [[| | | | | |x]|]; try discriminate;
    [|reflexivity].
  simpl. unfold base_score in Hm.
  destruct (dict_lookup "baseScore" x) as [s|]; [|reflexivity].
  now destruct (is_not_none s).
Qed.

Lemma mitre_scan_offer (key v : string) (m : pyval) (post : list pyval)
  (s : pyval) :
  mitre_offer m key = Some s ->
  mitre_scan key v (m :: post) = Ok (Some (s, PStr v)).
Proof.
  unfold mitre_offer. intro H. unfold mitre_scan; fold mitre_scan.
  destruct m as [| | | | | |e]; try discriminate.
  unfold py_in, py_get.
  destruct (dict_lookup key e) as [[| | | | | |x]|]; try discriminate.
  simpl. unfold base_score in H.
  destruct (dict_lookup "baseScore" x) as [s'|]; [|discriminate].
  destruct (is_not_none s'); [|discriminate]. now injection H as ->.
Qed.

Lemma mitre_loop_skips (l : list pyval) (before rest : list (string * string)) :
  forallb (fun kv => forallb (fun metric => mitre_skips metric (fst kv)) l)
    before = true ->
  mitre_loop (before ++ rest) (PList l) = mitre_loop rest (PList l).
Proof.
  induction before as [|[k v] before IH]; [reflexivity|].
  intro H. simpl in H. apply andb_true_iff in H as [Hk Hb].
  rewrite <- app_comm_cons. unfold mitre_loop; fold mitre_loop.
  simpl py_iter. simpl res_bind.
  pose proof (mitre_scan_skips k v l [] Hk) as Hscan.
  rewrite app_nil_r in Hscan. rewrite Hscan. simpl. now apply IH.
Qed.

(** In a MITRE record the version comes before the position: the score
    returned is the one of the first metric that offers one under the first
    key, in the order v4.0, v3.1, v3.0, v2.0, under which any metric offers
    one, when the metrics visited before it are objects with nothing to
    offer under the key. The metrics after it are not looked at, and a
    score of a later version in an earlier metric is passed over. *)
Theorem mitre_score_version_before_position :
  forall (data : pyval) (l pre post : list pyval) (m : pyval)
         (before after : list (string * string)) (key v : string)
         (s : pyval),
    mitre_metrics data = Some l ->
    mitre_versions = before ++ (key, v) :: after ->
    forallb (fun kv => forallb (fun metric => mitre_skips metric (fst kv)) l)
      before = true ->
    l = pre ++ m :: post ->
    forallb (fun metric => mitre_skips metric key) pre = true ->
    mitre_offer m key = Some s ->
    get_mitre_cvss_score data = Ok (s, PStr v).
Proof.
  intros data l pre post m before after key v s Hm Hsplit Hbefore Hl Hpre
    Hoffer.
  rewrite (get_mitre_of_metrics _ _ Hm) by (subst l; now destruct pre).
  rewrite Hsplit, (mitre_loop_skips _ _ _ Hbefore).
  unfold mitre_loop; fold mitre_loop. simpl py_iter. simpl res_bind.
  rewrite Hl, (mitre_scan_skips _ _ _ _ Hpre),
    (mitre_scan_offer _ _ _ _ _ Hoffer).
  reflexivity.
Qed.

Lemma mitre_score_version_before_position_witness :
  mitre_offer (PDict [("cvssV3_1", PDict [("baseScore", score_7_5)])])
    "cvssV3_1" = Some score_7_5
  /\ get_mitre_cvss_score (mitre_document mitre_sample_metrics)
     = Ok (score_9_3, PStr "4.0").
Proof.
  split; [reflexivity|].
  apply (mitre_score_version_before_position
           (mitre_document mitre_sample_metrics) mitre_sample_metrics
           [PDict [("cvssV3_1", PDict [("baseScore", score_7_5)])];
            PDict [("format", PStr "CVSS")]]
           [PStr "trailer"]
           (PDict [("cvssV4_0", PDict [("baseScore", score_9_3)])])
           []
           [("cvssV3_1", "3.1"); ("cvssV3_0", "3.0"); ("cvssV2_0", "2.0")]
           "cvssV4_0" "4.0" score_9_3);
    reflexivity.
Defined.

(** ** The type of a parsed answer *)

Lemma parse_members_object (fuel : nat) :
  forall (s : string) (acc : pydict) (v : pyval) (r : string),
    parse_members fuel s acc = Parsed v r -> exists d, v = PDict d.
Proof.
  induction fuel as [|f IH]; intros s acc v r H; [discriminate|].
  simpl in H.
  destruct (starts_with dquote s) as [r0|]; [|discriminate].
  destruct (scan_string r0) as [[key r1]|]; [|discriminate].
  destruct (starts_with ":" (skip_ws r1)) as [r2|]; [|discriminate].
  destruct (parse_value f (skip_ws r2)) as [x r3| |]; try discriminate.
  destruct (starts_with "," (skip_ws r3)) as [r4|].
  - exact (IH _ _ _ _ H).
  - destruct (starts_with "}" (skip_ws r3)) as [r4|]; [|discriminate].
    injection H as <- _. eauto.
Qed.

Lemma re_search_braces_opens (s g : string) :
  re_search_braces s = Some g -> exists t, g = String "{" t.
Proof.
  unfold re_search_braces. intro H.
  destruct (from_first_open s) as [t|] eqn:E; [|discriminate].
  destruct (from_first_open_some _ _ E) as (pre & t' & _ & ->).
  simpl in H. destruct (upto_last_close t') as [p|].
  - injection H as <-. eauto.
  - discriminate.
Qed.

(** Whatever [safe_json_loads] returns for a text with an opening brace
    followed somewhere by a closing brace is an object: a list, a string, a
    number or a literal can only come back from a text without such a
    span, decoded as a whole. *)
Theorem safe_json_loads_span_gives_object :
  forall (s g : string) (v : pyval),
    re_search_braces s = Some g ->
    safe_json_loads s = Ok v ->
    exists d, v = PDict d.
Proof.
  intros s g v Hg H. unfold safe_json_loads in H.
  destruct (s =? "")%string; [discriminate|]. rewrite Hg in H.
  destruct (json_loads g) as [x|] eqn:Hx; [|discriminate].
  injection H as ->.
  destruct (re_search_braces_opens _ _ Hg) as (t & ->).
  unfold json_loads, decode in Hx.
  change (skip_ws (String "{" t)) with (String "{" t) in Hx.
  generalize dependent (2 * String.length (String "{" t))%nat.
  intros f Hx.
  destruct (parse_value (S f) (String "{" t)) as [y rest| |] eqn:Hp;
    try discriminate.
  destruct (skip_ws rest); [|discriminate]. injection Hx as ->.
  simpl in Hp.
  destruct (starts_with "}" (skip_ws t)) as [r'|].
  - injection Hp as <- _. eauto.
  - exact (parse_members_object _ _ _ _ _ Hp).
Qed.

Lemma safe_json_loads_span_gives_object_witness :
  re_search_braces ("Here you go: " ++ rce_object) = Some rce_object
  /\ safe_json_loads ("Here you go: " ++ rce_object)
     = Ok (PDict [("category", PStr "RCE")])
  /\ exists d, PDict [("category", PStr "RCE")] = PDict d.
Proof.
  split; [reflexivity|]. split; [reflexivity|].
  apply (safe_json_loads_span_gives_object ("Here you go: " ++ rce_object)
           rce_object (PDict [("category", PStr "RCE")]));
    reflexivity.
Defined.

(** ** The CVSS update run *)

Import CvssMain.

Ltac run_u :=
  cbv beta iota zeta
    delta [update_file update_body load_json dump_json from_nvd from_mitre
           settle bind_u unit_u escape of_res act count_updated count_missing
           version_label py_setitem actions updated_count missing_count
           attempted fst snd negb andb].

Lemma format_ok_not_none (v : pyval) :
  format_ok v = true -> is_not_none v = true.
Proof. now destruct v. Qed.



Ltac run_u_in H :=
  cbv beta iota zeta
    delta [update_file update_body load_json dump_json from_nvd from_mitre
           settle bind_u unit_u escape of_res act count_updated count_missing
           version_label py_setitem actions updated_count missing_count
           attempted fst snd negb andb] in H.

Section RunFacts.

Variable read_file : string -> string -> read_outcome.
Variable is_file : string -> string -> bool.
Variable py_str : pyval -> string.
Variable write_file : nat -> string -> string -> pyval -> bool.
Variables json_dir output_dir : string.

Local Abbreviation turn name st :=
  (update_file read_file is_file py_str write_file json_dir output_dir name
     st).

Ltac split_u H :=
  run_u_in H;
  match type of H with
  | context [match read_file ?a ?b with _ => _ end] =>
      destruct (read_file a b) eqn:?
  | context [match json_loads ?a with _ => _ end] =>
      destruct (json_loads a) eqn:?
  | context [match py_get ?a ?k ?v with _ => _ end] =>
      unfold py_get in H; destruct a
  | context [match dict_lookup ?k ?d with _ => _ end] =>
      destruct (dict_lookup k d) eqn:?
  | context [if truthy ?a then _ else _] =>
      destruct (truthy a) eqn:?
  | context [if is_file ?a ?b then _ else _] =>
      destruct (is_file a b) eqn:?
  | context [match get_nvd_cvss_score ?a with _ => _ end] =>
      destruct (get_nvd_cvss_score a) as [[? ?]|?] eqn:?
  | context [match get_mitre_cvss_score ?a with _ => _ end] =>
      destruct (get_mitre_cvss_score a) as [[? ?]|?] eqn:?
  | context [if is_not_none ?a then _ else _] =>
      destruct (is_not_none a) eqn:?
  | context [if write_file ?n ?a ?b ?c then _ else _] =>
      destruct (write_file n a b c) eqn:?
  | context [if format_ok ?a then _ else _] =>
      destruct (format_ok a) eqn:?
  end.

Lemma update_file_step (name : string) (acts : list action) (u m a : nat)
  (o : outcome unit) (st' : tally) :
  turn name (mkTally acts u m a) = (o, st') ->
  exists added,
    actions st' = acts ++ added
    /\ (forall dir nm data,
          In (Wrote dir nm data) added ->
          dir = output_dir /\ nm = name
          /\ exists t d,
               read_file output_dir name = Text t
               /\ json_loads t = Some (PDict d)
               /\ cvss_update_of d data)
    /\ match o with
       | Done _ =>
           updated_count st'
           = (List.length (filter is_wrote added) + u)%nat
           /\ (updated_count st' + missing_count st'
               + List.length (filter is_no_id added)
               + List.length (filter is_error_line added)
               = S (u + m))%nat
       | Caught => False
       | Escapes _ =>
           updated_count st' = u /\ missing_count st' = m
           /\ filter is_no_id added = []
           /\ filter is_error_line added = []
           /\ (List.length (filter is_wrote added) <= 1)%nat
       end.
Proof.
  intro H. repeat split_u H;
    injection H as <- <-; cbn [actions updated_count missing_count];
    rewrite <- ?app_assoc; cbn [app];
    (eexists; split; [reflexivity|]); (split; [|cbn; repeat split; lia]);
    intros dir nm data Hin; cbn [In] in Hin;
    repeat match goal with
           | Hor : _ \/ _ |- _ => destruct Hor
           end;
    try discriminate; try contradiction;
    match goal with
    | Heq : Wrote _ _ _ = Wrote _ _ _ |- _ => injection Heq as <- <- <-
    end;
    (split; [reflexivity|]); (split; [reflexivity|]);
    do 2 eexists; (split; [reflexivity|]); (split; [eassumption|]);
    do 2 eexists; (split; [|reflexivity]);
    intros ->; discriminate.
Qed.

Local Abbreviation turns names st :=
  (update_files read_file is_file py_str write_file json_dir output_dir names
     st).

Lemma update_files_cons (name : string) (rest : list string) (st : tally) :
  turns (name :: rest) st
  = match turn name st with
    | (Done _, st1) => turns rest st1
    | (Caught, st1) => (Caught, st1)
    | (Escapes e, st1) => (Escapes e, st1)
    end.
Proof. reflexivity. Qed.

Lemma update_files_app (pre rest : list string) :
  forall st,
    turns (pre ++ rest) st
    = match turns pre st with
      | (Done _, st1) => turns rest st1
      | (Caught, st1) => (Caught, st1)
      | (Escapes e, st1) => (Escapes e, st1)
      end.
Proof.
  induction pre as [|name pre IH]; intro st; [reflexivity|].
  rewrite <- app_comm_cons, !update_files_cons.
  destruct (turn name st) as [[[]| |e] st1]; [apply IH | reflexivity..].
Qed.

Lemma update_files_run (names : list string) :
  forall (st : tally) (o : outcome unit) (st' : tally),
    turns names st = (o, st') ->
    exists added,
      actions st' = actions st ++ added
      /\ (forall dir nm data,
            In (Wrote dir nm data) added ->
            dir = output_dir /\ In nm names
            /\ exists t d,
                 read_file output_dir nm = Text t
                 /\ json_loads t = Some (PDict d)
                 /\ cvss_update_of d data)
      /\ match o with
         | Done _ =>
             updated_count st'
             = (List.length (filter is_wrote added) + updated_count st)%nat
             /\ (updated_count st' + missing_count st'
                 + List.length (filter is_no_id added)
                 + List.length (filter is_error_line added)
                 = List.length names + updated_count st + missing_count st)%nat
         | Caught => False
         | Escapes _ => True
         end.
Proof.
  induction names as [|name rest IH]; intros st o st' H.
  - injection H as <- <-. exists []. rewrite app_nil_r.
    split; [reflexivity|]. split; [intros ? ? ? []|]. cbn. lia.
  - rewrite update_files_cons in H.
    destruct (turn name st) as [o1 st1] eqn:E1.
    destruct st as [acts u m a].
    apply update_file_step in E1 as (added1 & Hacts1 & Hfrom1 & Hcount1).
    cbn [actions updated_count missing_count].
    destruct o1 as [[]| |e].
    + destruct (IH _ _ _ H) as (added2 & Hacts2 & Hfrom2 & Hcount2).
      exists (added1 ++ added2). rewrite Hacts2, Hacts1, app_assoc.
      split; [reflexivity|]. split.
      * intros dir nm data Hin. apply in_app_or in Hin as [Hin|Hin].
        -- destruct (Hfrom1 _ _ _ Hin) as (-> & -> & Hrest).
           split; [reflexivity|]. split; [now left | exact Hrest].
        -- destruct (Hfrom2 _ _ _ Hin) as (-> & Hnm & Hrest).
           split; [reflexivity|]. split; [now right | exact Hrest].
      * destruct o as [[]| |e]; [|exact Hcount2 | exact I].
        rewrite !filter_app, !length_app. cbn [List.length]. lia.
    + contradiction.
    + injection H as <- <-. exists added1. split; [exact Hacts1|].
      split; [|exact I].
      intros dir nm data Hin. destruct (Hfrom1 _ _ _ Hin) as (-> & -> & Hrest).
      split; [reflexivity|]. split; [now left | exact Hrest].
Qed.

End RunFacts.

(** A run that ends normally has dealt with every file the output
    directory offered in exactly one of four ways: it updated it, found no
    score for it, found no identifier in it, or reported an error for it.
    The files it rewrote are the ones it counts as updated, and its last
    action is to print the two counts. *)
Theorem cvss_run_counts_every_file :
  forall (read_file : string -> string -> read_outcome)
         (is_file : string -> string -> bool) (is_dir : string -> bool)
         (glob_json : string -> list string) (py_str : pyval -> string)
         (write_file : nat -> string -> string -> pyval -> bool)
         (json_dir output_dir : string) (st' : tally),
    is_dir json_dir = true ->
    is_dir output_dir = true ->
    main read_file is_file is_dir glob_json py_str write_file json_dir
      output_dir tally0 = (Done tt, st') ->
    (List.length (glob_json output_dir)
     = updated_count st' + missing_count st'
       + List.length (filter is_no_id (actions st'))
       + List.length (filter is_error_line (actions st')))%nat
    /\ List.length (filter is_wrote (actions st')) = updated_count st'
    /\ exists before,
         actions st'
         = before
           ++ [Printed (Summary (updated_count st') (missing_count st'))].
Proof.
  intros read_file is_file is_dir glob_json py_str write_file json_dir
    output_dir st' Hj Ho H.
  unfold main in H. rewrite Hj, Ho in H. cbn [negb] in H. unfold bind_u in H.
  destruct (update_files _ _ _ _ _ _ (glob_json output_dir) tally0)
    as [o st1] eqn:E.
  apply update_files_run in E as (added & Hacts & _ & Hcount).
  destruct o as [[]| |e]; [|contradiction | discriminate].
  unfold act in H. injection H as <-.
  cbn [actions updated_count missing_count]. cbn in Hacts, Hcount.
  destruct Hcount as [Hu Hall]. rewrite Hacts, !filter_app, !length_app.
  cbn. split; [lia|]. split; [lia|]. now exists added.
Qed.

Lemma cvss_run_counts_every_file_witness :
  let st' :=
    snd (main (sample_disk nvd_scored_text) sample_is_file (fun _ => true)
           sample_glob str_of_text every_write_ok "json" "output" tally0) in
  (List.length (sample_glob "output")
   = updated_count st' + missing_count st'
     + List.length (filter is_no_id (actions st'))
     + List.length (filter is_error_line (actions st')))%nat
  /\ List.length (filter is_wrote (actions st')) = updated_count st'
  /\ exists before,
       actions st'
       = before
         ++ [Printed (Summary (updated_count st') (missing_count st'))].
Proof.
  apply (cvss_run_counts_every_file (sample_disk nvd_scored_text)
           sample_is_file (fun _ => true) sample_glob str_of_text
           every_write_ok "json" "output");
    vm_compute; reflexivity.
Defined.

(** The run of that example, evaluated: the first file is updated from its
    NVD file, the second has no source file. *)
Example cvss_run_sample :
  main (sample_disk nvd_scored_text) sample_is_file (fun _ => true)
    sample_glob str_of_text every_write_ok "json" "output" tally0
  = (Done tt,
     mkTally
       [Opened "output" "a.json"; Opened "json" "CVE-2024-1234.nvd";
        Wrote "output" "a.json"
          (PDict [("CVE_ID", PStr "CVE-2024-1234"); ("Category", PStr "RCE");
                  ("CVSS_score", score_9_8);
                  ("CVSS_version", PStr "3.1.nvd")]);
        Printed (UpdatedLine (PStr "CVE-2024-1234") score_9_8 "3.1.nvd");
        Opened "output" "b.json";
        Printed (NoScoreLine (PStr "CVE-2024-5678"));
        Printed (Summary 1 1)]
       1 1 1).
Proof. vm_compute. reflexivity. Qed.

(** The run only ever rewrites files the output directory offered, and only
    to add the two CVSS fields: what it writes to a file is the object it
    read from that file with [CVSS_score] set to a score that is not [None]
    and [CVSS_version] set to a string, every other field being kept, in
    its place. This holds for every write of every run, also of one that
    an exception ends. *)
Theorem cvss_run_only_sets_cvss_fields :
  forall (read_file : string -> string -> read_outcome)
         (is_file : string -> string -> bool) (is_dir : string -> bool)
         (glob_json : string -> list string) (py_str : pyval -> string)
         (write_file : nat -> string -> string -> pyval -> bool)
         (json_dir output_dir : string) (o : outcome unit) (st' : tally)
         (dir name : string) (data : pyval),
    main read_file is_file is_dir glob_json py_str write_file json_dir
      output_dir tally0 = (o, st') ->
    In (Wrote dir name data) (actions st') ->
    dir = output_dir /\ In name (glob_json output_dir)
    /\ exists t d,
         read_file output_dir name = Text t
         /\ json_loads t = Some (PDict d)
         /\ cvss_update_of d data.
Proof.
  intros read_file is_file is_dir glob_json py_str write_file json_dir
    output_dir o st' dir name data H Hin.
  unfold main in H.
  destruct (is_dir json_dir); cbn [negb] in H;
    [|injection H as <- <-; cbn in Hin; destruct Hin as [|[]]; discriminate].
  destruct (is_dir output_dir); cbn [negb] in H;
    [|injection H as <- <-; cbn in Hin; destruct Hin as [|[]]; discriminate].
  unfold bind_u in H.
  destruct (update_files _ _ _ _ _ _ (glob_json output_dir) tally0)
    as [o1 st1] eqn:E.
  apply update_files_run in E as (added & Hacts & Hfrom & _).
  cbn in Hacts.
  assert (Hin1 : In (Wrote dir name data) added).
  { destruct o1 as [[]| |e]; injection H as <- <-;
      rewrite ?Hacts in Hin; try exact Hin.
    cbn [actions] in Hin.
    apply in_app_or in Hin as [Hin|[Hin|[]]]; [exact Hin | discriminate]. }
  exact (Hfrom _ _ _ Hin1).
Qed.

Lemma cvss_run_only_sets_cvss_fields_witness :
  "output"%string = "output"%string
  /\ In "a.json"%string (sample_glob "output")
  /\ exists t d,
       sample_disk nvd_scored_text "output" "a.json" = Text t
       /\ json_loads t = Some (PDict d)
       /\ cvss_update_of d
            (PDict [("CVE_ID", PStr "CVE-2024-1234"); ("Category", PStr "RCE");
                    ("CVSS_score", score_9_8);
                    ("CVSS_version", PStr "3.1.nvd")]).
Proof.
  apply (cvss_run_only_sets_cvss_fields (sample_disk nvd_scored_text)
           sample_is_file (fun _ => true) sample_glob str_of_text
           every_write_ok "json" "output" (Done tt)
           (snd (main (sample_disk nvd_scored_text) sample_is_file
                   (fun _ => true) sample_glob str_of_text every_write_ok
                   "json" "output" tally0))).
  - vm_compute. reflexivity.
  - vm_compute. right. right. left. reflexivity.
Defined.

(** An NVD file that cannot be loaded leaves the output file as it is, also
    when the MITRE file offers a score: when the NVD file of the identifier
    exists and cannot be opened or read, or holds no JSON, the turn ends
    with the error line, without opening the MITRE file, rewriting the
    output file or counting anything. *)
Theorem cvss_unloadable_nvd_blocks_mitre :
  forall (read_file : string -> string -> read_outcome)
         (is_file : string -> string -> bool) (py_str : pyval -> string)
         (write_file : nat -> string -> string -> pyval -> bool)
         (json_dir output_dir name : string) (st : tally)
         (t : string) (d : pydict) (cve_id : pyval),
    let nvd_file := (py_str cve_id ++ ".nvd")%string in
    read_file output_dir name = Text t ->
    json_loads t = Some (PDict d) ->
    dict_lookup "CVE_ID" d = Some cve_id ->
    truthy cve_id = true ->
    is_file json_dir nvd_file = true ->
    caught_on_load (read_file json_dir nvd_file) = true ->
    update_file read_file is_file py_str write_file json_dir output_dir name st
    = (Done tt,
       mkTally
         (actions st
          ++ [Opened output_dir name; Opened json_dir nvd_file;
              Printed (ErrorProcessing name)])
         (updated_count st) (missing_count st) (attempted st)).
Proof.
  intros read_file is_file py_str write_file json_dir output_dir name st t d
    cve_id nvd_file Hout Hd Hid Htruthy Hfile Hbad.
  subst nvd_file. destruct st as [acts updated missing tried_writes].
  unfold caught_on_load in Hbad. run_u.
  rewrite Hout, Hd. unfold py_get. rewrite Hid, Htruthy. run_u.
  rewrite Hfile. run_u.
  destruct (read_file json_dir (py_str cve_id ++ ".nvd")%string) as [tn| |];
    [destruct (json_loads tn); [discriminate|] | | discriminate];
    run_u; rewrite <- !app_assoc; reflexivity.
Qed.

Lemma cvss_unloadable_nvd_blocks_mitre_witness :
  option_map get_mitre_cvss_score (json_loads mitre_scored_text)
  = Some (Ok (score_9_3, PStr "4.0"))
  /\ update_file (sample_disk "not JSON") sample_is_file str_of_text
       every_write_ok "json" "output" "a.json" tally0
     = (Done tt,
        mkTally
          [Opened "output" "a.json"; Opened "json" "CVE-2024-1234.nvd";
           Printed (ErrorProcessing "a.json")]
          0 0 0).
Proof.
  split; [vm_compute; reflexivity|].
  apply (cvss_unloadable_nvd_blocks_mitre (sample_disk "not JSON")
           sample_is_file str_of_text every_write_ok "json" "output" "a.json"
           tally0 a_text
           [("CVE_ID", PStr "CVE-2024-1234"); ("Category", PStr "RCE")]
           (PStr "CVE-2024-1234"));
    vm_compute; reflexivity.
Defined.



(** An exception of [get_nvd_cvss_score] ends the whole run: line 125 does
    not catch it, so the files after the one whose NVD file raised it are
    not looked at and no summary is printed. The one exception that
    function can raise is a [KeyError]. *)
Theorem cvss_nvd_exception_ends_the_run :
  forall (read_file : string -> string -> read_outcome)
         (is_file : string -> string -> bool) (is_dir : string -> bool)
         (glob_json : string -> list string) (py_str : pyval -> string)
         (write_file : nat -> string -> string -> pyval -> bool)
         (json_dir output_dir name : string) (pre post : list string)
         (st1 : tally) (t tn : string) (d : pydict)
         (cve_id nvd_data : pyval) (e : exn),
    let nvd_file := (py_str cve_id ++ ".nvd")%string in
    is_dir json_dir = true ->
    is_dir output_dir = true ->
    glob_json output_dir = pre ++ name :: post ->
    update_files read_file is_file py_str write_file json_dir output_dir pre
      tally0 = (Done tt, st1) ->
    read_file output_dir name = Text t ->
    json_loads t = Some (PDict d) ->
    dict_lookup "CVE_ID" d = Some cve_id ->
    truthy cve_id = true ->
    is_file json_dir nvd_file = true ->
    read_file json_dir nvd_file = Text tn ->
    json_loads tn = Some nvd_data ->
    get_nvd_cvss_score nvd_data = Raise e ->
    main read_file is_file is_dir glob_json py_str write_file json_dir
      output_dir tally0
    = (Escapes e,
       mkTally
         (actions st1 ++ [Opened output_dir name; Opened json_dir nvd_file])
         (updated_count st1) (missing_count st1) (attempted st1)).
Proof.
  intros read_file is_file is_dir glob_json py_str write_file json_dir
    output_dir name pre post st1 t tn d cve_id nvd_data e nvd_file Hj Ho
    Hglob Hpre Hout Hd Hid Htruthy Hfile Hnvd Hdata Hraise.
  subst nvd_file. unfold main. rewrite Hj, Ho, Hglob. cbn [negb].
  unfold bind_u at 1. rewrite update_files_app, Hpre, update_files_cons.
  destruct st1 as [acts updated missing tried_writes].
  assert (Hturn :
    update_file read_file is_file py_str write_file json_dir output_dir name
      (mkTally acts updated missing tried_writes)
    = (Escapes e,
       mkTally
         (acts ++ [Opened output_dir name;
                   Opened json_dir (py_str cve_id ++ ".nvd")%string])
         updated missing tried_writes)).
  { run_u. rewrite Hout, Hd. unfold py_get. rewrite Hid, Htruthy. run_u.
    rewrite Hfile. run_u. rewrite Hnvd, Hdata, Hraise. run_u.
    rewrite <- !app_assoc. reflexivity. }
  rewrite Hturn. reflexivity.
Qed.

Lemma cvss_nvd_exception_ends_the_run_witness :
  main (sample_disk nvd_keyed_text) sample_is_file (fun _ => true)
    sample_glob str_of_text every_write_ok "json" "output" tally0
  = (Escapes KeyError,
     mkTally [Opened "output" "a.json"; Opened "json" "CVE-2024-1234.nvd"]
       0 0 0).
Proof.
  apply (cvss_nvd_exception_ends_the_run (sample_disk nvd_keyed_text)
           sample_is_file (fun _ => true) sample_glob str_of_text
           every_write_ok "json" "output" "a.json" [] ["b.json"%string]
           tally0 a_text nvd_keyed_text
           [("CVE_ID", PStr "CVE-2024-1234"); ("Category", PStr "RCE")]
           (PStr "CVE-2024-1234") (PDict [("vulnerabilities", PDict [])])
           KeyError);
    vm_compute; reflexivity.
Defined.

(** An identifier or a score that takes no format specification (a list or
    an object) ends the turn with a [TypeError] after the output file has
    been rewritten: the file carries the new fields, and the update is
    neither printed nor counted. *)
Theorem cvss_unformattable_value_raises_after_the_write :
  forall (read_file : string -> string -> read_outcome)
         (is_file : string -> string -> bool) (py_str : pyval -> string)
         (write_file : nat -> string -> string -> pyval -> bool)
         (json_dir output_dir name : string) (st : tally)
         (t tn v : string) (d : pydict) (cve_id nvd_data score : pyval),
    let nvd_file := (py_str cve_id ++ ".nvd")%string in
    let label := (v ++ ".nvd")%string in
    let data := PDict (with_cvss score label d) in
    read_file output_dir name = Text t ->
    json_loads t = Some (PDict d) ->
    dict_lookup "CVE_ID" d = Some cve_id ->
    truthy cve_id = true ->
    is_file json_dir nvd_file = true ->
    read_file json_dir nvd_file = Text tn ->
    json_loads tn = Some nvd_data ->
    get_nvd_cvss_score nvd_data = Ok (score, PStr v) ->
    is_not_none score = true ->
    (format_ok cve_id && format_ok score)%bool = false ->
    py_str (PStr v) = v ->
    write_file (attempted st) output_dir name data = true ->
    update_file read_file is_file py_str write_file json_dir output_dir name st
    = (Escapes TypeError,
       mkTally
         (actions st
          ++ [Opened output_dir name; Opened json_dir nvd_file;
              Wrote output_dir name data])
         (updated_count st) (missing_count st) (S (attempted st))).
Proof.
  intros read_file is_file py_str write_file json_dir output_dir name st t tn
    v d cve_id nvd_data score nvd_file label data Hout Hd Hid Htruthy Hfile
    Hnvd Hdata Hscore Hsome Hfmt Hstr Hwrite.
  subst nvd_file label data. unfold with_cvss in *.
  destruct st as [acts updated missing tried_writes]. cbn [attempted] in Hwrite.
  run_u.
  rewrite Hout, Hd. unfold py_get. rewrite Hid, Htruthy. run_u.
  rewrite Hfile. run_u. rewrite Hnvd, Hdata, Hscore. run_u.
  rewrite Hsome. run_u. rewrite Hsome. run_u. rewrite Hstr.
  change ("." ++ "nvd")%string with ".nvd"%string.
  rewrite Hwrite. run_u.
  change (if format_ok cve_id then format_ok score else false)
    with (format_ok cve_id && format_ok score)%bool.
  rewrite Hfmt. rewrite <- !app_assoc. reflexivity.
Qed.

Lemma cvss_unformattable_value_raises_after_the_write_witness :
  update_file listed_disk (fun _ _ => true) str_of_text every_write_ok "json"
    "output" "a.json" tally0
  = (Escapes TypeError,
     mkTally
       [Opened "output" "a.json"; Opened "json" ".nvd";
        Wrote "output" "a.json"
          (PDict [("CVE_ID", PList [PStr "CVE-2024-1234"]);
                  ("CVSS_score", score_9_8);
                  ("CVSS_version", PStr "3.1.nvd")])]
       0 0 1).
Proof.
  apply (cvss_unformattable_value_raises_after_the_write listed_disk
           (fun _ _ => true) str_of_text every_write_ok "json" "output"
           "a.json" tally0 listed_text nvd_scored_text "3.1"
           [("CVE_ID", PList [PStr "CVE-2024-1234"])]
           (PList [PStr "CVE-2024-1234"])
           (PDict
              [("vulnerabilities",
                 PList
                   [PDict
                      [("cve",
                         PDict
                           [("metrics",
                              PDict
                                [("cvssMetricV31",
                                   PList
                                     [PDict
                                        [("cvssData",
                                           PDict
                                             [("baseScore",
                                                score_9_8)])]])])])]])])
           score_9_8);
    vm_compute; reflexivity.
Defined.
